(** * Gambit Monthly: the statistics aggregation core of [src/src/App.jsx]

    A shallow embedding of the tournament filter, the game tally builder,
    the player aggregator, the metric finaliser and the final sort, and the
    properties of them that the specification states.

    Modelling conventions.
    - A JavaScript object used as a map is a list of own properties in
      creation order ([JsObject]); [Object.values] enumerates it the way
      [OrdinaryOwnPropertyKeys] does: array-index keys first, in ascending
      numeric order, then the other string keys in creation order.
    - The objects are created as [{}] and inherit from [Object.prototype]:
      a lookup [o[k]] that finds no own property finds the inherited member
      for the twelve names of [JsObject.prototypeNames], which is truthy.
      The program tests [!o[k]] before it creates a record, so no record is
      created under such a name, and the additions that follow go to the
      inherited member, a function of the host, where they leave [NaN]
      in properties that nothing reads as a number again.
    - [o["__proto__"] = v] creates no own property: it installs [v] as the
      prototype of [o].  The list records [v] under that name; lookups that
      would go through an installed prototype are [JsObject.Foreign], and a
      computation that depends on one is [Unmodelled].
    - Win/draw/loss/game/tournament counters are built by [+= 1] from [0]
      over JavaScript arrays, whose length is below [2^32]; they are far
      below [2^53], where double arithmetic on integers is exact, and are
      modelled in [N].
    - Scores, ratings, timestamps and everything computed from them are
      JavaScript Numbers.  The code is written once against the interface
      [JsNumber] and read at two interpretations: [Binary64] (IEEE-754
      doubles, the primitive floats of the kernel) is what the program
      runs on; [Exact] (rationals) is the same program when no operation
      rounds, which is the case for integer scores and ratings of ordinary
      size.
    - An absent, [undefined] or [null] field is [None]; identity fields are
      strings and numeric fields are Numbers when present. *)

From Stdlib Require Import ZArith NArith QArith Qabs List String Ascii Bool.
From Stdlib Require Import Lia Lqa Permutation Sorted DecimalString.
From Stdlib Require Import PrimFloat FloatOps SpecFloat FloatClass.
Import ListNotations.

Set Implicit Arguments.

(* ================================================================== *)
(** * JavaScript values *)

(** [ToBoolean] of an optional string: absent and [""] are falsy. *)
Definition truthyStr (v : option string) : bool :=
  match v with
  | Some EmptyString => false
  | Some _ => true
  | None => false
  end.

(** [a || b] on optional strings. *)
Definition orStr (a b : option string) : option string :=
  if truthyStr a then a else b.

(** [a ?? b]. *)
Definition nullish {A : Type} (a b : option A) : option A :=
  match a with
  | Some _ => a
  | None => b
  end.

(** The value of a non-falsy optional string. *)
Definition resolved (v : option string) : option string :=
  if truthyStr v then v else None.

(* ================================================================== *)
(** * JavaScript objects used as maps *)

Module JsObject.

(** Own properties, in the order in which they were created. *)
Definition t (V : Type) : Type := list (string * V).

Definition empty {V : Type} : t V := [].

(** The own property [k] of [o] ([None] when there is none); for
    [__proto__], the prototype installed by an assignment. *)
Fixpoint get {V : Type} (o : t V) (k : string) : option V :=
  match o with
  | [] => None
  | (k', v) :: o' => if String.eqb k k' then Some v else get o' k
  end.

(** [o[k] = v]: an existing property keeps its place, a new one is
    created last. *)
Fixpoint set {V : Type} (o : t V) (k : string) (v : V) : t V :=
  match o with
  | [] => [(k, v)]
  | (k', v') :: o' =>
      if String.eqb k k' then (k', v) :: o' else (k', v') :: set o' k v
  end.

(** In-place mutation of the object stored under [k]. *)
Definition modify {V : Type} (o : t V) (k : string) (f : V -> V) : t V :=
  match get o k with
  | Some v => set o k (f v)
  | None => o
  end.

Definition keys {V : Type} (o : t V) : list string := map fst o.

Definition digitOf (c : ascii) : option N :=
  let n := N_of_ascii c in
  if ((48 <=? n) && (n <=? 57))%N then Some (n - 48)%N else None.

Fixpoint parseDigits (s : string) (acc : N) : option N :=
  match s with
  | EmptyString => Some acc
  | String c s' =>
      match digitOf c with
      | Some dg => parseDigits s' (10 * acc + dg)%N
      | None => None
      end
  end.

(** A property key is an array index when it is the canonical decimal
    form of an integer in [0, 2^32 - 2]. *)
Definition arrayIndex (k : string) : option N :=
  match k with
  | EmptyString => None
  | String c rest =>
      if Ascii.eqb c "0" && negb (String.eqb rest EmptyString) then None
      else match parseDigits k 0 with
           | Some n => if (n <=? 4294967294)%N then Some n else None
           | None => None
           end
  end.

Definition isIndex (k : string) : bool :=
  match arrayIndex k with Some _ => true | None => false end.

Definition indexOf (k : string) : N :=
  match arrayIndex k with Some n => n | None => 0%N end.

Fixpoint insertByIndex {V : Type} (e : string * V) (l : list (string * V))
  : list (string * V) :=
  match l with
  | [] => [e]
  | e' :: l' =>
      if (indexOf (fst e) <=? indexOf (fst e'))%N then e :: l
      else e' :: insertByIndex e l'
  end.

Definition sortByIndex {V : Type} (l : list (string * V)) : list (string * V) :=
  fold_right insertByIndex [] l.

(** The own properties in enumeration order. *)
Definition entries {V : Type} (o : t V) : list (string * V) :=
  sortByIndex (filter (fun e => isIndex (fst e)) o)
    ++ filter (fun e => negb (isIndex (fst e))) o.

(** The name under which an installed prototype is recorded. *)
Definition slot : string := "__proto__"%string.

Definition hasSlot {V : Type} (o : t V) : bool :=
  match get o slot with Some _ => true | None => false end.

(** The own enumerable properties: all but the installed prototype. *)
Definition enumerable {V : Type} (o : t V) : t V :=
  filter (fun e => negb (String.eqb (fst e) slot)) o.

(** [Object.values(o)]. *)
Definition values {V : Type} (o : t V) : list V :=
  map snd (entries (enumerable o)).

(** The property names that every ordinary object inherits from
    [Object.prototype], with the legacy ones of browsers.  Each of them is
    a function there, and [__proto__] reads as the prototype itself: all
    are truthy, and none is an array or has a [forEach]. *)
Definition prototypeNames : list string :=
  [ "constructor"; "hasOwnProperty"; "isPrototypeOf"; "propertyIsEnumerable";
    "toLocaleString"; "toString"; "valueOf"; "__proto__";
    "__defineGetter__"; "__defineSetter__";
    "__lookupGetter__"; "__lookupSetter__" ]%string.

Definition inherits (k : string) : bool :=
  existsb (String.eqb k) prototypeNames.

(** What [o[k]] finds. *)
Inductive Lookup (V : Type) : Type :=
| Own (v : V)
| Inherited
| Absent
| Foreign.
Arguments Own {V} v.
Arguments Inherited {V}.
Arguments Absent {V}.
Arguments Foreign {V}.

(** [o[k]]: the own property; else, through an installed prototype,
    something this model does not follow; else the member of
    [Object.prototype] of that name; else [undefined]. *)
Definition lookup {V : Type} (o : t V) (k : string) : Lookup V :=
  match get o k with
  | Some v => Own v
  | None =>
      if hasSlot o then Foreign
      else if inherits k then Inherited else Absent
  end.

End JsObject.

(* ================================================================== *)
(** * Completions *)

(** How a computation of the component ends: with a value; with the
    [TypeError] of calling [forEach] on a value that has none; or past
    what this model represents (counters that are [NaN], members of host
    objects, an installed prototype). *)
Inductive Computed (A : Type) : Type :=
| Returned (value : A)
| ThrowsTypeError
| Unmodelled.
Arguments Returned {A} value.
Arguments ThrowsTypeError {A}.
Arguments Unmodelled {A}.

Definition andThen {A B : Type} (c : Computed A) (k : A -> Computed B)
  : Computed B :=
  match c with
  | Returned value => k value
  | ThrowsTypeError => ThrowsTypeError
  | Unmodelled => Unmodelled
  end.

(** [l.forEach((x) => ...)] with a body that updates [s] and may throw. *)
Fixpoint forEach {A S : Type} (body : S -> A -> Computed S) (l : list A)
         (s : S) : Computed S :=
  match l with
  | [] => Returned s
  | x :: l' => andThen (body s x) (forEach body l')
  end.

(** Enumeration order of a list of distinct keys given in creation order. *)
Definition ownKeyOrder (ks : list string) : list string :=
  JsObject.keys (JsObject.entries (map (fun k => (k, tt)) ks)).

(* ================================================================== *)
(** * JavaScript Numbers *)

Class JsNumber (num : Type) : Type := {
  (** the Number of a counter or of an integer literal *)
  ofCount : N -> num;
  nadd : num -> num -> num;
  nsub : num -> num -> num;
  nmul : num -> num -> num;
  ndiv : num -> num -> num;
  (** [a < b] *)
  nlt : num -> num -> bool;
  (** [ToBoolean]: false on [0], [-0] and [NaN] *)
  truthyNum : num -> bool;
  (** [Number.isFinite] *)
  isFinite : num -> bool;
  (** [TimeClip]: the integral time value of [new Date(x)], [None] for an
      invalid date *)
  timeClip : num -> option Z
}.

Declare Scope js_scope.
Delimit Scope js_scope with js.
Notation "a + b" := (nadd a b) : js_scope.
Notation "a - b" := (nsub a b) : js_scope.
Notation "a * b" := (nmul a b) : js_scope.
Notation "a / b" := (ndiv a b) : js_scope.
Notation "a <? b" := (nlt a b) : js_scope.
Notation "a >? b" := (nlt b a) : js_scope.

(** [a || b] on Numbers. *)
Definition orNum {num : Type} `{JsNumber num} (a b : num) : num :=
  if truthyNum a then a else b.

(* ================================================================== *)
(** * Data model *)

(** The per-player record of [fetchTournamentGames]:
    [{ w: 0, d: 0, l: 0, games: 0 }]. *)
Module Tally.
Record t : Type := mk { w : N; d : N; l : N; games : N }.
Definition zero : t := mk 0 0 0 0.
End Tally.

(** A game of the games feed, as far as the tally builder reads it:
    [game?.players?.white?.user?.name] and so on; [None] when any link of
    the optional chain is missing. *)
Module Game.
Record t : Type := mk {
  whiteName : option string;
  whiteId : option string;
  blackName : option string;
  blackId : option string;
  winner : option string
}.
End Game.

(** A row of the results feed, as far as the aggregator reads it. *)
Module ResultRow.
Record t (num : Type) : Type := mk {
  username : option string;
  name : option string;
  userName : option string;
  userId : option string;
  score : option num;
  points : option num;
  performance : option num;
  perf : option num;
  performanceRating : option num
}.
End ResultRow.

(** The second argument of [sumStats]. *)
Module Update.
Record t (num : Type) : Type := mk {
  points : num;
  w : N;
  d : N;
  l : N;
  tournaments : N;
  perfSum : num;
  perfWeight : num
}.
End Update.

(** An entry of [aggregate]. *)
Module Entry.
Record t (num : Type) : Type := mk {
  name : string;
  points : num;
  w : N;
  d : N;
  l : N;
  tournaments : N;
  perfSum : num;
  perfWeight : num
}.
End Entry.

(** A row of [aggregatedStats]: the entry spread, plus the derived fields. *)
Module StatRow.
Record t (num : Type) : Type := mk {
  entry : Entry.t num;
  games : N;
  winRate : num;
  performance : num
}.
Definition name {num : Type} (r : t num) : string := Entry.name (entry r).
Definition points {num : Type} (r : t num) : num := Entry.points (entry r).
Definition tournaments {num : Type} (r : t num) : N := Entry.tournaments (entry r).
Definition perfWeight {num : Type} (r : t num) : num := Entry.perfWeight (entry r).
End StatRow.

(** An item of the team arena feed, and the tournament built from it. *)
Module RawTournament.
Record t (num : Type) : Type := mk {
  id : string;
  fullName : option string;
  name : option string;
  startsAt : option num;
  createdAt : option num;
  minutes : option num;
  nbPlayers : option num
}.
End RawTournament.

Module Tournament.
Record t (num : Type) : Type := mk {
  id : string;
  fullName : string;
  startsAt : num;
  minutes : option num;
  nbPlayers : option num
}.
End Tournament.

(* ================================================================== *)
(** * Game Tally Builder: the reduction inside [fetchTournamentGames] *)

(** [winner === s]. *)
Definition strictEq (v : option string) (s : string) : bool :=
  match v with
  | Some s' => String.eqb s' s
  | None => false
  end.

Definition incGames (s : Tally.t) : Tally.t :=
  Tally.mk (Tally.w s) (Tally.d s) (Tally.l s) (Tally.games s + 1).
Definition incW (s : Tally.t) : Tally.t :=
  Tally.mk (Tally.w s + 1) (Tally.d s) (Tally.l s) (Tally.games s).
Definition incD (s : Tally.t) : Tally.t :=
  Tally.mk (Tally.w s) (Tally.d s + 1) (Tally.l s) (Tally.games s).
Definition incL (s : Tally.t) : Tally.t :=
  Tally.mk (Tally.w s) (Tally.d s) (Tally.l s + 1) (Tally.games s).

(** [if (!stats[k]) stats[k] = { w: 0, d: 0, l: 0, games: 0 }]: a record
    is created only when the lookup finds nothing; an own record and an
    inherited member are both truthy.  [stats] starts as [{}] and is
    written only here, so no prototype is ever installed in it. *)
Definition ensureTally (stats : JsObject.t Tally.t) (k : string)
  : JsObject.t Tally.t :=
  match JsObject.lookup stats k with
  | JsObject.Absent => JsObject.set stats k Tally.zero
  | _ => stats
  end.

(** The body of [games.forEach((game) => ...)].  An increment
    [stats[k].games += 1] changes the own record of [k]; when [stats[k]]
    is an inherited member the increment goes to that member and no own
    property of [stats] changes. *)
Definition tallyGame (stats : JsObject.t Tally.t) (game : Game.t)
  : JsObject.t Tally.t :=
  let white := orStr (Game.whiteName game) (Game.whiteId game) in
  let black := orStr (Game.blackName game) (Game.blackId game) in
  match resolved white, resolved black with
  | Some white, Some black =>
      let winner := Game.winner game in
      let stats := ensureTally stats white in
      let stats := ensureTally stats black in
      let stats := JsObject.modify stats white incGames in
      let stats := JsObject.modify stats black incGames in
      if strictEq winner "white" then
        JsObject.modify (JsObject.modify stats white incW) black incL
      else if strictEq winner "black" then
        JsObject.modify (JsObject.modify stats black incW) white incL
      else
        JsObject.modify (JsObject.modify stats white incD) black incD
  | _, _ => stats
  end.

(** [fetchTournamentGames], from the parsed game list on. *)
Definition fetchTournamentGames (games : list Game.t) : JsObject.t Tally.t :=
  fold_left tallyGame games JsObject.empty.

(* ================================================================== *)
(** * Strings and dates of the host *)

(** [s.includes(sub)]. *)
Fixpoint includes (s sub : string) : bool :=
  String.prefix sub s
  || match s with
     | EmptyString => false
     | String _ s' => includes s' sub
     end.

(** [s.padStart(n, c)] for a one-character filler. *)
Definition padStart (n : nat) (c : ascii) (s : string) : string :=
  String.concat EmptyString (repeat (String c EmptyString) (n - String.length s))
    ++ s.

(** [String(z)] of an integral Number. *)
Definition stringOfInt (z : Z) : string := NilZero.string_of_int (Z.to_int z).

(** ASCII lower-casing, the restriction of [String.prototype.toLowerCase]
    to ASCII text; used for the examples. *)
Definition asciiToLower (c : ascii) : ascii :=
  let n := N_of_ascii c in
  if ((65 <=? n) && (n <=? 90))%N then ascii_of_N (n + 32) else c.

Fixpoint asciiToLowerCase (s : string) : string :=
  match s with
  | EmptyString => EmptyString
  | String c s' => String (asciiToLower c) (asciiToLowerCase s')
  end.

Section UtcDate.
Local Open Scope Z_scope.

Definition msPerDay : Z := 86400000.

(** Days since the epoch of a time value. *)
Definition dayOf (t : Z) : Z := t / msPerDay.

(** Proleptic Gregorian year and month (1 to 12) of a day number. *)
Definition civilFromDays (days : Z) : Z * Z :=
  let z := days + 719468 in
  let era := z / 146097 in
  let doe := z - era * 146097 in
  let yoe := (doe - doe / 1460 + doe / 36524 - doe / 146096) / 365 in
  let y := yoe + era * 400 in
  let doy := doe - (365 * yoe + yoe / 4 - yoe / 100) in
  let mp := (5 * doy + 2) / 153 in
  let m := if mp <? 10 then mp + 3 else mp - 9 in
  (if m <=? 2 then y + 1 else y, m).

(** [d.getUTCFullYear()] and [d.getUTCMonth()] of a valid date. *)
Definition getUTCFullYear (t : Z) : Z := fst (civilFromDays (dayOf t)).
Definition getUTCMonth (t : Z) : Z := snd (civilFromDays (dayOf t)) - 1.
End UtcDate.

(* ================================================================== *)
(** * The core, over any interpretation of Numbers *)

(** Stable sort by a comparator, as [Array.prototype.sort]: [a] moves
    behind [b] only when [cmp a b > 0]. *)
Section ArraySort.
Context {num : Type} `{JsNumber num} {A : Type}.
Variable cmp : A -> A -> num.

Fixpoint insertSorted (x : A) (l : list A) : list A :=
  match l with
  | [] => [x]
  | y :: l' =>
      if (cmp x y >? ofCount 0)%js then y :: insertSorted x l' else x :: l
  end.

Definition arraySort (l : list A) : list A := fold_right insertSorted [] l.
End ArraySort.

Section Core.
Context {num : Type} `{JsNumber num}.
Local Open Scope js_scope.

Definition zero : num := ofCount 0.
Definition one : num := ofCount 1.

(** [normalizeMs] of a Number, for which [Number(value)] is the value
    itself: the component calls it on the first truthy of
    [item.startsAt], [item.createdAt] and [Date.now()].  [now] is the
    value of the [Date.now()] inside. *)
Definition normalizeMs (now : num) (value : num) : num :=
  if isFinite value
  then if value <? ofCount 10000000000 then value * ofCount 1000 else value
  else now.

(** [formatMonthKey]. *)
Definition formatMonthKey (ms : num) : string :=
  match timeClip ms with
  | None => "NaN-NaN"
  | Some t =>
      let y := getUTCFullYear t in
      let m := padStart 2 "0" (stringOfInt (getUTCMonth t + 1)) in
      (stringOfInt y ++ "-" ++ m)%string
  end.

(** [safeNumber]. *)
Definition safeNumber (value : option num) : num :=
  match value with
  | Some n => if isFinite n then n else zero
  | None => zero
  end.

(** [getUserName]. *)
Definition getUserName (entry : ResultRow.t num) : option string :=
  orStr (orStr (orStr (ResultRow.username entry) (ResultRow.name entry))
               (ResultRow.userName entry))
        (ResultRow.userId entry).

(** [sumStats]; the mutated target is returned. *)
Definition sumStats (target : Entry.t num) (update : Update.t num) : Entry.t num :=
  Entry.mk (Entry.name target)
    (Entry.points target + Update.points update)
    (Entry.w target + Update.w update)%N
    (Entry.d target + Update.d update)%N
    (Entry.l target + Update.l update)%N
    (Entry.tournaments target + Update.tournaments update)%N
    (Entry.perfSum target + Update.perfSum update)
    (Entry.perfWeight target + Update.perfWeight update).

(** The first truthy of [item.startsAt], [item.createdAt], [Date.now()]. *)
Definition rawStartsAt (item : RawTournament.t num) (now : num) : num :=
  match RawTournament.startsAt item with
  | Some s => if truthyNum s then s
              else match RawTournament.createdAt item with
                   | Some c => orNum c now
                   | None => now
                   end
  | None => match RawTournament.createdAt item with
            | Some c => orNum c now
            | None => now
            end
  end.

(** The object built per item in [loadTournaments]; [nowArg] and
    [nowNorm] are the two readings of the clock. *)
Definition mkTournament (nowArg nowNorm : num) (item : RawTournament.t num)
  : Tournament.t num :=
  Tournament.mk (RawTournament.id item)
    (match orStr (orStr (RawTournament.fullName item) (RawTournament.name item))
                 (Some "Untitled Tournament"%string) with
     | Some s => s
     | None => EmptyString
     end)
    (normalizeMs nowNorm (rawStartsAt item nowArg))
    (RawTournament.minutes item)
    (RawTournament.nbPlayers item).

(** [filterTournaments]; the two filters are strings, [""] when absent. *)
Section Filter.
Variable toLowerCase : string -> string.
Variables monthFilter nameFilter : string.

Definition byMonth (t : Tournament.t num) : bool :=
  String.eqb monthFilter EmptyString
  || String.eqb (formatMonthKey (Tournament.startsAt t)) monthFilter.

Definition byName (t : Tournament.t num) : bool :=
  String.eqb nameFilter EmptyString
  || includes (toLowerCase (Tournament.fullName t)) (toLowerCase nameFilter).

Definition filterTournaments (tournaments : list (Tournament.t num))
  : list (Tournament.t num) :=
  filter (fun t => byMonth t && byName t) tournaments.
End Filter.

(** [stats.games > 0 ? stats.games : points || 1]. *)
Definition rowWeight (stats : Tally.t) (points : num) : num :=
  if (0 <? Tally.games stats)%N then ofCount (Tally.games stats)
  else orNum points one.

Definition rowPoints (player : ResultRow.t num) : num :=
  safeNumber (nullish (ResultRow.score player) (ResultRow.points player)).

Definition rowPerformance (player : ResultRow.t num) : num :=
  safeNumber (nullish (nullish (ResultRow.performance player)
                               (ResultRow.perf player))
                      (ResultRow.performanceRating player)).

(** The value of [games[name] || { w: 0, d: 0, l: 0, games: 0 }]: a
    record of counts (an own record or the literal), or an inherited
    member of [Object.prototype], whose [games], [w], [d] and [l] are
    [undefined] or [NaN]. *)
Inductive Stats : Type :=
| Counts (s : Tally.t)
| Member.

Definition tallyOf (games : JsObject.t Tally.t) (name : string)
  : Computed Stats :=
  match JsObject.lookup games name with
  | JsObject.Own s => Returned (Counts s)
  | JsObject.Absent => Returned (Counts Tally.zero)
  | JsObject.Inherited => Returned Member
  | JsObject.Foreign => Unmodelled
  end.

(** The update passed to [sumStats] for one result row, when [stats] is
    a record of counts. *)
Definition rowUpdate (stats : Tally.t) (player : ResultRow.t num)
  : Update.t num :=
  let points := rowPoints player in
  let performance := rowPerformance player in
  let weight := rowWeight stats points in
  Update.mk points (Tally.w stats) (Tally.d stats) (Tally.l stats) 1
    (performance * weight) weight.

Definition newEntry (name : string) : Entry.t num :=
  Entry.mk name zero 0 0 0 0 zero zero.

(** [if (!aggregate[name]) aggregate[name] = {...};
     sumStats(aggregate[name], update)]: under an inherited name no
    record is created and [sumStats] adds to the inherited member. *)
Definition foldUpdate (aggregate : JsObject.t (Entry.t num)) (name : string)
           (update : Update.t num) : Computed (JsObject.t (Entry.t num)) :=
  let add := fun target => sumStats target update in
  match JsObject.lookup aggregate name with
  | JsObject.Own _ => Returned (JsObject.modify aggregate name add)
  | JsObject.Absent =>
      Returned (JsObject.modify (JsObject.set aggregate name (newEntry name))
                                name add)
  | JsObject.Inherited => Returned aggregate
  | JsObject.Foreign => Unmodelled
  end.

(** The body of [results.forEach((player) => ...)]; [games] is the value
    of [gamesByTournament[t.id] || {}], which is read only here.  An
    update built from an inherited member has no counts; it is added to
    [aggregate[name]] for the same name, the inherited member again. *)
Definition foldPlayer (games : Computed (JsObject.t Tally.t))
           (aggregate : JsObject.t (Entry.t num)) (player : ResultRow.t num)
  : Computed (JsObject.t (Entry.t num)) :=
  match resolved (getUserName player) with
  | None => Returned aggregate
  | Some name =>
      andThen games (fun games =>
      andThen (tallyOf games name) (fun stats =>
      match stats with
      | Counts s => foldUpdate aggregate name (rowUpdate s player)
      | Member =>
          match JsObject.lookup aggregate name with
          | JsObject.Inherited => Returned aggregate
          | _ => Unmodelled
          end
      end))
  end.

Section Aggregation.
Variable resultsByTournament : JsObject.t (list (ResultRow.t num)).
Variable gamesByTournament : JsObject.t (JsObject.t Tally.t).

(** [resultsByTournament[t.id] || []], as far as [results.forEach] goes:
    an inherited member is truthy and has no [forEach]. *)
Definition resultsOf (t : Tournament.t num)
  : Computed (list (ResultRow.t num)) :=
  match JsObject.lookup resultsByTournament (Tournament.id t) with
  | JsObject.Own results => Returned results
  | JsObject.Absent => Returned []
  | JsObject.Inherited => ThrowsTypeError
  | JsObject.Foreign => Unmodelled
  end.

(** [gamesByTournament[t.id] || {}]; an inherited member is a function
    of the host, whose own members are the host's. *)
Definition gamesOf (t : Tournament.t num) : Computed (JsObject.t Tally.t) :=
  match JsObject.lookup gamesByTournament (Tournament.id t) with
  | JsObject.Own games => Returned games
  | JsObject.Absent => Returned JsObject.empty
  | JsObject.Inherited => Unmodelled
  | JsObject.Foreign => Unmodelled
  end.

(** The body of [filteredTournaments.forEach((t) => ...)]. *)
Definition foldTournament (aggregate : JsObject.t (Entry.t num))
           (t : Tournament.t num) : Computed (JsObject.t (Entry.t num)) :=
  andThen (resultsOf t) (fun results =>
  forEach (foldPlayer (gamesOf t)) results aggregate).

(** The object [aggregate] after the two nested loops. *)
Definition aggregateOf (filteredTournaments : list (Tournament.t num))
  : Computed (JsObject.t (Entry.t num)) :=
  forEach foldTournament filteredTournaments JsObject.empty.

(** The [.map((entry) => ...)] of [aggregatedStats]. *)
Definition finalize (entry : Entry.t num) : StatRow.t num :=
  let games := (Entry.w entry + Entry.d entry + Entry.l entry)%N in
  StatRow.mk entry games
    (if (0 <? games)%N
     then (ofCount (Entry.w entry) / ofCount games) * ofCount 100
     else zero)
    (if Entry.perfWeight entry >? zero
     then Entry.perfSum entry / Entry.perfWeight entry
     else zero).

(** The comparator [(a, b) => b.points - a.points || b.winRate - a.winRate]. *)
Definition compareRows (a b : StatRow.t num) : num :=
  orNum (StatRow.points b - StatRow.points a)
        (StatRow.winRate b - StatRow.winRate a).

(** [aggregatedStats]. *)
Definition aggregatedStats (filteredTournaments : list (Tournament.t num))
  : Computed (list (StatRow.t num)) :=
  andThen (aggregateOf filteredTournaments) (fun aggregate =>
  Returned (arraySort compareRows (map finalize (JsObject.values aggregate)))).
End Aggregation.

(** The whole pipeline: filter, fold, finalise, sort. *)
Definition orchestrate (toLowerCase : string -> string)
           (monthFilter nameFilter : string)
           (tournaments : list (Tournament.t num))
           (resultsByTournament : JsObject.t (list (ResultRow.t num)))
           (gamesByTournament : JsObject.t (JsObject.t Tally.t))
  : Computed (list (StatRow.t num)) :=
  aggregatedStats resultsByTournament gamesByTournament
    (filterTournaments toLowerCase monthFilter nameFilter tournaments).

(** ** Own entries

    What the lookups of the loops find among the own properties, with the
    defaults of the program: used to state which rows and tallies a
    computation that returns has read. *)

Definition ownTally (games : JsObject.t Tally.t) (name : string) : Tally.t :=
  match JsObject.get games name with
  | Some s => s
  | None => Tally.zero
  end.

Definition ownResults (resultsByTournament : JsObject.t (list (ResultRow.t num)))
           (t : Tournament.t num) : list (ResultRow.t num) :=
  match JsObject.get resultsByTournament (Tournament.id t) with
  | Some results => results
  | None => []
  end.

Definition ownGames (gamesByTournament : JsObject.t (JsObject.t Tally.t))
           (t : Tournament.t num) : JsObject.t Tally.t :=
  match JsObject.get gamesByTournament (Tournament.id t) with
  | Some games => games
  | None => JsObject.empty
  end.
End Core.

(* ================================================================== *)
(** * The loops on objects without a prototype

    The same two loops on objects whose every lookup is an own-property
    lookup, as on [Object.create(null)].  They are not the program; the
    program's objects are shown below to be these without the entries
    under inherited names, and the loops' properties are carried over. *)

Module OwnOnly.

Definition ensureTally (stats : JsObject.t Tally.t) (k : string)
  : JsObject.t Tally.t :=
  match JsObject.get stats k with
  | Some _ => stats
  | None => JsObject.set stats k Tally.zero
  end.

Definition tallyGame (stats : JsObject.t Tally.t) (game : Game.t)
  : JsObject.t Tally.t :=
  let white := orStr (Game.whiteName game) (Game.whiteId game) in
  let black := orStr (Game.blackName game) (Game.blackId game) in
  match resolved white, resolved black with
  | Some white, Some black =>
      let winner := Game.winner game in
      let stats := ensureTally stats white in
      let stats := ensureTally stats black in
      let stats := JsObject.modify stats white incGames in
      let stats := JsObject.modify stats black incGames in
      if strictEq winner "white" then
        JsObject.modify (JsObject.modify stats white incW) black incL
      else if strictEq winner "black" then
        JsObject.modify (JsObject.modify stats black incW) white incL
      else
        JsObject.modify (JsObject.modify stats white incD) black incD
  | _, _ => stats
  end.

Definition fetchTournamentGames (games : list Game.t) : JsObject.t Tally.t :=
  fold_left tallyGame games JsObject.empty.

Section Loops.
Context {num : Type} `{JsNumber num}.

Definition foldUpdate (aggregate : JsObject.t (Entry.t num)) (name : string)
           (update : Update.t num) : JsObject.t (Entry.t num) :=
  let aggregate :=
    match JsObject.get aggregate name with
    | Some _ => aggregate
    | None => JsObject.set aggregate name (newEntry name)
    end in
  JsObject.modify aggregate name (fun target => sumStats target update).

Definition foldPlayer (games : JsObject.t Tally.t)
           (aggregate : JsObject.t (Entry.t num)) (player : ResultRow.t num)
  : JsObject.t (Entry.t num) :=
  match resolved (getUserName player) with
  | None => aggregate
  | Some name =>
      foldUpdate aggregate name (rowUpdate (ownTally games name) player)
  end.

Variable resultsByTournament : JsObject.t (list (ResultRow.t num)).
Variable gamesByTournament : JsObject.t (JsObject.t Tally.t).

Definition foldTournament (aggregate : JsObject.t (Entry.t num))
           (t : Tournament.t num) : JsObject.t (Entry.t num) :=
  fold_left (foldPlayer (ownGames gamesByTournament t))
            (ownResults resultsByTournament t) aggregate.

Definition aggregateOf (filteredTournaments : list (Tournament.t num))
  : JsObject.t (Entry.t num) :=
  fold_left foldTournament filteredTournaments JsObject.empty.

Definition aggregatedStats (filteredTournaments : list (Tournament.t num))
  : list (StatRow.t num) :=
  arraySort compareRows
    (map finalize
         (map snd (JsObject.entries (aggregateOf filteredTournaments)))).
End Loops.
End OwnOnly.

(* ================================================================== *)
(** * The two interpretations of Numbers *)

(** Rational arithmetic: the program when no operation rounds.  Every
    value is finite; the divisions of the program are guarded by a
    positive divisor. *)
Module Exact.
Definition ofCount (n : N) : Q := inject_Z (Z.of_N n).

Definition lt (a b : Q) : bool :=
  (Qnum a * QDen b <? Qnum b * QDen a)%Z.

Definition truthy (a : Q) : bool := negb (Qnum a =? 0)%Z.

Definition timeClip (a : Q) : option Z :=
  if Qle_bool (Qabs a) (inject_Z 8640000000000000)
  then Some (Z.quot (Qnum a) (QDen a))
  else None.

#[global] Instance number : JsNumber Q := {
  ofCount := ofCount;
  nadd := Qplus;
  nsub := Qminus;
  nmul := Qmult;
  ndiv := Qdiv;
  nlt := lt;
  truthyNum := truthy;
  isFinite := fun _ => true;
  timeClip := timeClip
}.
End Exact.

(** IEEE-754 binary64, round to nearest even: the Numbers of the engine. *)
Module Binary64.
Definition ofCount (n : N) : float :=
  SF2Prim (binary_normalize prec emax (Z.of_N n) 0%Z false).

Definition truthy (x : float) : bool :=
  match classify x with
  | PZero | NZero | NaN => false
  | _ => true
  end.

Definition finite (x : float) : bool :=
  match classify x with
  | PInf | NInf | NaN => false
  | _ => true
  end.

(** Truncation of [m * 2^e]; a double beyond the limit of [TimeClip]
    is an integer, so the limit can be tested after truncation. *)
Definition timeClip (x : float) : option Z :=
  match Prim2SF x with
  | S754_zero _ => Some 0%Z
  | S754_finite s m e =>
      let mag := (if 0 <=? e then Zpos m * 2 ^ e else Zpos m / 2 ^ (- e))%Z in
      if (mag <=? 8640000000000000)%Z
      then Some (if s then (- mag)%Z else mag)
      else None
  | _ => None
  end.

#[global] Instance number : JsNumber float := {
  ofCount := ofCount;
  nadd := PrimFloat.add;
  nsub := PrimFloat.sub;
  nmul := PrimFloat.mul;
  ndiv := PrimFloat.div;
  nlt := PrimFloat.ltb;
  truthyNum := truthy;
  isFinite := finite;
  timeClip := timeClip
}.
End Binary64.

(* ================================================================== *)
(** * Definitions used to state the properties *)

Definition ind (b : bool) : N := if b then 1%N else 0%N.

(** Field-wise sum of two tallies. *)
Definition addTally (a b : Tally.t) : Tally.t :=
  Tally.mk (Tally.w a + Tally.w b) (Tally.d a + Tally.d b)
           (Tally.l a + Tally.l b) (Tally.games a + Tally.games b).

(** The two sides of a game, when both identities resolve. *)
Definition gameSides (game : Game.t) : option (string * string) :=
  match resolved (orStr (Game.whiteName game) (Game.whiteId game)),
        resolved (orStr (Game.blackName game) (Game.blackId game)) with
  | Some white, Some black => Some (white, black)
  | _, _ => None
  end.

(** What one game with sides [white] and [black] adds to the tally of
    player [p]. *)
Definition gameDelta (white black : string) (winner : option string)
           (p : string) : Tally.t :=
  let isWhite := String.eqb p white in
  let isBlack := String.eqb p black in
  let whiteWon := strictEq winner "white" in
  let blackWon := negb whiteWon && strictEq winner "black" in
  let drawn := negb whiteWon && negb blackWon in
  Tally.mk (ind (isWhite && whiteWon) + ind (isBlack && blackWon))
           (ind (isWhite && drawn) + ind (isBlack && drawn))
           (ind (isBlack && whiteWon) + ind (isWhite && blackWon))
           (ind isWhite + ind isBlack).

(** What a game adds to the tally of [p]; nothing when it is skipped. *)
Definition gameContribution (p : string) (game : Game.t) : Tally.t :=
  match gameSides game with
  | Some (white, black) => gameDelta white black (Game.winner game) p
  | None => Tally.zero
  end.

Definition sumN (l : list N) : N := fold_right N.add 0%N l.

(** The sum of a counter over all players of a tally object. *)
Definition total (f : Tally.t -> N) (stats : JsObject.t Tally.t) : N :=
  sumN (map f (JsObject.values stats)).

(** Order-preserving subsequence. *)
Inductive Subsequence {A : Type} : list A -> list A -> Prop :=
| Subsequence_nil : Subsequence [] []
| Subsequence_keep : forall x l1 l2,
    Subsequence l1 l2 -> Subsequence (x :: l1) (x :: l2)
| Subsequence_drop : forall x l1 l2,
    Subsequence l1 l2 -> Subsequence l1 (x :: l2).

(** The order in which keys are first created by a sequence of writes. *)
Definition addKey (acc : list string) (k : string) : list string :=
  if existsb (String.eqb k) acc then acc else acc ++ [k].

Definition firstSeen (ks : list string) : list string := fold_left addKey ks [].

Section PlayerRows.
Context {num : Type} `{JsNumber num}.
Variable resultsByTournament : JsObject.t (list (ResultRow.t num)).
Variable gamesByTournament : JsObject.t (JsObject.t Tally.t).

(** The row's identity resolves to [name]. *)
Definition resolvesTo (name : string) (player : ResultRow.t num) : bool :=
  match resolved (getUserName player) with
  | Some n => String.eqb n name
  | None => false
  end.

(** The rows of [name] across the tournaments, each with its tournament,
    in the order of the two loops; nothing is de-duplicated. *)
Definition playerRows (name : string) (ts : list (Tournament.t num))
  : list (Tournament.t num * ResultRow.t num) :=
  flat_map (fun t => map (pair t)
                         (filter (resolvesTo name) (ownResults resultsByTournament t)))
           ts.

(** The update that the loop body passes to [sumStats] for such a row. *)
Definition playerUpdate (name : string)
           (r : Tournament.t num * ResultRow.t num) : Update.t num :=
  rowUpdate (ownTally (ownGames gamesByTournament (fst r)) name) (snd r).

(** The entry of [name] after more updates of [name] were folded in. *)
Definition foldEntry (name : string) (oe : option (Entry.t num))
           (us : list (Update.t num)) : option (Entry.t num) :=
  match us with
  | [] => oe
  | _ => Some (fold_left sumStats us
                         (match oe with Some e => e | None => newEntry name end))
  end.

(** The rows of [name] across the tournaments, without their tournament. *)
Definition rowsOfPlayer (name : string) (ts : list (Tournament.t num))
  : list (ResultRow.t num) :=
  filter (resolvesTo name) (flat_map (ownResults resultsByTournament) ts).

(** The integer counters of an entry. *)
Definition counters (e : Entry.t num) : N * N * N * N :=
  (Entry.w e, Entry.d e, Entry.l e, Entry.tournaments e).

(** The resolvable identities of all rows, in the order of the two loops. *)
Definition resolvedNames (ts : list (Tournament.t num)) : list string :=
  flat_map (fun t =>
              flat_map (fun player =>
                          match resolved (getUserName player) with
                          | Some n => [n]
                          | None => []
                          end)
                       (ownResults resultsByTournament t))
           ts.
End PlayerRows.

(* ================================================================== *)
(** * Example inputs *)

Module Examples.
Local Open Scope string_scope.

Definition game (white black : option string) (winner : option string)
  : Game.t :=
  Game.mk white None black None winner.

(** A win by white, a draw, a game without a black player, a win by
    black. *)
Definition games : list Game.t :=
  [ game (Some "ann") (Some "bob") (Some "white");
    game (Some "ann") (Some "cat") None;
    game (Some "bob") None (Some "white");
    game (Some "cat") (Some "ann") (Some "black") ].

Definition row {num : Type} (name : string) (score performance : num)
  : ResultRow.t num :=
  ResultRow.mk (Some name) None None None (Some score) None
               (Some performance) None None.

Definition tournament {num : Type} (id : string) (startsAt : num)
  : Tournament.t num :=
  Tournament.mk id "Monthly Arena" startsAt None None.
End Examples.

Module ExactExamples.
Local Open Scope string_scope.
Local Open Scope Q_scope.

Definition results : JsObject.t (list (ResultRow.t Q)) :=
  [ ("T1", [Examples.row "alice" 10 1500; Examples.row "bob" 7 1450]);
    ("T2", [Examples.row "alice" 8 1600]) ]%list.

Definition tallies : JsObject.t (JsObject.t Tally.t) :=
  [ ("T1", [("alice", Tally.mk 3 1 0 4); ("bob", Tally.mk 1 1 2 4);
("carl", Tally.mk 0 2 2 4)]);
    ("T2", [("alice", Tally.mk 2 2 0 4)]) ]%list.

Definition tournaments : list (Tournament.t Q) :=
  [ Examples.tournament "T1" 1709251200000;
    Examples.tournament "T2" 1709856000000 ]%list.


(** The same player listed twice in the results of one tournament. *)
Definition listedTwice : JsObject.t (list (ResultRow.t Q)) :=
  [ ("T1", [Examples.row "alice" 10 1500; Examples.row "alice" 10 1500]) ]%list.

End ExactExamples.

Module Binary64Examples.
Local Open Scope string_scope.
Local Open Scope float_scope.

(** Scores [0.1], [0.2] and [0.3], as the doubles that [JSON.parse]
    yields for them. *)
Definition results : JsObject.t (list (ResultRow.t float)) :=
  [ ("T1", [Examples.row "alice" 0x1.999999999999ap-4 1500]);
    ("T2", [Examples.row "alice" 0x1.999999999999ap-3 1500]);
    ("T3", [Examples.row "alice" 0x1.3333333333333p-2 1500]) ]%list.

Definition tournaments : list (Tournament.t float) :=
  [ Examples.tournament "T1" 1709251200000;
    Examples.tournament "T2" 1709856000000;
    Examples.tournament "T3" 1710460800000 ]%list.
End Binary64Examples.

(* ================================================================== *)
(** * Further statement-side definitions *)

(** The sum of a counter over the entries of a property list. *)
Definition listTotal (f : Tally.t -> N) (stats : JsObject.t Tally.t) : N :=
  sumN (map f (map snd stats)).

(** The properties whose name is not inherited from [Object.prototype]. *)
Definition withoutInherited {V : Type} (o : JsObject.t V) : JsObject.t V :=
  filter (fun e => negb (JsObject.inherits (fst e))) o.

(** The names of the sides of the games are not inherited ones. *)
Definition plainSides (games : list Game.t) : Prop :=
  forall game white black,
    In game games -> gameSides game = Some (white, black) ->
    JsObject.inherits white = false /\ JsObject.inherits black = false.

(** A game whose two sides resolve. *)
Definition resolvable (game : Game.t) : bool :=
  match gameSides game with
  | Some _ => true
  | None => false
  end.

(** Player [p] is a side of the game, and both sides resolve. *)
Definition playsIn (p : string) (game : Game.t) : bool :=
  match gameSides game with
  | Some (white, black) => String.eqb p white || String.eqb p black
  | None => false
  end.

(** The first non-falsy value of a list of optional strings. *)
Definition firstTruthy (candidates : list (option string)) : option string :=
  match find truthyStr candidates with
  | Some v => v
  | None => None
  end.

Section MoreAggregatorWording.
Context {num : Type} `{JsNumber num}.
Variable results : JsObject.t (list (ResultRow.t num)).
Variable tallies : JsObject.t (JsObject.t Tally.t).


(** The row's identity resolves. *)
Definition hasIdentity (player : ResultRow.t num) : bool :=
  truthyStr (getUserName player).

(** The results mapping without the rows whose identity does not resolve. *)
Definition dropUnresolved (rs : JsObject.t (list (ResultRow.t num)))
  : JsObject.t (list (ResultRow.t num)) :=
  map (fun e => (fst e, filter hasIdentity (snd e))) rs.
End MoreAggregatorWording.

(** The twelve month fields of a month key. *)
Definition monthFields : list string :=
  [ "01"; "02"; "03"; "04"; "05"; "06";
    "07"; "08"; "09"; "10"; "11"; "12" ]%string.

Module MoreExamples.
Local Open Scope string_scope.
Local Open Scope Q_scope.




(** [ExactExamples.results] with one more tournament, which is not in
    [ExactExamples.tournaments]. *)
Definition resultsWithOther : JsObject.t (list (ResultRow.t Q)) :=
  (ExactExamples.results ++ [("T9", [Examples.row "zoe" 3 1300])])%list.
End MoreExamples.

(** The month (1 to 12) of the day number [doe] within its 400-year era,
    as [civilFromDays] computes it. *)
Definition monthOfEraDay (doe : Z) : Z :=
  (let yoe := (doe - doe / 1460 + doe / 36524 - doe / 146096) / 365 in
   let doy := doe - (365 * yoe + yoe / 4 - yoe / 100) in
   let mp := (5 * doy + 2) / 153 in
   if mp <? 10 then mp + 3 else mp - 9)%Z.

(** [P] holds for the [fuel] integers from [i] on. *)
Fixpoint allFrom (fuel : nat) (i : Z) (P : Z -> bool) : bool :=
  match fuel with
  | O => true
  | S fuel' => P i && allFrom fuel' (i + 1)%Z P
  end.

(** How a computation ends, without its value. *)
Definition completion {A : Type} (c : Computed A) : Computed unit :=
  andThen c (fun _ => Returned tt).

Section Endings.
Context {num : Type} `{JsNumber num}.
Variable results : JsObject.t (list (ResultRow.t num)).
Variable tallies : JsObject.t (JsObject.t Tally.t).

(** How the loop body ends for a row, and for a tournament. *)
Definition rowEnds (games : Computed (JsObject.t Tally.t))
           (player : ResultRow.t num) : Computed unit :=
  completion (foldPlayer games JsObject.empty player).

Definition tournamentEnds (t : Tournament.t num) : Computed unit :=
  completion (foldTournament results tallies JsObject.empty t).
End Endings.

Module PrototypeExamples.
Local Open Scope string_scope.
Local Open Scope Q_scope.


End PrototypeExamples.

Module FilterExamples.
Local Open Scope string_scope.
Local Open Scope float_scope.

(** The first millisecond of March 2024, and the one before it. *)
Definition march : Tournament.t float :=
  Tournament.mk "t1" "Gambit Monthly Arena" 1709251200000 None None.

Definition february : Tournament.t float :=
  Tournament.mk "t2" "Gambit Monthly Arena" 1709251199999 None None.

Definition marchBlitz : Tournament.t float :=
  Tournament.mk "t3" "Gambit Blitz" 1709251200000 None None.
End FilterExamples.

Module TimestampExamples.
Local Open Scope string_scope.
Local Open Scope Q_scope.

Definition now : Q := 1762041600000.

(** A feed item whose [startsAt] is [0], and one without [startsAt]. *)
Definition epochStart : RawTournament.t Q :=
  RawTournament.mk "T1" None None (Some 0) (Some 1700000000) None None.

Definition noStart : RawTournament.t Q :=
  RawTournament.mk "T2" None None None (Some 1700000000) None None.

(** A feed item with its [startsAt] in seconds. *)
Definition inSeconds : RawTournament.t Q :=
  RawTournament.mk "T3" None None (Some 1709251200) None None None.
End TimestampExamples.

Module SortExamples.
Local Open Scope string_scope.
Local Open Scope Q_scope.

End SortExamples.

Module RoundingExamples.
Local Open Scope string_scope.
Local Open Scope float_scope.



End RoundingExamples.

(* ================================================================== *)
(** * The loading functions of the component *)

(** [a || b] on strings. *)
Definition orString (a b : string) : string :=
  match a with
  | EmptyString => b
  | _ => a
  end.

(** The state of the component that the loading functions write. *)
Module AppState.
Record t (num : Type) : Type := mk {
  tournaments : list (Tournament.t num);
  resultsByTournament : JsObject.t (list (ResultRow.t num));
  gamesByTournament : JsObject.t (JsObject.t Tally.t);
  loadingTournaments : bool;
  loadingStats : bool;
  (** [{ done, total }] *)
  progress : N * N;
  error : string;
  autoLoad : bool
}.
End AppState.

(** The values fixed when the component is created. *)
Module Config.
Record t (num : Type) : Type := mk {
  teamId : string;
  nameFilter : string;
  monthFilter : string;
  statusFilter : string;
  maxTournaments : num;
  includeGames : bool
}.
End Config.

(** The outcome of an awaited request: the message of the error thrown by
    [fetchText] or by the parser, or the parsed body. *)
Inductive Outcome (A : Type) : Type :=
| Thrown (message : string)
| Fetched (body : A).
Arguments Thrown {A} message.
Arguments Fetched {A} body.

(** The service and the clock, as the loading functions meet them: the
    arena feed of the team; the results feed and the games feed of a
    tournament, by the index of the loop iteration that asks and the id
    asked for; the two readings of the clock for the item at an index of
    the arena feed. *)
Module Network.
Record t (num : Type) : Type := mk {
  arena : Outcome (list (RawTournament.t num));
  results : nat -> string -> Outcome (list (ResultRow.t num));
  games : nat -> string -> Outcome (list Game.t);
  clock : nat -> num * num
}.
End Network.

(** A request of [loadStats]. *)
Inductive Request : Type :=
| GetResults (id : string)
| GetGames (id : string).

(** The local variables of the loop of [loadStats], with the requests
    sent so far. *)
Module Loop.
Record t (num : Type) : Type := mk {
  nextResults : JsObject.t (list (ResultRow.t num));
  nextGames : JsObject.t (JsObject.t Tally.t);
  (** the [done] of the last [setProgress] *)
  completed : N;
  requests : list Request
}.
End Loop.

Section Loading.
Context {num : Type} `{JsNumber num}.
Local Open Scope js_scope.
Variable toLowerCase : string -> string.
Variable config : Config.t num.
Variable network : Network.t num.

(** The comparator [(a, b) => b.startsAt - a.startsAt]. *)
Definition compareTournaments (a b : Tournament.t num) : num :=
  Tournament.startsAt b - Tournament.startsAt a.

(** [parseNdjsonOrJson(text).map((item) => ({ ... }))], the item at index
    [i] reading the clock at [i]. *)
Fixpoint mkTournaments (i : nat) (items : list (RawTournament.t num))
  : list (Tournament.t num) :=
  match items with
  | [] => []
  | item :: rest =>
      mkTournament (fst (Network.clock network i)) (snd (Network.clock network i))
                   item
      :: mkTournaments (S i) rest
  end.

(** [loadTournaments]: the new state and the returned [{ ok, list }]. *)
Definition loadTournaments (st : AppState.t num)
  : AppState.t num * (bool * list (Tournament.t num)) :=
  match Config.teamId config with
  | EmptyString =>
      (AppState.mk (AppState.tournaments st)
                   (AppState.resultsByTournament st)
                   (AppState.gamesByTournament st)
                   (AppState.loadingTournaments st)
                   (AppState.loadingStats st)
                   (AppState.progress st)
                   "Team ID is required."
                   (AppState.autoLoad st),
       (false, []))
  | _ =>
      match Network.arena network with
      | Fetched items =>
          let sorted := arraySort compareTournaments (mkTournaments 0 items) in
          (AppState.mk sorted JsObject.empty JsObject.empty false
                       (AppState.loadingStats st) (AppState.progress st)
                       EmptyString (AppState.autoLoad st),
           (true, sorted))
      | Thrown message =>
          (AppState.mk (AppState.tournaments st) JsObject.empty JsObject.empty
                       false (AppState.loadingStats st) (AppState.progress st)
                       (orString message "Failed to load tournaments.")
                       (AppState.autoLoad st),
           (false, []))
      end
  end.

(** The [for] loop of [loadStats] from index [i] on; the second component
    is the message of the error that ended it, if one did. *)
Fixpoint statsLoop (i : nat) (ids : list string) (acc : Loop.t num)
  : Loop.t num * option string :=
  match ids with
  | [] => (acc, None)
  | id :: rest =>
      let sent := Loop.requests acc ++ [GetResults id] in
      match Network.results network i id with
      | Thrown message =>
          (Loop.mk (Loop.nextResults acc) (Loop.nextGames acc)
                   (Loop.completed acc) sent,
           Some message)
      | Fetched results =>
          let nextResults := JsObject.set (Loop.nextResults acc) id results in
          if Config.includeGames config then
            let sent := sent ++ [GetGames id] in
            match Network.games network i id with
            | Thrown message =>
                (Loop.mk nextResults (Loop.nextGames acc)
                         (Loop.completed acc) sent,
                 Some message)
            | Fetched games =>
                statsLoop (S i) rest
                          (Loop.mk nextResults
                                   (JsObject.set (Loop.nextGames acc) id
                                                 (fetchTournamentGames games))
                                   (N.of_nat i + 1) sent)
            end
          else
            statsLoop (S i) rest
                      (Loop.mk nextResults (Loop.nextGames acc)
                               (N.of_nat i + 1) sent)
      end
  end.

(** [filteredTournaments], the memo of [filterTournaments(tournaments)]. *)
Definition filteredTournaments (st : AppState.t num) : list (Tournament.t num) :=
  filterTournaments toLowerCase (Config.monthFilter config)
                    (Config.nameFilter config) (AppState.tournaments st).

(** [loadStats(list)]: the new state and the requests sent; [None] is a
    call without argument. *)
Definition loadStats (st : AppState.t num)
           (given : option (list (Tournament.t num)))
  : AppState.t num * list Request :=
  let base := match given with
              | Some l => l
              | None => filteredTournaments st
              end in
  match base with
  | [] => (st, [])
  | _ =>
      let ids := map (@Tournament.id num) base in
      let total := N.of_nat (List.length ids) in
      match statsLoop 0 ids (Loop.mk JsObject.empty JsObject.empty 0 []) with
      | (acc, None) =>
          (AppState.mk (AppState.tournaments st)
                       (Loop.nextResults acc) (Loop.nextGames acc)
                       (AppState.loadingTournaments st) false
                       (Loop.completed acc, total)
                       EmptyString (AppState.autoLoad st),
           Loop.requests acc)
      | (acc, Some message) =>
          (AppState.mk (AppState.tournaments st)
                       (AppState.resultsByTournament st)
                       (AppState.gamesByTournament st)
                       (AppState.loadingTournaments st) false
                       (Loop.completed acc, total)
                       (orString message "Failed to load stats.")
                       (AppState.autoLoad st),
           Loop.requests acc)
      end
  end.

(** The [run] of the auto-load effect. *)
Definition run (st : AppState.t num) : AppState.t num * list Request :=
  let '(st1, (ok, loaded)) := loadTournaments st in
  let '(st2, sent) :=
    if ok then
      match filterTournaments toLowerCase (Config.monthFilter config)
                              (Config.nameFilter config) loaded with
      | [] =>
          (AppState.mk (AppState.tournaments st1)
                       (AppState.resultsByTournament st1)
                       (AppState.gamesByTournament st1)
                       (AppState.loadingTournaments st1)
                       (AppState.loadingStats st1)
                       (AppState.progress st1)
                       "No tournaments match the filters."
                       (AppState.autoLoad st1),
           [])
      | filtered => loadStats st1 (Some filtered)
      end
    else (st1, []) in
  (AppState.mk (AppState.tournaments st2)
               (AppState.resultsByTournament st2)
               (AppState.gamesByTournament st2)
               (AppState.loadingTournaments st2)
               (AppState.loadingStats st2)
               (AppState.progress st2)
               (AppState.error st2)
               false,
   sent).

(** The rows of the table: the memo [aggregatedStats] of the state. *)
Definition displayedStats (st : AppState.t num)
  : Computed (list (StatRow.t num)) :=
  aggregatedStats (AppState.resultsByTournament st)
                  (AppState.gamesByTournament st)
                  (filteredTournaments st).

(** The requests that a pass over [ids] sends when nothing fails. *)
Definition plannedRequests (ids : list string) : list Request :=
  flat_map (fun id => GetResults id
                      :: (if Config.includeGames config then [GetGames id] else []))
           ids.

(** Every request of a pass over [ids], counted from index [i], succeeds. *)
Definition allFetched (i : nat) (ids : list string) : Prop :=
  forall k id,
    nth_error ids k = Some id ->
    (exists rows, Network.results network (i + k) id = Fetched rows)
    /\ (Config.includeGames config = true ->
        exists games, Network.games network (i + k) id = Fetched games).

(** The loop of a pass over [base], from the empty local objects. *)
Definition passOver (base : list (Tournament.t num)) : Loop.t num * option string :=
  statsLoop 0 (map (@Tournament.id num) base)
            (Loop.mk JsObject.empty JsObject.empty 0 []).

End Loading.

(** An optional Number that [||] skips: absent, or falsy. *)
Definition falsyNum {num : Type} `{JsNumber num} (v : option num) : Prop :=
  match v with
  | Some x => truthyNum x = false
  | None => True
  end.

(** Newest first. *)
Definition startsNoLater (a b : Tournament.t Q) : Prop :=
  (Tournament.startsAt b <= Tournament.startsAt a)%Q.

(** The tournaments starting at [s]. *)
Definition sameStart (s : Q) (t : Tournament.t Q) : bool :=
  Qeq_bool (Tournament.startsAt t) s.

Module LoadingExamples.
Local Open Scope string_scope.
Local Open Scope Q_scope.

Definition config : Config.t Q :=
  Config.mk "gambit" "" "2024-03" "finished" 50 true.

(** One timestamp in seconds, one in milliseconds. *)
Definition items : list (RawTournament.t Q) :=
  [ RawTournament.mk "T1" (Some "Monthly Arena") None (Some 1709251200)
                     None None None;
    RawTournament.mk "T2" None (Some "Blitz Arena") (Some 1709856000000)
                     None None None ]%list.

Definition now : Q := 1762041600000.

Definition resultsFeed (id : string) : Outcome (list (ResultRow.t Q)) :=
  match JsObject.get ExactExamples.results id with
  | Some rows => Fetched rows
  | None => Thrown "404 Not Found - "
  end.

Definition network : Network.t Q :=
  Network.mk (Fetched items) (fun _ id => resultsFeed id)
             (fun _ _ => Fetched Examples.games) (fun _ => (now, now)).

(** The same service, refusing the results of ["T1"]. *)
Definition failing : Network.t Q :=
  Network.mk (Fetched items)
             (fun _ id => if String.eqb id "T1"
                          then Thrown "429 Too Many Requests - "
                          else resultsFeed id)
             (fun _ _ => Fetched Examples.games) (fun _ => (now, now)).

Definition initial : AppState.t Q :=
  AppState.mk [] JsObject.empty JsObject.empty false false (0%N, 0%N) "" true.
End LoadingExamples.

(* ================================================================== *)
(** * The specification's wording, for the comparisons below *)

(** [YYYY-MM]: the decimal year, a hyphen and the month (1 to 12) in two
    digits. *)
Definition monthKey (year month : Z) : string :=
  (stringOfInt year ++ "-"
   ++ (if (month <? 10)%Z then "0" ++ stringOfInt month
       else stringOfInt month))%string.

(** [sub] occurs in [s]. *)
Definition occursIn (sub s : string) : Prop :=
  exists before after : string, s = (before ++ sub ++ after)%string.

Section SpecificationWording.
Context {num : Type} `{JsNumber num}.
Local Open Scope js_scope.

(** The weight as the specification words it: [gamesPlayed] if [> 0],
    else [points] if [points > 0], else [1]. *)
Definition claimedWeight (stats : Tally.t) (points : num) : num :=
  if (0 <? Tally.games stats)%N then ofCount (Tally.games stats)
  else if points >? zero then points else one.

(** The condition under which the specification keeps a tournament:
    the month filter is absent or is the [YYYY-MM] key of the UTC year
    and month of [startsAt], and the name filter is absent or occurs in
    the lower-cased [fullName] when lower-cased.  The key that the code
    gives an invalid date is ["NaN-NaN"]. *)
Definition kept (toLowerCase : string -> string)
           (monthFilter nameFilter : string) (t : Tournament.t num) : Prop :=
  (monthFilter = EmptyString
   \/ match timeClip (Tournament.startsAt t) with
      | Some time =>
          monthFilter = monthKey (getUTCFullYear time) (getUTCMonth time + 1)
      | None => monthFilter = "NaN-NaN"%string
      end)
  /\ (nameFilter = EmptyString
      \/ occursIn (toLowerCase nameFilter)
                  (toLowerCase (Tournament.fullName t))).

(** The raw timestamp that the construction of a tournament normalises:
    the item's [startsAt] unless missing or falsy, else its [createdAt]
    unless missing or falsy, else the reading of the clock. *)
Definition rawTimestamp (item : RawTournament.t num) (nowArg : num)
           (value : num) : Prop :=
  (RawTournament.startsAt item = Some value /\ truthyNum value = true)
  \/ (falsyNum (RawTournament.startsAt item)
      /\ RawTournament.createdAt item = Some value
      /\ truthyNum value = true)
  \/ (falsyNum (RawTournament.startsAt item)
      /\ falsyNum (RawTournament.createdAt item)
      /\ value = nowArg).

(** The counters of an entry after one more update. *)
Definition addCounters (c : N * N * N * N) (u : Update.t num) : N * N * N * N :=
  let '(w, d, l, n) := c in
  (w + Update.w u, d + Update.d u, l + Update.l u, n + Update.tournaments u)%N.
End SpecificationWording.

Section SortWording.
Context {num : Type} `{JsNumber num}.



End SortWording.





(** An own property with its value replaced by a function of it. *)
Definition relabel {V W : Type} (g : V -> W) (e : string * V) : string * W :=
  (fst e, g (snd e)).

(** Case analysis on every string comparison of the goal. *)
Ltac eqb_cases :=
  repeat match goal with
         | |- context [String.eqb ?a ?b] =>
             let E := fresh "E" in
             destruct (String.eqb a b) eqn:E;
             [apply String.eqb_eq in E; subst | apply String.eqb_neq in E]
         end.


(* ================================================================== *)
(** * The search parameters and the links *)

(** [URLSearchParams], as the list of its name-value pairs.  Its text
    form ([toString]) and the parsing of [window.location.search] are the
    host's. *)
Module SearchParams.
Definition t : Type := list (string * string).

Definition empty : t := [].

(** [params.get(key)]: the first value of the name, [None] for [null]. *)
Fixpoint get (p : t) (key : string) : option string :=
  match p with
  | [] => None
  | (k, v) :: p' => if String.eqb k key then Some v else get p' key
  end.

(** [params.set(key, value)]: the first pair of the name takes the value
    and the other pairs of the name are removed; a new name is appended. *)
Fixpoint set (p : t) (key value : string) : t :=
  match p with
  | [] => [(key, value)]
  | (k, v) :: p' =>
      if String.eqb k key
      then (key, value)
             :: filter (fun kv => negb (String.eqb (fst kv) key)) p'
      else (k, v) :: set p' key value
  end.
End SearchParams.

(** The values that the component passes to [buildQueryParams]: a string,
    an integer literal of the source, a Number of the state, [undefined];
    [null] is tested for by the function. *)
Inductive ParamValue (num : Type) : Type :=
| PString (s : string)
| PLiteral (n : N)
| PNumber (x : num)
| PUndefined
| PNull.
Arguments PString {num} s.
Arguments PLiteral {num} n.
Arguments PNumber {num} x.
Arguments PUndefined {num}.
Arguments PNull {num}.

(** The fields of the setup form. *)
Module Setup.
Record t (num : Type) : Type := mk {
  setupTeam : string;
  setupMonth : string;
  setupName : string;
  setupStatus : string;
  setupMax : num;
  setupGames : bool
}.
End Setup.

(** [v || d] for the result of [params.get] and a string. *)
Definition orDefault (v : option string) (d : string) : string :=
  match v with
  | Some (String c s) => String c s
  | _ => d
  end.

(** [s.replace(c, "")] for a one-character pattern: the first occurrence
    is removed. *)
Fixpoint replaceFirst (c : ascii) (s : string) : string :=
  match s with
  | EmptyString => EmptyString
  | String a s' => if Ascii.eqb a c then s' else String a (replaceFirst c s')
  end.

(** The character occurs in the string. *)
Fixpoint occurs (c : ascii) (s : string) : bool :=
  match s with
  | EmptyString => false
  | String a s' => Ascii.eqb a c || occurs c s'
  end.

Section Links.
Context {num : Type} `{JsNumber num}.
Local Open Scope js_scope.
Local Open Scope string_scope.

(** Host functions: [String(x)] of a Number, [Number(v)] of the result of
    [params.get], [search.toString()], [s.trim()]. *)
Variable numberToString : num -> string.
Variable toNumber : option string -> num.
Variable toString : SearchParams.t -> string.
Variable trim : string -> string.

Definition DEFAULT_MAX : num := ofCount 50.

(** [toMonthInputValue]. *)
Definition toMonthInputValue (ms : num) : string :=
  match timeClip ms with
  | None => "NaN-NaN"
  | Some t =>
      let y := getUTCFullYear t in
      let m := padStart 2 "0" (stringOfInt (getUTCMonth t + 1)) in
      stringOfInt y ++ "-" ++ m
  end.

(** [value !== "" && value !== null && value !== undefined]. *)
Definition isSet (value : ParamValue num) : bool :=
  match value with
  | PString EmptyString => false
  | PUndefined => false
  | PNull => false
  | _ => true
  end.

(** [String(value)]. *)
Definition stringOfParam (value : ParamValue num) : string :=
  match value with
  | PString s => s
  | PLiteral n => stringOfInt (Z.of_N n)
  | PNumber x => numberToString x
  | PUndefined => "undefined"
  | PNull => "null"
  end.

(** The [search] object of [buildQueryParams] after its loop. *)
Definition searchOf (params : list (string * ParamValue num))
  : SearchParams.t :=
  fold_left (fun search kv =>
               if isSet (snd kv)
               then SearchParams.set search (fst kv) (stringOfParam (snd kv))
               else search)
            params SearchParams.empty.

Definition buildQueryParams (params : list (string * ParamValue num))
  : string :=
  toString (searchOf params).

(** The template of [shareLink] and [setupLink], with its [replace]. *)
Definition linkOf (origin pathname query : string) : string :=
  replaceFirst "$"
    (origin ++ pathname ++ "$"
            ++ (if truthyStr (Some query) then "?" ++ query else "")).

(** The object passed to [buildQueryParams] by [shareLink]. *)
Definition shareParams (config : Config.t num)
  : list (string * ParamValue num) :=
  [ ("team", PString (Config.teamId config));
    ("name", PString (Config.nameFilter config));
    ("month", PString (Config.monthFilter config));
    ("status", PString (Config.statusFilter config));
    ("max", PNumber (Config.maxTournaments config));
    ("games", if Config.includeGames config then PLiteral 1 else PUndefined) ].

Definition shareLink (origin pathname : string) (config : Config.t num)
  : string :=
  linkOf origin pathname (buildQueryParams (shareParams config)).

(** [s || undefined]. *)
Definition orUndefined (s : string) : ParamValue num :=
  match s with
  | EmptyString => PUndefined
  | _ => PString s
  end.

(** The object passed to [buildQueryParams] by [setupLink]. *)
Definition setupParams (setup : Setup.t num)
  : list (string * ParamValue num) :=
  [ ("team", orUndefined (trim (Setup.setupTeam setup)));
    ("name", orUndefined (trim (Setup.setupName setup)));
    ("month", orUndefined (Setup.setupMonth setup));
    ("status", orUndefined (Setup.setupStatus setup));
    ("max", if truthyNum (Setup.setupMax setup)
            then PNumber (Setup.setupMax setup) else PUndefined);
    ("games", if Setup.setupGames setup then PLiteral 1 else PLiteral 0) ].

Definition setupLink (origin pathname : string) (setup : Setup.t num)
  : string :=
  linkOf origin pathname (buildQueryParams (setupParams setup)).

(** The initial value of [maxTournaments]. *)
Definition initialMax (params : SearchParams.t) : num :=
  let raw := toNumber (SearchParams.get params "max") in
  if isFinite raw && (raw >? ofCount 0) then raw else DEFAULT_MAX.

(** The settings that [App] reads from the search parameters; [now] is
    the value of [Date.now()]. *)
Definition initialConfig (params : SearchParams.t) (now : num)
  : Config.t num :=
  let nowMonth := toMonthInputValue now in
  Config.mk (orDefault (SearchParams.get params "team") "")
            (orDefault (SearchParams.get params "name") "")
            (orDefault (SearchParams.get params "month") nowMonth)
            (orDefault (SearchParams.get params "status") "finished")
            (initialMax params)
            (negb (match SearchParams.get params "games" with
                   | Some v => String.eqb v "0"
                   | None => false
                   end)).

Definition hasRequiredParams (params : SearchParams.t) : bool :=
  truthyStr (SearchParams.get params "team")
  && truthyStr (SearchParams.get params "month").

(** The initial values of the state that the loading functions write. *)
Definition initialState (params : SearchParams.t) : AppState.t num :=
  AppState.mk [] JsObject.empty JsObject.empty false false (0%N, 0%N) ""
              (hasRequiredParams params).
End Links.

(* ================================================================== *)
(** * Facts about objects used as maps *)

Section JsObjectFacts.
Context {V : Type}.
Implicit Types (o : JsObject.t V) (k p : string).

Lemma get_set o k v p :
  JsObject.get (JsObject.set o k v) p
  = if String.eqb p k then Some v else JsObject.get o p.
Proof.
  induction o as [|[k' v'] o IH]; simpl.
  - destruct (String.eqb p k); reflexivity.
  - destruct (String.eqb k k') eqn:Ekk; simpl.
    + apply String.eqb_eq in Ekk. subst k'.
      destruct (String.eqb p k); reflexivity.
    + rewrite IH. destruct (String.eqb p k') eqn:Epk'; [|reflexivity].
      apply String.eqb_eq in Epk'. subst k'.
      rewrite String.eqb_sym, Ekk. reflexivity.
Qed.

Lemma get_modify o k (f : V -> V) p :
  JsObject.get (JsObject.modify o k f) p
  = if String.eqb p k then option_map f (JsObject.get o k)
    else JsObject.get o p.
Proof.
  unfold JsObject.modify.
  destruct (JsObject.get o k) as [v|] eqn:E.
  - rewrite get_set. reflexivity.
  - destruct (String.eqb p k) eqn:Epk; [|reflexivity].
    apply String.eqb_eq in Epk. subst p. rewrite E. reflexivity.
Qed.

Lemma get_In o k v : JsObject.get o k = Some v -> In (k, v) o.
Proof.
  induction o as [|[k' v'] o IH]; simpl; [discriminate|].
  destruct (String.eqb k k') eqn:E.
  - apply String.eqb_eq in E. subst k'. intros [= ->]. now left.
  - intros Hg. right. auto.
Qed.

Lemma get_None_keys o k :
  JsObject.get o k = None <-> ~ In k (JsObject.keys o).
Proof.
  induction o as [|[k' v'] o IH]; simpl.
  - tauto.
  - destruct (String.eqb k k') eqn:E.
    + apply String.eqb_eq in E. subst k'. split; [discriminate|tauto].
    + apply String.eqb_neq in E. rewrite IH. split.
      * intros Hn [Hk|Hk]; [congruence|tauto].
      * tauto.
Qed.

Lemma In_get o k v :
  NoDup (JsObject.keys o) -> In (k, v) o -> JsObject.get o k = Some v.
Proof.
  induction o as [|[k' v'] o IH]; simpl; [tauto|].
  intros Hnd [Heq|Hin].
  - injection Heq as -> ->. now rewrite String.eqb_refl.
  - inversion Hnd as [|? ? Hnotin Hnd']; subst.
    destruct (String.eqb k k') eqn:E.
    + apply String.eqb_eq in E. subst k'. exfalso. apply Hnotin.
      change k with (fst (k, v)). now apply in_map.
    + auto.
Qed.

Lemma keys_set o k v :
  JsObject.keys (JsObject.set o k v)
  = match JsObject.get o k with
    | Some _ => JsObject.keys o
    | None => JsObject.keys o ++ [k]
    end.
Proof.
  unfold JsObject.keys.
  induction o as [|[k' v'] o IH]; simpl; [reflexivity|].
  destruct (String.eqb k k') eqn:E; simpl; [reflexivity|].
  rewrite IH. destruct (JsObject.get o k); reflexivity.
Qed.

Lemma keys_modify o k (f : V -> V) :
  JsObject.keys (JsObject.modify o k f) = JsObject.keys o.
Proof.
  unfold JsObject.modify.
  destruct (JsObject.get o k) eqn:E; [|reflexivity].
  rewrite keys_set, E. reflexivity.
Qed.

Lemma set_app_present o k v v0 :
  JsObject.get o k = Some v0 ->
  exists o1 o2, o = o1 ++ (k, v0) :: o2
                /\ JsObject.set o k v = o1 ++ (k, v) :: o2.
Proof.
  induction o as [|[k' v'] o IH]; simpl; [discriminate|].
  destruct (String.eqb k k') eqn:E.
  - apply String.eqb_eq in E. subst k'. intros [= ->].
    exists [], o. split; reflexivity.
  - intros Hg. destruct (IH Hg) as (o1 & o2 & -> & ->).
    exists ((k', v') :: o1), o2. split; reflexivity.
Qed.

Lemma set_absent o k v :
  JsObject.get o k = None -> JsObject.set o k v = o ++ [(k, v)].
Proof.
  induction o as [|[k' v'] o IH]; simpl; [reflexivity|].
  destruct (String.eqb k k'); [discriminate|].
  intros Hg. now rewrite IH.
Qed.

(** Enumeration only reorders the own properties. *)
Lemma insertByIndex_Permutation (e : string * V) l :
  Permutation (JsObject.insertByIndex e l) (e :: l).
Proof.
  induction l as [|e' l IH]; simpl; [reflexivity|].
  destruct (_ <=? _)%N; [reflexivity|].
  rewrite IH. apply perm_swap.
Qed.

Lemma sortByIndex_Permutation (l : list (string * V)) :
  Permutation (JsObject.sortByIndex l) l.
Proof.
  induction l as [|e l IH]; simpl; [reflexivity|].
  rewrite insertByIndex_Permutation. now constructor.
Qed.

Lemma filter_partition_Permutation {A : Type} (f : A -> bool) (l : list A) :
  Permutation (filter f l ++ filter (fun x => negb (f x)) l) l.
Proof.
  induction l as [|x l IH]; simpl; [reflexivity|].
  destruct (f x); simpl.
  - now constructor.
  - rewrite <- Permutation_middle. now constructor.
Qed.

Lemma entries_Permutation o : Permutation (JsObject.entries o) o.
Proof.
  unfold JsObject.entries. rewrite sortByIndex_Permutation.
  apply (filter_partition_Permutation (fun e => JsObject.isIndex (fst e))).
Qed.

Lemma values_Permutation o :
  Permutation (map snd (JsObject.entries o)) (map snd o).
Proof. apply Permutation_map, entries_Permutation. Qed.
End JsObjectFacts.

(* ================================================================== *)
(** * Game Tally Builder *)

Lemma get_ensureTally stats k p :
  JsObject.get (OwnOnly.ensureTally stats k) p
  = if String.eqb p k then Some (ownTally stats k) else JsObject.get stats p.
Proof.
  unfold OwnOnly.ensureTally, ownTally.
  destruct (JsObject.get stats k) as [s|] eqn:E.
  - destruct (String.eqb p k) eqn:Epk; [|reflexivity].
    apply String.eqb_eq in Epk. now subst p.
  - apply get_set.
Qed.

Lemma gameSides_None stats game :
  gameSides game = None -> OwnOnly.tallyGame stats game = stats.
Proof.
  unfold gameSides, OwnOnly.tallyGame.
  destruct (resolved (orStr (Game.whiteName game) (Game.whiteId game)));
    [destruct (resolved (orStr (Game.blackName game) (Game.blackId game)))|];
    intros; congruence.
Qed.

Lemma gameSides_Some stats game white black p :
  gameSides game = Some (white, black) ->
  ownTally (OwnOnly.tallyGame stats game) p
  = addTally (ownTally stats p) (gameDelta white black (Game.winner game) p).
Proof.
  unfold gameSides, OwnOnly.tallyGame.
  destruct (resolved (orStr (Game.whiteName game) (Game.whiteId game)))
    as [white'|]; [|discriminate].
  destruct (resolved (orStr (Game.blackName game) (Game.blackId game)))
    as [black'|]; [|discriminate].
  intros [= -> ->].
  unfold gameDelta.
  destruct (strictEq (Game.winner game) "white");
    [|destruct (strictEq (Game.winner game) "black")];
    unfold ownTally;
    repeat (rewrite ?get_modify, ?get_ensureTally; unfold ownTally);
    eqb_cases; try congruence;
    repeat (rewrite ?String.eqb_refl; simpl);
    destruct (JsObject.get stats _); simpl;
    unfold addTally, incW, incD, incL, incGames, Tally.zero; simpl;
    try (f_equal; lia);
    match goal with
    | |- ?s = _ => destruct s; simpl; f_equal; lia
    end.
Qed.

Lemma addTally_zero_r s : addTally s Tally.zero = s.
Proof.
  destruct s. unfold addTally, Tally.zero. simpl.
  now rewrite !N.add_0_r.
Qed.

Lemma tallyGame_contribution stats game p :
  ownTally (OwnOnly.tallyGame stats game) p
  = addTally (ownTally stats p) (gameContribution p game).
Proof.
  unfold gameContribution.
  destruct (gameSides game) as [[white black]|] eqn:E.
  - now apply gameSides_Some.
  - rewrite (gameSides_None stats game E). now rewrite addTally_zero_r.
Qed.

Lemma fold_tallyGame games : forall stats p,
  ownTally (fold_left OwnOnly.tallyGame games stats) p
  = fold_left addTally (map (gameContribution p) games) (ownTally stats p).
Proof.
  induction games as [|g games IH]; intros stats p; simpl; [reflexivity|].
  now rewrite IH, tallyGame_contribution.
Qed.

(** ** Totals over all players *)

Lemma sumN_app l1 l2 : sumN (l1 ++ l2) = (sumN l1 + sumN l2)%N.
Proof. induction l1 as [|x l1 IH]; simpl; [reflexivity|]. rewrite IH. lia. Qed.

Lemma sumN_Permutation l1 l2 : Permutation l1 l2 -> sumN l1 = sumN l2.
Proof. induction 1; simpl; lia. Qed.

Lemma total_own f stats : listTotal f stats = sumN (map f (map snd stats)).
Proof.
  reflexivity.
Qed.

Lemma total_modify f g (c : N) stats k :
  (forall s, f (g s) = (f s + c)%N) ->
  JsObject.get stats k <> None ->
  listTotal f (JsObject.modify stats k g) = (listTotal f stats + c)%N.
Proof.
  intros Hfg Hk. rewrite !total_own. unfold JsObject.modify.
  destruct (JsObject.get stats k) as [s|] eqn:E; [|congruence].
  destruct (set_app_present stats k (g s) E) as (o1 & o2 & Ho & ->).
  rewrite Ho, !map_app, !sumN_app. simpl. rewrite Hfg. lia.
Qed.

Lemma total_ensureTally f stats k :
  f Tally.zero = 0%N -> listTotal f (OwnOnly.ensureTally stats k) = listTotal f stats.
Proof.
  intros Hz. unfold OwnOnly.ensureTally.
  destruct (JsObject.get stats k) eqn:E; [reflexivity|].
  rewrite !total_own, (set_absent stats k Tally.zero E), !map_app, sumN_app.
  simpl. rewrite Hz. lia.
Qed.

Lemma present_ensureTally stats k : JsObject.get (OwnOnly.ensureTally stats k) k <> None.
Proof. rewrite get_ensureTally, String.eqb_refl. discriminate. Qed.

Lemma present_ensureTally_other stats k p :
  JsObject.get stats p <> None -> JsObject.get (OwnOnly.ensureTally stats k) p <> None.
Proof.
  rewrite get_ensureTally. destruct (String.eqb p k); [discriminate|tauto].
Qed.

Lemma present_modify stats k g p :
  JsObject.get stats p <> None ->
  JsObject.get (JsObject.modify stats k g : JsObject.t Tally.t) p <> None.
Proof.
  rewrite get_modify. destruct (String.eqb p k) eqn:E; [|tauto].
  apply String.eqb_eq in E. subst p.
  destruct (JsObject.get stats k); [discriminate|tauto].
Qed.

Create HintDb present.
#[local] Hint Resolve present_ensureTally present_ensureTally_other
  present_modify : present.



(* ================================================================== *)
(** * Player Aggregator: the entry of one player *)

Section AggregatorFacts.
Context {num : Type} `{JsNumber num}.
Variable results : JsObject.t (list (ResultRow.t num)).
Variable tallies : JsObject.t (JsObject.t Tally.t).

Lemma foldEntry_app name oe us1 us2 :
  foldEntry name (foldEntry name oe us1) us2 = foldEntry name oe (us1 ++ us2).
Proof.
  destruct us1 as [|u1 us1]; [reflexivity|].
  destruct us2 as [|u2 us2].
  - now rewrite app_nil_r.
  - unfold foldEntry at 1 2. cbn [app]. unfold foldEntry.
    now rewrite <- (fold_left_app sumStats (u1 :: us1) (u2 :: us2)).
Qed.

Lemma get_foldUpdate agg n u p :
  JsObject.get (OwnOnly.foldUpdate agg n u) p
  = if String.eqb p n
    then Some (sumStats (match JsObject.get agg n with
                         | Some e => e
                         | None => newEntry n
                         end) u)
    else JsObject.get agg p.
Proof.
  unfold OwnOnly.foldUpdate. rewrite get_modify.
  destruct (String.eqb p n) eqn:E.
  - destruct (JsObject.get agg n) as [e|] eqn:G.
    + now rewrite G.
    + now rewrite get_set, String.eqb_refl.
  - destruct (JsObject.get agg n); [reflexivity|].
    now rewrite get_set, E.
Qed.

Lemma get_foldPlayer games agg player name :
  JsObject.get (OwnOnly.foldPlayer games agg player) name
  = if resolvesTo name player
    then Some (sumStats (match JsObject.get agg name with
                         | Some e => e
                         | None => newEntry name
                         end) (rowUpdate (ownTally games name) player))
    else JsObject.get agg name.
Proof.
  unfold OwnOnly.foldPlayer, resolvesTo.
  destruct (resolved (getUserName player)) as [n|]; [|reflexivity].
  rewrite get_foldUpdate, (String.eqb_sym name n).
  destruct (String.eqb n name) eqn:E; [|reflexivity].
  apply String.eqb_eq in E. now subst n.
Qed.

Lemma get_fold_foldPlayer games name rows : forall agg,
  JsObject.get (fold_left (OwnOnly.foldPlayer games) rows agg) name
  = foldEntry name (JsObject.get agg name)
              (map (rowUpdate (ownTally games name)) (filter (resolvesTo name) rows)).
Proof.
  induction rows as [|player rows IH]; intros agg; cbn [fold_left filter].
  - reflexivity.
  - rewrite IH, get_foldPlayer.
    destruct (resolvesTo name player); [|reflexivity].
    cbn [map].
    change (Some ?e) with (foldEntry name (JsObject.get agg name)
                                     [rowUpdate (ownTally games name) player]) at 1.
    now rewrite foldEntry_app.
Qed.

Lemma map_playerUpdate_cons name t ts :
  map (playerUpdate tallies name) (playerRows results name (t :: ts))
  = map (rowUpdate (ownTally (ownGames tallies t) name)) (filter (resolvesTo name) (ownResults results t))
    ++ map (playerUpdate tallies name) (playerRows results name ts).
Proof.
  unfold playerRows. cbn [flat_map]. rewrite map_app, map_map. reflexivity.
Qed.

Lemma get_fold_foldTournament name ts : forall agg,
  JsObject.get (fold_left (OwnOnly.foldTournament results tallies) ts agg) name
  = foldEntry name (JsObject.get agg name)
              (map (playerUpdate tallies name) (playerRows results name ts)).
Proof.
  induction ts as [|t ts IH]; intros agg; cbn [fold_left].
  - reflexivity.
  - rewrite IH. unfold OwnOnly.foldTournament at 1.
    rewrite get_fold_foldPlayer, foldEntry_app, map_playerUpdate_cons.
    reflexivity.
Qed.

(** The entry of a player is the left fold of [sumStats] over the player's
    rows, from the fresh entry; a player without rows has no entry. *)
Lemma get_aggregateOf name ts :
  JsObject.get (OwnOnly.aggregateOf results tallies ts) name
  = match playerRows results name ts with
    | [] => None
    | _ => Some (fold_left sumStats (map (playerUpdate tallies name) (playerRows results name ts))
                           (newEntry name))
    end.
Proof.
  unfold OwnOnly.aggregateOf. rewrite get_fold_foldTournament.
  unfold foldEntry. destruct (playerRows results name ts); reflexivity.
Qed.
End AggregatorFacts.

(** ** The keys of [aggregate] and the names of the output *)

Lemma existsb_eqb_In k l : existsb (String.eqb k) l = true <-> In k l.
Proof.
  rewrite existsb_exists. split.
  - intros (x & Hx & E). apply String.eqb_eq in E. now subst.
  - intros Hk. exists k. split; [assumption|apply String.eqb_refl].
Qed.

Lemma addKey_NoDup acc k : NoDup acc -> NoDup (addKey acc k).
Proof.
  intros Hnd. unfold addKey.
  destruct (existsb (String.eqb k) acc) eqn:E; [assumption|].
  apply NoDup_app; [assumption|repeat constructor; simpl; tauto|].
  intros x Hx [<-|[]].
  apply existsb_eqb_In in Hx. congruence.
Qed.

Lemma fold_addKey_NoDup ks : forall acc,
  NoDup acc -> NoDup (fold_left addKey ks acc).
Proof.
  induction ks as [|k ks IH]; intros acc Hnd; simpl; [assumption|].
  apply IH, addKey_NoDup, Hnd.
Qed.

Lemma In_addKey acc k x : In x (addKey acc k) <-> In x acc \/ x = k.
Proof.
  unfold addKey. destruct (existsb (String.eqb k) acc) eqn:E.
  - apply existsb_eqb_In in E. split; [tauto|]. intros [Hx| ->]; assumption.
  - rewrite in_app_iff. simpl. intuition congruence.
Qed.

Lemma In_fold_addKey ks : forall acc x,
  In x (fold_left addKey ks acc) <-> In x acc \/ In x ks.
Proof.
  induction ks as [|k ks IH]; intros acc x; simpl; [tauto|].
  rewrite IH, In_addKey. intuition congruence.
Qed.

Section ArraySortFacts.
Context {num : Type} `{JsNumber num} {A : Type}.
Variable cmp : A -> A -> num.

Lemma insertSorted_Permutation x l :
  Permutation (insertSorted cmp x l) (x :: l).
Proof.
  induction l as [|y l IH]; simpl; [reflexivity|].
  destruct (nlt _ _); [|reflexivity].
  rewrite IH. apply perm_swap.
Qed.

Lemma arraySort_Permutation l : Permutation (arraySort cmp l) l.
Proof.
  induction l as [|x l IH]; simpl; [reflexivity|].
  rewrite insertSorted_Permutation. now constructor.
Qed.
End ArraySortFacts.

Section KeyFacts.
Context {num : Type} `{JsNumber num}.
Variable results : JsObject.t (list (ResultRow.t num)).
Variable tallies : JsObject.t (JsObject.t Tally.t).

Lemma keys_foldUpdate (agg : JsObject.t (Entry.t num)) n u :
  JsObject.keys (OwnOnly.foldUpdate agg n u) = addKey (JsObject.keys agg) n.
Proof.
  unfold OwnOnly.foldUpdate, addKey. rewrite keys_modify.
  destruct (JsObject.get agg n) as [e|] eqn:G.
  - assert (Hin : In n (JsObject.keys agg)).
    { apply get_In in G. change n with (fst (n, e)). now apply in_map. }
    apply existsb_eqb_In in Hin. now rewrite Hin.
  - rewrite keys_set, G.
    apply get_None_keys in G.
    destruct (existsb (String.eqb n) (JsObject.keys agg)) eqn:E; [|reflexivity].
    apply existsb_eqb_In in E. contradiction.
Qed.

Lemma keys_fold_foldPlayer games rows : forall agg : JsObject.t (Entry.t num),
  JsObject.keys (fold_left (OwnOnly.foldPlayer games) rows agg)
  = fold_left addKey
      (flat_map (fun player => match resolved (getUserName player) with
                               | Some n => [n]
                               | None => []
                               end) rows)
      (JsObject.keys agg).
Proof.
  induction rows as [|player rows IH]; intros agg; cbn [fold_left flat_map].
  - reflexivity.
  - rewrite IH, fold_left_app. f_equal.
    unfold OwnOnly.foldPlayer.
    destruct (resolved (getUserName player)); [|reflexivity].
    apply keys_foldUpdate.
Qed.

Lemma keys_fold_foldTournament ts : forall agg,
  JsObject.keys (fold_left (OwnOnly.foldTournament results tallies) ts agg)
  = fold_left addKey (resolvedNames results ts) (JsObject.keys agg).
Proof.
  induction ts as [|t ts IH]; intros agg; cbn [fold_left].
  - reflexivity.
  - rewrite IH. unfold resolvedNames. cbn [flat_map].
    rewrite fold_left_app. f_equal. apply keys_fold_foldPlayer.
Qed.

(** The keys of [aggregate], in creation order. *)
Lemma keys_aggregateOf ts :
  JsObject.keys (OwnOnly.aggregateOf results tallies ts)
  = firstSeen (resolvedNames results ts).
Proof. apply keys_fold_foldTournament. Qed.

Lemma NoDup_keys_aggregateOf ts :
  NoDup (JsObject.keys (OwnOnly.aggregateOf results tallies ts)).
Proof. rewrite keys_aggregateOf. apply fold_addKey_NoDup. constructor. Qed.

Lemma name_fold_sumStats us : forall e : Entry.t num,
  Entry.name (fold_left sumStats us e) = Entry.name e.
Proof.
  induction us as [|u us IH]; intros e; simpl; [reflexivity|].
  now rewrite IH.
Qed.

(** Every own property of [aggregate] is the fold of its key's rows. *)
Lemma In_aggregateOf k e ts :
  In (k, e) (OwnOnly.aggregateOf results tallies ts) ->
  playerRows results k ts <> []
  /\ e = fold_left sumStats
                   (map (playerUpdate tallies k) (playerRows results k ts))
                   (newEntry k).
Proof.
  intros Hin. apply In_get in Hin; [|apply NoDup_keys_aggregateOf].
  rewrite get_aggregateOf in Hin.
  destruct (playerRows results k ts) eqn:E; [discriminate|].
  split; [discriminate|]. now injection Hin as <-.
Qed.

Lemma name_In_aggregateOf k e ts :
  In (k, e) (OwnOnly.aggregateOf results tallies ts) -> Entry.name e = k.
Proof.
  intros Hin. apply In_aggregateOf in Hin. destruct Hin as [_ ->].
  now rewrite name_fold_sumStats.
Qed.

Lemma playerRows_nonempty name ts :
  playerRows results name ts <> []
  <-> exists t player,
      In t ts /\ In player (ownResults results t)
      /\ resolved (getUserName player) = Some name.
Proof.
  split.
  - intros Hne.
    destruct (playerRows results name ts) as [|[t player] rows] eqn:E;
      [congruence|].
    assert (Hin : In (t, player) (playerRows results name ts))
      by (rewrite E; now left).
    unfold playerRows in Hin. apply in_flat_map in Hin.
    destruct Hin as (t' & Ht' & Hin). apply in_map_iff in Hin.
    destruct Hin as (player' & [= <- <-] & Hin).
    apply filter_In in Hin. destruct Hin as [Hin Hres].
    exists t', player'. repeat split; try assumption.
    unfold resolvesTo in Hres.
    destruct (resolved (getUserName player')); [|discriminate].
    apply String.eqb_eq in Hres. now subst.
  - intros (t & player & Ht & Hp & Hres) E.
    assert (Hin : In (t, player) (playerRows results name ts)).
    { unfold playerRows. apply in_flat_map. exists t. split; [assumption|].
      apply in_map, filter_In. split; [assumption|].
      unfold resolvesTo. rewrite Hres. apply String.eqb_refl. }
    rewrite E in Hin. destruct Hin.
Qed.

(** The rows of the output are the finalised own properties. *)
Lemma In_aggregatedStats row ts :
  In row (OwnOnly.aggregatedStats results tallies ts)
  <-> exists e, In (Entry.name e, e) (OwnOnly.aggregateOf results tallies ts)
                /\ row = finalize e.
Proof.
  unfold OwnOnly.aggregatedStats.
  rewrite (Permutation_in' (eq_refl row) (arraySort_Permutation compareRows _)).
  rewrite in_map_iff.
  split.
  - intros (e & <- & Hin).
    apply (Permutation_in _ (values_Permutation _)) in Hin.
    apply in_map_iff in Hin. destruct Hin as ([k e'] & Hk & Hin).
    simpl in Hk. subst e'.
    exists e. split; [|reflexivity].
    now rewrite (name_In_aggregateOf _ _ _ Hin).
  - intros (e & Hin & ->). exists e. split; [reflexivity|].
    apply (Permutation_in _ (Permutation_sym (values_Permutation _))).
    apply in_map_iff. exists (Entry.name e, e). now split.
Qed.
End KeyFacts.

(* ================================================================== *)
(** * The aggregate without a prototype *)

Lemma fold_left_Permutation_comm {A B : Type} (f : A -> B -> A) :
  (forall a x y, f (f a x) y = f (f a y) x) ->
  forall l l', Permutation l l' -> forall a, fold_left f l a = fold_left f l' a.
Proof.
  intros Hc l l' Hp.
  induction Hp as [|x l l' Hp IH|x y l|l l' l'' Hp1 IH1 Hp2 IH2];
    intros a; simpl.
  - reflexivity.
  - apply IH.
  - now rewrite Hc.
  - now rewrite IH1.
Qed.

Section AggregatorClaims.
Context {num : Type} `{JsNumber num}.
Variable results : JsObject.t (list (ResultRow.t num)).
Variable tallies : JsObject.t (JsObject.t Tally.t).
Local Open Scope js_scope.

Lemma map_snd_playerRows name ts :
  map snd (playerRows results name ts) = rowsOfPlayer results name ts.
Proof.
  unfold playerRows, rowsOfPlayer.
  induction ts as [|t ts IH]; cbn [flat_map]; [reflexivity|].
  rewrite map_app, filter_app, IH, map_map. simpl. now rewrite map_id.
Qed.

Lemma tournaments_fold_sumStats us : forall e : Entry.t num,
  Forall (fun u => Update.tournaments u = 1%N) us ->
  Entry.tournaments (fold_left sumStats us e)
  = (Entry.tournaments e + N.of_nat (List.length us))%N.
Proof.
  induction us as [|u us IH]; intros e Hall; cbn [fold_left List.length].
  - simpl. lia.
  - inversion Hall as [|? ? Hu Hus]; subst.
    rewrite IH by assumption. simpl. rewrite Hu. lia.
Qed.

Lemma points_fold_sumStats us : forall e : Entry.t num,
  Entry.points (fold_left sumStats us e)
  = fold_left nadd (map (@Update.points num) us) (Entry.points e).
Proof.
  induction us as [|u us IH]; intros e; simpl; [reflexivity|].
  now rewrite IH.
Qed.

Lemma own_output_names (ts : list (Tournament.t num)) (name : string) :
  (In name (map (@StatRow.name num) (OwnOnly.aggregatedStats results tallies ts))
   <-> exists t player,
       In t ts /\ In player (ownResults results t)
       /\ resolved (getUserName player) = Some name)
  /\ (forall t aggregate,
         JsObject.get results (Tournament.id t) = None ->
         ownResults results t = []
         /\ OwnOnly.foldTournament results tallies aggregate t = aggregate).
Proof.
  split.
  - rewrite <- playerRows_nonempty, in_map_iff. split.
    + intros (row & <- & Hin). apply In_aggregatedStats in Hin.
      destruct Hin as (e & Hin & ->). apply In_aggregateOf in Hin.
      apply Hin.
    + intros Hne.
      destruct (JsObject.get (OwnOnly.aggregateOf results tallies ts) name)
        as [e|] eqn:G.
      * apply get_In in G. exists (finalize e).
        pose proof (name_In_aggregateOf _ _ _ _ _ G) as Hn.
        split; [exact Hn|].
        apply In_aggregatedStats. exists e. rewrite Hn. now split.
      * rewrite get_aggregateOf in G.
        destruct (playerRows results name ts); [congruence|discriminate].
  - intros t aggregate Hg. unfold OwnOnly.foldTournament, ownResults.
    rewrite Hg. split; reflexivity.
Qed.

Lemma own_tournaments_counted (ts : list (Tournament.t num))
        (row : StatRow.t num) :
  In row (OwnOnly.aggregatedStats results tallies ts) ->
  StatRow.tournaments row
  = N.of_nat (List.length (rowsOfPlayer results (StatRow.name row) ts))
  /\ StatRow.points row
     = fold_left nadd
                 (map rowPoints (rowsOfPlayer results (StatRow.name row) ts))
                 zero.
Proof.
  intros Hin. apply In_aggregatedStats in Hin.
  destruct Hin as (e & Hin & ->). apply In_aggregateOf in Hin.
  destruct Hin as [_ He].
  unfold StatRow.tournaments, StatRow.points, StatRow.name.
  cbn [StatRow.entry finalize].
  remember (Entry.name e) as name eqn:Hn. clear Hn.
  rewrite <- map_snd_playerRows.
  rewrite He. split.
  - rewrite tournaments_fold_sumStats.
    + now rewrite !length_map.
    + apply Forall_forall. intros u Hu. apply in_map_iff in Hu.
      now destruct Hu as (r & <- & _).
  - rewrite points_fold_sumStats, !map_map. reflexivity.
Qed.

(** ** Order independence *)

Lemma counters_fold_sumStats us : forall e : Entry.t num,
  counters (fold_left sumStats us e) = fold_left addCounters us (counters e).
Proof.
  induction us as [|u us IH]; intros e; simpl; [reflexivity|].
  now rewrite IH.
Qed.

Lemma addCounters_comm c (u1 u2 : Update.t num) :
  addCounters (addCounters c u1) u2 = addCounters (addCounters c u2) u1.
Proof.
  destruct c as [[[w d] l] n]. simpl.
  repeat match goal with |- (_, _) = (_, _) => f_equal end; lia.
Qed.

Lemma sumStats_comm :
  (forall a b c : num, (a + b) + c = a + (b + c)) ->
  (forall a b : num, a + b = b + a) ->
  forall (e : Entry.t num) u1 u2,
    sumStats (sumStats e u1) u2 = sumStats (sumStats e u2) u1.
Proof.
  intros Hassoc Hcomm e u1 u2. unfold sumStats. simpl.
  assert (Hswap : forall a b c : num, (a + b) + c = (a + c) + b).
  { intros a b c. now rewrite !Hassoc, (Hcomm b c). }
  f_equal; try apply Hswap; lia.
Qed.

Lemma playerRows_Permutation name ts ts' :
  Permutation ts ts' ->
  Permutation (playerRows results name ts) (playerRows results name ts').
Proof. intros Hp. unfold playerRows. now apply Permutation_flat_map. Qed.

Lemma own_order_independence
        (ts ts' : list (Tournament.t num)) (name : string) :
  Permutation ts ts' ->
  option_map counters (JsObject.get (OwnOnly.aggregateOf results tallies ts) name)
  = option_map counters (JsObject.get (OwnOnly.aggregateOf results tallies ts') name)
  /\ ((forall a b c : num, (a + b) + c = a + (b + c)) ->
      (forall a b : num, a + b = b + a) ->
      JsObject.get (OwnOnly.aggregateOf results tallies ts) name
      = JsObject.get (OwnOnly.aggregateOf results tallies ts') name).
Proof.
  intros Hp. apply (playerRows_Permutation name) in Hp.
  rewrite !get_aggregateOf.
  destruct (playerRows results name ts) as [|r rows] eqn:E.
  - apply Permutation_nil in Hp. rewrite Hp. split; reflexivity.
  - destruct (playerRows results name ts') as [|r' rows'] eqn:E'.
    + apply Permutation_sym, Permutation_nil in Hp. discriminate.
    + apply (Permutation_map (playerUpdate tallies name)) in Hp.
      split.
      * cbn [option_map]. f_equal. rewrite !counters_fold_sumStats.
        now apply fold_left_Permutation_comm; [apply addCounters_comm|].
      * intros Hassoc Hcomm. f_equal.
        apply fold_left_Permutation_comm; [|assumption].
        now apply sumStats_comm.
Qed.
End AggregatorClaims.

(* ================================================================== *)
(** * More on the tally without a prototype *)

Lemma gameDelta_balanced white black winner p :
  let s := gameDelta white black winner p in
  Tally.games s = (Tally.w s + Tally.d s + Tally.l s)%N.
Proof.
  unfold gameDelta. cbn [Tally.games Tally.w Tally.d Tally.l].
  destruct (String.eqb p white), (String.eqb p black),
    (strictEq winner "white"), (strictEq winner "black"); reflexivity.
Qed.

Lemma gameContribution_balanced p game :
  let s := gameContribution p game in
  Tally.games s = (Tally.w s + Tally.d s + Tally.l s)%N.
Proof.
  unfold gameContribution.
  destruct (gameSides game) as [[white black]|];
    [apply gameDelta_balanced|reflexivity].
Qed.

Lemma fold_addTally_balanced l : forall s,
  Forall (fun c => Tally.games c = (Tally.w c + Tally.d c + Tally.l c)%N) l ->
  Tally.games s = (Tally.w s + Tally.d s + Tally.l s)%N ->
  let s' := fold_left addTally l s in
  Tally.games s' = (Tally.w s' + Tally.d s' + Tally.l s')%N.
Proof.
  induction l as [|c l IH]; intros s Hall Hs; cbn [fold_left]; [assumption|].
  inversion Hall as [|? ? Hc Hl]; subst.
  apply IH; [assumption|]. unfold addTally. simpl. lia.
Qed.

Lemma addTally_comm_step s a b :
  addTally (addTally s a) b = addTally (addTally s b) a.
Proof. unfold addTally. simpl. f_equal; lia. Qed.

Lemma fold_addTally_add l : forall s,
  fold_left addTally l s = addTally s (fold_left addTally l Tally.zero).
Proof.
  induction l as [|c l IH]; intros s; cbn [fold_left].
  - now rewrite addTally_zero_r.
  - rewrite IH, (IH (addTally Tally.zero c)).
    destruct s, c. unfold addTally, Tally.zero. simpl. f_equal; lia.
Qed.

Lemma ownTally_empty p : ownTally JsObject.empty p = Tally.zero.
Proof. reflexivity. Qed.

Lemma ownTally_own_fetch games p :
  ownTally (OwnOnly.fetchTournamentGames games) p
  = fold_left addTally (map (gameContribution p) games) Tally.zero.
Proof. unfold OwnOnly.fetchTournamentGames. now rewrite fold_tallyGame. Qed.

Lemma contributions_balanced (games : list Game.t) (p : string) :
  let s := fold_left addTally (map (gameContribution p) games) Tally.zero in
  Tally.games s = (Tally.w s + Tally.d s + Tally.l s)%N.
Proof.
  apply fold_addTally_balanced; [|reflexivity].
  apply Forall_forall. intros c Hc. apply in_map_iff in Hc.
  destruct Hc as (g & <- & _). apply gameContribution_balanced.
Qed.




(** ** The players of a tally *)

Lemma keys_ensureTally stats k :
  JsObject.keys (OwnOnly.ensureTally stats k) = addKey (JsObject.keys stats) k.
Proof.
  unfold OwnOnly.ensureTally, addKey.
  destruct (JsObject.get stats k) as [s|] eqn:G.
  - assert (Hin : In k (JsObject.keys stats)).
    { apply get_In in G. change k with (fst (k, s)). now apply in_map. }
    apply existsb_eqb_In in Hin. now rewrite Hin.
  - rewrite keys_set, G. apply get_None_keys in G.
    destruct (existsb (String.eqb k) (JsObject.keys stats)) eqn:E; [|reflexivity].
    apply existsb_eqb_In in E. contradiction.
Qed.

Lemma keys_tallyGame stats game :
  JsObject.keys (OwnOnly.tallyGame stats game)
  = match gameSides game with
    | Some (white, black) => addKey (addKey (JsObject.keys stats) white) black
    | None => JsObject.keys stats
    end.
Proof.
  unfold OwnOnly.tallyGame, gameSides.
  destruct (resolved (orStr (Game.whiteName game) (Game.whiteId game)))
    as [white|]; [|reflexivity].
  destruct (resolved (orStr (Game.blackName game) (Game.blackId game)))
    as [black|]; [|reflexivity].
  destruct (strictEq (Game.winner game) "white");
    [|destruct (strictEq (Game.winner game) "black")];
    now rewrite !keys_modify, !keys_ensureTally.
Qed.

Lemma In_keys_fold_tallyGame games : forall stats p,
  In p (JsObject.keys (fold_left OwnOnly.tallyGame games stats))
  <-> In p (JsObject.keys stats)
      \/ exists game, In game games /\ playsIn p game = true.
Proof.
  induction games as [|g games IH]; intros stats p; cbn [fold_left].
  - split; [tauto|]. intros [Hin|(game & [] & _)]. assumption.
  - rewrite IH, keys_tallyGame. unfold playsIn at 1.
    split.
    + intros [Hin|(game & Hg & Hp)].
      * destruct (gameSides g) as [[white black]|] eqn:E; [|now left].
        apply In_addKey in Hin. destruct Hin as [Hin| ->].
        -- apply In_addKey in Hin. destruct Hin as [Hin| ->]; [now left|].
           right. exists g. split; [now left|].
           unfold playsIn. now rewrite E, String.eqb_refl.
        -- right. exists g. split; [now left|].
           unfold playsIn. rewrite E, String.eqb_refl. apply orb_true_r.
      * right. exists game. split; [now right|assumption].
    + intros [Hin|(game & [<-|Hg] & Hp)].
      * left. destruct (gameSides g) as [[white black]|]; [|assumption].
        apply In_addKey. left. apply In_addKey. now left.
      * left. unfold playsIn in Hp.
        destruct (gameSides g) as [[white black]|]; [|discriminate].
        apply orb_true_iff in Hp. rewrite !String.eqb_eq in Hp.
        apply In_addKey. destruct Hp as [->| ->]; [left|now right].
        apply In_addKey. now right.
      * right. exists game. now split.
Qed.

Lemma games_fold_addTally l : forall s,
  Tally.games (fold_left addTally l s)
  = (Tally.games s + sumN (map Tally.games l))%N.
Proof.
  induction l as [|c l IH]; intros s; cbn [fold_left map sumN fold_right].
  - lia.
  - rewrite IH. unfold addTally. cbn [Tally.games]. unfold sumN. lia.
Qed.

Lemma sumN_In_le (l : list N) x : In x l -> (x <= sumN l)%N.
Proof.
  induction l as [|y l IH]; [intros []|].
  intros [->|Hin]; unfold sumN in *; simpl; [lia|].
  specialize (IH Hin). lia.
Qed.


(** ** The number of games *)

Lemma tallyGame_total_games stats game :
  listTotal Tally.games (OwnOnly.tallyGame stats game)
  = (listTotal Tally.games stats + 2 * ind (resolvable game))%N.
Proof.
  unfold OwnOnly.tallyGame, resolvable, gameSides.
  destruct (resolved (orStr (Game.whiteName game) (Game.whiteId game)))
    as [white|]; [|cbn; lia].
  destruct (resolved (orStr (Game.blackName game) (Game.blackId game)))
    as [black|]; [|cbn; lia].
  set (s2 := OwnOnly.ensureTally (OwnOnly.ensureTally stats white) black).
  set (s4 := JsObject.modify (JsObject.modify s2 white incGames) black incGames).
  assert (Hw : JsObject.get s4 white <> None) by (subst s4 s2; auto 6 with present).
  assert (Hb : JsObject.get s4 black <> None) by (subst s4 s2; auto 6 with present).
  assert (T4 : listTotal Tally.games s4 = (listTotal Tally.games stats + 2)%N).
  { subst s4 s2.
    rewrite (total_modify Tally.games incGames 1),
      (total_modify Tally.games incGames 1)
      by (auto 6 with present || (intros; simpl; lia)).
    rewrite !total_ensureTally by reflexivity. lia. }
  cbn [ind].
  destruct (strictEq (Game.winner game) "white");
    [|destruct (strictEq (Game.winner game) "black")].
  - rewrite (total_modify Tally.games incL 0), (total_modify Tally.games incW 0)
      by (auto with present || (intros; simpl; lia)).
    lia.
  - rewrite (total_modify Tally.games incL 0), (total_modify Tally.games incW 0)
      by (auto with present || (intros; simpl; lia)).
    lia.
  - rewrite !(total_modify Tally.games incD 0)
      by (auto with present || (intros; simpl; lia)).
    lia.
Qed.

Lemma fold_tallyGame_total_games games : forall stats,
  listTotal Tally.games (fold_left OwnOnly.tallyGame games stats)
  = (listTotal Tally.games stats
     + 2 * N.of_nat (List.length (filter resolvable games)))%N.
Proof.
  induction games as [|g games IH]; intros stats; cbn [fold_left filter].
  - cbn. lia.
  - rewrite IH, tallyGame_total_games.
    destruct (resolvable g); cbn [ind List.length]; lia.
Qed.

Lemma NoDup_keys_fold_tallyGame games : forall stats,
  NoDup (JsObject.keys stats) ->
  NoDup (JsObject.keys (fold_left OwnOnly.tallyGame games stats)).
Proof.
  induction games as [|g games IH]; intros stats Hnd; cbn [fold_left];
    [assumption|].
  apply IH. rewrite keys_tallyGame.
  destruct (gameSides g) as [[white black]|]; [|assumption].
  now apply addKey_NoDup, addKey_NoDup.
Qed.

Lemma sumN_map_balanced (l : list Tally.t) :
  Forall (fun s => Tally.games s = (Tally.w s + Tally.d s + Tally.l s)%N) l ->
  sumN (map Tally.games l)
  = (sumN (map Tally.w l) + sumN (map Tally.d l) + sumN (map Tally.l l))%N.
Proof.
  induction 1 as [|s l Hs Hl IH]; [reflexivity|].
  unfold sumN in *. cbn [map fold_right]. lia.
Qed.


(** * The program's objects and the objects without a prototype *)

Section WithoutInherited.
Context {V : Type}.
Implicit Types (o : JsObject.t V) (k p : string).

Lemma inherits_slot : JsObject.inherits JsObject.slot = true.
Proof. reflexivity. Qed.

Lemma get_withoutInherited o k :
  JsObject.get (withoutInherited o) k
  = if JsObject.inherits k then None else JsObject.get o k.
Proof.
  induction o as [|[k' v] o IH]; cbn [withoutInherited filter JsObject.get fst].
  - now destruct (JsObject.inherits k).
  - fold (withoutInherited o).
    destruct (String.eqb k k') eqn:E.
    + apply String.eqb_eq in E. subst k'.
      destruct (JsObject.inherits k) eqn:I; cbn [negb].
      * exact IH.
      * cbn [JsObject.get]. now rewrite String.eqb_refl.
    + destruct (JsObject.inherits k') eqn:I'; cbn [negb].
      * exact IH.
      * cbn [JsObject.get]. now rewrite E.
Qed.

Lemma hasSlot_withoutInherited o :
  JsObject.hasSlot (withoutInherited o) = false.
Proof.
  unfold JsObject.hasSlot. now rewrite get_withoutInherited, inherits_slot.
Qed.

Lemma lookup_withoutInherited o k :
  JsObject.lookup (withoutInherited o) k
  = if JsObject.inherits k then JsObject.Inherited
    else match JsObject.get o k with
         | Some v => JsObject.Own v
         | None => JsObject.Absent
         end.
Proof.
  unfold JsObject.lookup.
  rewrite get_withoutInherited, hasSlot_withoutInherited.
  destruct (JsObject.inherits k); [reflexivity|].
  now destruct (JsObject.get o k).
Qed.

Lemma set_withoutInherited o k v :
  withoutInherited (JsObject.set o k v)
  = if JsObject.inherits k then withoutInherited o
    else JsObject.set (withoutInherited o) k v.
Proof.
  induction o as [|[k' v'] o IH]; cbn [JsObject.set].
  - cbn [withoutInherited filter fst].
    now destruct (JsObject.inherits k).
  - destruct (String.eqb k k') eqn:E.
    + apply String.eqb_eq in E. subst k'.
      cbn [withoutInherited filter fst].
      destruct (JsObject.inherits k); cbn [negb]; [reflexivity|].
      cbn [JsObject.set]. now rewrite String.eqb_refl.
    + cbn [withoutInherited filter fst]. fold (withoutInherited o).
      fold (withoutInherited (JsObject.set o k v)). rewrite IH.
      destruct (JsObject.inherits k') eqn:I'; cbn [negb];
        destruct (JsObject.inherits k) eqn:I; try reflexivity.
      cbn [JsObject.set]. now rewrite E.
Qed.

Lemma modify_withoutInherited o k (f : V -> V) :
  JsObject.modify (withoutInherited o) k f
  = withoutInherited (JsObject.modify o k f).
Proof.
  unfold JsObject.modify. rewrite get_withoutInherited.
  destruct (JsObject.inherits k) eqn:I.
  - destruct (JsObject.get o k); [|reflexivity].
    now rewrite set_withoutInherited, I.
  - destruct (JsObject.get o k); [|reflexivity].
    now rewrite set_withoutInherited, I.
Qed.

Lemma withoutInherited_idem o :
  withoutInherited (withoutInherited o) = withoutInherited o.
Proof.
  unfold withoutInherited. induction o as [|[k v] o IH]; [reflexivity|].
  cbn [filter fst]. destruct (JsObject.inherits k) eqn:I; cbn [negb].
  - exact IH.
  - cbn [filter fst]. rewrite I. cbn [negb]. now rewrite IH.
Qed.

Lemma withoutInherited_all o :
  (forall k, In k (JsObject.keys o) -> JsObject.inherits k = false) ->
  withoutInherited o = o.
Proof.
  intros Hall. unfold withoutInherited.
  induction o as [|[k v] o IH]; [reflexivity|].
  cbn [filter fst]. rewrite (Hall k) by now left. cbn [negb].
  rewrite IH; [reflexivity|]. intros k' Hk'. apply Hall. now right.
Qed.

Lemma In_withoutInherited o (e : string * V) :
  In e (withoutInherited o) <-> In e o /\ JsObject.inherits (fst e) = false.
Proof.
  unfold withoutInherited. rewrite filter_In, negb_true_iff. reflexivity.
Qed.

Lemma enumerable_withoutInherited o :
  JsObject.enumerable (withoutInherited o) = withoutInherited o.
Proof.
  unfold JsObject.enumerable, withoutInherited.
  induction o as [|[k v] o IH]; [reflexivity|].
  cbn [filter fst]. destruct (JsObject.inherits k) eqn:I; cbn [negb].
  - exact IH.
  - cbn [filter fst].
    destruct (String.eqb k JsObject.slot) eqn:E.
    + apply String.eqb_eq in E. subst k. discriminate.
    + cbn [negb]. now rewrite IH.
Qed.

Lemma keys_withoutInherited o :
  JsObject.keys (withoutInherited o)
  = filter (fun k => negb (JsObject.inherits k)) (JsObject.keys o).
Proof.
  unfold JsObject.keys, withoutInherited.
  induction o as [|[k v] o IH]; [reflexivity|].
  cbn [filter map fst]. destruct (JsObject.inherits k); cbn [negb map fst];
    now rewrite IH.
Qed.
End WithoutInherited.

(** ** The tally builder *)

Lemma ensureTally_withoutInherited stats k :
  ensureTally (withoutInherited stats) k
  = withoutInherited (OwnOnly.ensureTally stats k).
Proof.
  unfold ensureTally, OwnOnly.ensureTally.
  rewrite lookup_withoutInherited.
  destruct (JsObject.inherits k) eqn:I.
  - destruct (JsObject.get stats k); [reflexivity|].
    now rewrite set_withoutInherited, I.
  - destruct (JsObject.get stats k); [reflexivity|].
    now rewrite set_withoutInherited, I.
Qed.

Lemma tallyGame_withoutInherited stats game :
  tallyGame (withoutInherited stats) game
  = withoutInherited (OwnOnly.tallyGame stats game).
Proof.
  unfold tallyGame, OwnOnly.tallyGame.
  destruct (resolved (orStr (Game.whiteName game) (Game.whiteId game)))
    as [white|]; [|reflexivity].
  destruct (resolved (orStr (Game.blackName game) (Game.blackId game)))
    as [black|]; [|reflexivity].
  cbv zeta. rewrite !ensureTally_withoutInherited.
  destruct (strictEq (Game.winner game) "white");
    [|destruct (strictEq (Game.winner game) "black")];
    now rewrite !modify_withoutInherited.
Qed.

Lemma fold_tallyGame_withoutInherited games : forall stats,
  fold_left tallyGame games (withoutInherited stats)
  = withoutInherited (fold_left OwnOnly.tallyGame games stats).
Proof.
  induction games as [|game games IH]; intros stats; [reflexivity|].
  cbn [fold_left]. now rewrite tallyGame_withoutInherited, IH.
Qed.

Lemma fetchTournamentGames_withoutInherited games :
  fetchTournamentGames games
  = withoutInherited (OwnOnly.fetchTournamentGames games).
Proof.
  unfold fetchTournamentGames, OwnOnly.fetchTournamentGames.
  now rewrite <- fold_tallyGame_withoutInherited.
Qed.

Lemma get_fetchTournamentGames games p :
  JsObject.get (fetchTournamentGames games) p
  = if JsObject.inherits p then None
    else JsObject.get (OwnOnly.fetchTournamentGames games) p.
Proof.
  now rewrite fetchTournamentGames_withoutInherited, get_withoutInherited.
Qed.

Lemma ownTally_fetchTournamentGames games p :
  JsObject.inherits p = false ->
  ownTally (fetchTournamentGames games) p
  = ownTally (OwnOnly.fetchTournamentGames games) p.
Proof.
  intros I. unfold ownTally. now rewrite get_fetchTournamentGames, I.
Qed.

(** ** The aggregator *)

Lemma andThen_Returned {A B : Type} (c : Computed A) (k : A -> Computed B) b :
  andThen c k = Returned b <-> exists a, c = Returned a /\ k a = Returned b.
Proof.
  destruct c as [a| |]; cbn [andThen].
  - split; [intros Hk; now exists a|]. now intros (a' & [= <-] & Hk).
  - split; [discriminate|]. now intros (a' & Ha & _).
  - split; [discriminate|]. now intros (a' & Ha & _).
Qed.

(** A loop whose body ends the same way from every state. *)
Lemma forEach_uniform {A S : Type} (body : S -> A -> Computed S)
      (step : S -> A -> S) (ends : A -> Computed unit) (R : S -> Prop) l :
  (forall s x, R s -> In x l ->
               body s x = andThen (ends x) (fun _ => Returned (step s x))) ->
  (forall s x, R s -> R (step s x)) ->
  forall s, R s ->
  forEach body l s
  = andThen (forEach (fun _ x => ends x) l tt)
            (fun _ => Returned (fold_left step l s)).
Proof.
  intros Hbody Hstep. induction l as [|x l IH]; intros s Hs; [reflexivity|].
  cbn [forEach fold_left]. rewrite (Hbody s x Hs) by now left.
  destruct (ends x) as [[]| |]; cbn [andThen]; try reflexivity.
  apply IH.
  - intros s' x' Hs' Hx'. apply Hbody; [assumption|now right].
  - now apply Hstep.
Qed.

Lemma forEach_ends_Returned {A : Type} (ends : A -> Computed unit) l :
  forEach (fun _ x => ends x) l tt = Returned tt
  <-> forall x, In x l -> ends x = Returned tt.
Proof.
  induction l as [|x l IH]; cbn [forEach].
  - split; [intros _ x []|reflexivity].
  - destruct (ends x) as [[]| |] eqn:E; cbn [andThen].
    + rewrite IH. split.
      * intros Hall y [<-|Hy]; [exact E|now apply Hall].
      * intros Hall y Hy. apply Hall. now right.
    + split; [discriminate|]. intros Hall.
      specialize (Hall x (or_introl eq_refl)). congruence.
    + split; [discriminate|]. intros Hall.
      specialize (Hall x (or_introl eq_refl)). congruence.
Qed.

Section AggregatorBridge.
Context {num : Type} `{JsNumber num}.
Variable results : JsObject.t (list (ResultRow.t num)).
Variable tallies : JsObject.t (JsObject.t Tally.t).
Implicit Types (agg : JsObject.t (Entry.t num)).

Lemma foldUpdate_withoutInherited agg name update :
  foldUpdate (withoutInherited agg) name update
  = Returned (withoutInherited (OwnOnly.foldUpdate agg name update)).
Proof.
  unfold foldUpdate, OwnOnly.foldUpdate.
  rewrite lookup_withoutInherited.
  destruct (JsObject.inherits name) eqn:I.
  - f_equal. rewrite <- modify_withoutInherited.
    destruct (JsObject.get agg name).
    + unfold JsObject.modify. now rewrite get_withoutInherited, I.
    + rewrite set_withoutInherited, I.
      unfold JsObject.modify. now rewrite get_withoutInherited, I.
  - destruct (JsObject.get agg name); f_equal.
    + apply modify_withoutInherited.
    + rewrite <- modify_withoutInherited, set_withoutInherited, I.
      reflexivity.
Qed.

Lemma gamesOf_Returned (t : Tournament.t num) games :
  gamesOf tallies t = Returned games -> games = ownGames tallies t.
Proof.
  unfold gamesOf, ownGames, JsObject.lookup.
  destruct (JsObject.get tallies (Tournament.id t)) as [g|].
  - now intros [= <-].
  - destruct (JsObject.hasSlot tallies); [discriminate|].
    destruct (JsObject.inherits (Tournament.id t)); [discriminate|].
    now intros [= <-].
Qed.

Lemma resultsOf_Returned (t : Tournament.t num) rows :
  resultsOf results t = Returned rows -> rows = ownResults results t.
Proof.
  unfold resultsOf, ownResults, JsObject.lookup.
  destruct (JsObject.get results (Tournament.id t)) as [r|].
  - now intros [= <-].
  - destruct (JsObject.hasSlot results); [discriminate|].
    destruct (JsObject.inherits (Tournament.id t)); [discriminate|].
    now intros [= <-].
Qed.

(** From an aggregate without inherited names, a row ends the same way
    whatever the aggregate holds, and leaves what the loop without a
    prototype leaves, less the inherited names. *)
Lemma foldPlayer_withoutInherited (games : Computed (JsObject.t Tally.t))
      own agg player :
  (forall g, games = Returned g -> g = own) ->
  foldPlayer games (withoutInherited agg) player
  = andThen (completion (foldPlayer games JsObject.empty player))
            (fun _ => Returned (withoutInherited
                                  (OwnOnly.foldPlayer own agg player))).
Proof.
  intros Hown. unfold foldPlayer, OwnOnly.foldPlayer.
  destruct (resolved (getUserName player)) as [name|]; [|reflexivity].
  destruct games as [g| |]; cbn [andThen completion]; try reflexivity.
  rewrite <- (Hown g eq_refl).
  unfold tallyOf, ownTally, JsObject.lookup.
  change (JsObject.get (@JsObject.empty (Entry.t num)) name) with (@None (Entry.t num)).
  destruct (JsObject.get g name) as [s|]; cbn [andThen].
  - rewrite foldUpdate_withoutInherited.
    change (@JsObject.empty (Entry.t num)) with (withoutInherited (@JsObject.empty (Entry.t num))).
    now rewrite foldUpdate_withoutInherited.
  - destruct (JsObject.hasSlot g); cbn [andThen]; [reflexivity|].
    destruct (JsObject.inherits name) eqn:I; cbn [andThen].
    + rewrite get_withoutInherited, hasSlot_withoutInherited, I.
      change (JsObject.hasSlot (@JsObject.empty (Entry.t num))) with false.
      cbn [andThen completion]. f_equal.
      pose proof (foldUpdate_withoutInherited
                    agg name (rowUpdate Tally.zero player)) as Hu.
      unfold foldUpdate in Hu. rewrite lookup_withoutInherited, I in Hu.
      now injection Hu.
    + rewrite foldUpdate_withoutInherited.
      change (@JsObject.empty (Entry.t num)) with (withoutInherited (@JsObject.empty (Entry.t num))).
      now rewrite foldUpdate_withoutInherited.
Qed.
End AggregatorBridge.

Lemma forEach_simulation {A S T : Type} (body : S -> A -> Computed S)
      (step : T -> A -> T) (ends : A -> Computed unit) (abs : T -> S) l :
  (forall s0 x, In x l ->
                body (abs s0) x
                = andThen (ends x) (fun _ => Returned (abs (step s0 x)))) ->
  forall s0,
    forEach body l (abs s0)
    = andThen (forEach (fun _ x => ends x) l tt)
              (fun _ => Returned (abs (fold_left step l s0))).
Proof.
  intros Hbody. induction l as [|x l IH]; intros s0; [reflexivity|].
  cbn [forEach fold_left]. rewrite (Hbody s0 x) by now left.
  destruct (ends x) as [[]| |]; cbn [andThen]; try reflexivity.
  apply IH. intros s' x' Hx'. apply Hbody. now right.
Qed.

Section AggregatorLoops.
Context {num : Type} `{JsNumber num}.
Variable results : JsObject.t (list (ResultRow.t num)).
Variable tallies : JsObject.t (JsObject.t Tally.t).
Implicit Types (agg : JsObject.t (Entry.t num)).

Lemma forEach_foldPlayer (games : Computed (JsObject.t Tally.t)) own rows agg :
  (forall g, games = Returned g -> g = own) ->
  forEach (foldPlayer games) rows (withoutInherited agg)
  = andThen (forEach (fun _ player => rowEnds games player) rows tt)
            (fun _ => Returned (withoutInherited
                                  (fold_left (OwnOnly.foldPlayer own) rows agg))).
Proof.
  intros Hown.
  apply (forEach_simulation (foldPlayer games) (OwnOnly.foldPlayer own)
                            (rowEnds games) (@withoutInherited (Entry.t num))).
  intros s0 x _. now apply foldPlayer_withoutInherited.
Qed.

Lemma foldTournament_withoutInherited agg (t : Tournament.t num) :
  foldTournament results tallies (withoutInherited agg) t
  = andThen (tournamentEnds results tallies t)
            (fun _ => Returned (withoutInherited
                                  (OwnOnly.foldTournament results tallies agg t))).
Proof.
  unfold tournamentEnds, foldTournament, OwnOnly.foldTournament.
  destruct (resultsOf results t) as [rows| |] eqn:R;
    cbn [andThen completion]; try reflexivity.
  apply resultsOf_Returned in R. subst rows.
  rewrite (@forEach_foldPlayer (gamesOf tallies t) (ownGames tallies t)
                              (ownResults results t) agg)
    by apply gamesOf_Returned.
  change (@JsObject.empty (Entry.t num))
    with (withoutInherited (@JsObject.empty (Entry.t num))).
  rewrite (@forEach_foldPlayer (gamesOf tallies t) (ownGames tallies t)
                              (ownResults results t) JsObject.empty)
    by apply gamesOf_Returned.
  now destruct (forEach (fun _ player => rowEnds (gamesOf tallies t) player)
                        (ownResults results t) tt) as [[]| |].
Qed.

Lemma aggregateOf_withoutInherited (ts : list (Tournament.t num)) :
  aggregateOf results tallies ts
  = andThen (forEach (fun _ t => tournamentEnds results tallies t) ts tt)
            (fun _ => Returned (withoutInherited
                                  (OwnOnly.aggregateOf results tallies ts))).
Proof.
  unfold aggregateOf, OwnOnly.aggregateOf.
  change (@JsObject.empty (Entry.t num))
    with (withoutInherited (@JsObject.empty (Entry.t num))) at 1.
  apply (forEach_simulation (foldTournament results tallies)
                            (OwnOnly.foldTournament results tallies)
                            (tournamentEnds results tallies)
                            (@withoutInherited (Entry.t num))).
  intros s0 t _. apply foldTournament_withoutInherited.
Qed.

Lemma aggregateOf_Returned (ts : list (Tournament.t num)) agg :
  aggregateOf results tallies ts = Returned agg ->
  agg = withoutInherited (OwnOnly.aggregateOf results tallies ts)
  /\ forall t, In t ts -> tournamentEnds results tallies t = Returned tt.
Proof.
  rewrite aggregateOf_withoutInherited. intros Hr.
  apply andThen_Returned in Hr. destruct Hr as ([] & Hends & [= <-]).
  split; [reflexivity|]. now apply forEach_ends_Returned.
Qed.

Lemma aggregateOf_completes (ts : list (Tournament.t num)) :
  (forall t, In t ts -> tournamentEnds results tallies t = Returned tt) ->
  aggregateOf results tallies ts
  = Returned (withoutInherited (OwnOnly.aggregateOf results tallies ts)).
Proof.
  intros Hall. rewrite aggregateOf_withoutInherited.
  apply forEach_ends_Returned in Hall. now rewrite Hall.
Qed.

Lemma aggregatedStats_Returned (ts : list (Tournament.t num)) out :
  aggregatedStats results tallies ts = Returned out ->
  out = arraySort compareRows
          (map finalize
               (map snd (JsObject.entries
                           (withoutInherited
                              (OwnOnly.aggregateOf results tallies ts)))))
  /\ forall t, In t ts -> tournamentEnds results tallies t = Returned tt.
Proof.
  unfold aggregatedStats. intros Hr.
  apply andThen_Returned in Hr. destruct Hr as (agg & Hagg & [= <-]).
  apply aggregateOf_Returned in Hagg. destruct Hagg as [-> Hall].
  split; [|exact Hall].
  unfold JsObject.values. now rewrite enumerable_withoutInherited.
Qed.

Lemma In_aggregatedStats_Returned (ts : list (Tournament.t num)) out row :
  aggregatedStats results tallies ts = Returned out ->
  In row out
  <-> exists e, In (Entry.name e, e) (OwnOnly.aggregateOf results tallies ts)
                /\ JsObject.inherits (Entry.name e) = false
                /\ row = finalize e.
Proof.
  intros Hr. apply aggregatedStats_Returned in Hr. destruct Hr as [-> _].
  split.
  - intros Hin.
    apply (Permutation_in _ (arraySort_Permutation compareRows _)) in Hin.
    apply in_map_iff in Hin. destruct Hin as (e & <- & Hin).
    apply in_map_iff in Hin. destruct Hin as ([k e'] & He & Hin).
    cbn [snd] in He. subst e'.
    apply (Permutation_in _ (entries_Permutation _)) in Hin.
    apply In_withoutInherited in Hin. destruct Hin as [Hin Hk].
    cbn [fst] in Hk.
    pose proof (name_In_aggregateOf _ _ _ _ _ Hin) as Hn.
    exists e. rewrite Hn. now repeat split.
  - intros (e & Hin & Hk & ->).
    apply (Permutation_in _ (Permutation_sym (arraySort_Permutation compareRows _))).
    apply in_map. apply in_map_iff. exists (Entry.name e, e).
    split; [reflexivity|].
    apply (Permutation_in _ (Permutation_sym (entries_Permutation _))).
    apply In_withoutInherited. now split.
Qed.
End AggregatorLoops.

(* ================================================================== *)
(** * Properties of the Game Tally Builder *)

Lemma total_listTotal f stats :
  total f stats = listTotal f (JsObject.enumerable stats).
Proof.
  unfold total, listTotal, JsObject.values.
  apply sumN_Permutation, Permutation_map, values_Permutation.
Qed.

Lemma total_withoutInherited f stats :
  total f (withoutInherited stats) = listTotal f (withoutInherited stats).
Proof. now rewrite total_listTotal, enumerable_withoutInherited. Qed.




Lemma fetchTournamentGames_plain games :
  plainSides games ->
  fetchTournamentGames games = OwnOnly.fetchTournamentGames games.
Proof.
  intros Hplain. rewrite fetchTournamentGames_withoutInherited.
  apply withoutInherited_all. intros k Hk.
  unfold OwnOnly.fetchTournamentGames in Hk.
  apply In_keys_fold_tallyGame in Hk. destruct Hk as [[]|(game & Hg & Hp)].
  unfold playsIn in Hp.
  destruct (gameSides game) as [[white black]|] eqn:E; [|discriminate].
  destruct (Hplain game white black Hg E) as [Hw Hb].
  apply orb_true_iff in Hp. rewrite !String.eqb_eq in Hp.
  now destruct Hp as [->| ->].
Qed.





Lemma plainSides_examples : plainSides Examples.games.
Proof.
  intros game white black Hin Hs.
  repeat (destruct Hin as [<-|Hin];
          [vm_compute in Hs; first [discriminate | injection Hs as <- <-; now split]|]).
  destruct Hin.
Qed.



(** * The month of a time value *)

Lemma civilFromDays_month (days : Z) :
  snd (civilFromDays days) = monthOfEraDay ((days + 719468) mod 146097).
Proof.
  unfold civilFromDays, monthOfEraDay. cbn [snd].
  rewrite Z.mod_eq by discriminate.
  replace (146097 * ((days + 719468) / 146097))%Z
    with ((days + 719468) / 146097 * 146097)%Z by apply Z.mul_comm.
  reflexivity.
Qed.

Lemma allFrom_spec (P : Z -> bool) fuel : forall i,
  allFrom fuel i P = true ->
  forall k, (i <= k < i + Z.of_nat fuel)%Z -> P k = true.
Proof.
  induction fuel as [|fuel IH]; intros i Hall k Hk.
  - simpl in Hk. lia.
  - cbn [allFrom] in Hall. apply andb_true_iff in Hall.
    destruct Hall as [Hi Hrest].
    destruct (Z.eq_dec k i) as [->|Hne]; [assumption|].
    apply (IH (i + 1)%Z Hrest). lia.
Qed.

Lemma monthOfEraDay_checked :
  allFrom (Z.to_nat 146097) 0
          (fun doe => let m := monthOfEraDay doe in ((1 <=? m) && (m <=? 12))%Z)
  = true.
Proof. vm_compute. reflexivity. Qed.

Lemma monthOfEraDay_range (doe : Z) :
  (0 <= doe < 146097)%Z -> (1 <= monthOfEraDay doe <= 12)%Z.
Proof.
  intros Hd.
  pose proof (@allFrom_spec _ _ _ monthOfEraDay_checked doe) as Hc.
  cbv zeta in Hc. rewrite Z2Nat.id in Hc by discriminate.
  specialize (Hc ltac:(lia)). apply andb_true_iff in Hc. lia.
Qed.

Lemma getUTCMonth_range (t : Z) : (1 <= getUTCMonth t + 1 <= 12)%Z.
Proof.
  unfold getUTCMonth. rewrite civilFromDays_month.
  replace (monthOfEraDay ((dayOf t + 719468) mod 146097) - 1 + 1)%Z
    with (monthOfEraDay ((dayOf t + 719468) mod 146097)) by lia.
  apply monthOfEraDay_range, Z.mod_pos_bound. reflexivity.
Qed.

Lemma month_field (m : Z) :
  (1 <= m <= 12)%Z -> In (padStart 2 "0" (stringOfInt m)) monthFields.
Proof.
  intros Hm.
  assert (Hcases : (m = 1 \/ m = 2 \/ m = 3 \/ m = 4 \/ m = 5 \/ m = 6
                    \/ m = 7 \/ m = 8 \/ m = 9 \/ m = 10 \/ m = 11
                    \/ m = 12)%Z) by lia.
  unfold monthFields.
  repeat (destruct Hcases as [Hm1 | Hcases]; [subst m; vm_compute; tauto |]).
  subst m. vm_compute. tauto.
Qed.


(* ================================================================== *)
(** * Properties of the Tournament Filter and of timestamp normalisation *)

Lemma filter_Subsequence {A : Type} (f : A -> bool) (l : list A) :
  Subsequence (filter f l) l.
Proof.
  induction l as [|x l IH]; simpl; [constructor|].
  destruct (f x); now constructor.
Qed.

Lemma prefix_iff (sub s : string) :
  String.prefix sub s = true <-> exists after, s = (sub ++ after)%string.
Proof.
  revert s. induction sub as [|c sub IH]; intros s.
  - destruct s; cbn [String.prefix]; (split; [intros _|reflexivity]);
      eexists; reflexivity.
  - destruct s as [|c' s]; cbn [String.prefix].
    + split; [discriminate|]. intros (after & E). discriminate.
    + destruct (Ascii.ascii_dec c c') as [<-|Hne].
      * rewrite IH. split.
        -- intros (after & ->). now exists after.
        -- intros (after & E). injection E as ->. now exists after.
      * split; [discriminate|]. intros (after & E).
        injection E as E _. congruence.
Qed.

Lemma includes_iff (s sub : string) :
  includes s sub = true <-> occursIn sub s.
Proof.
  unfold occursIn. induction s as [|c s IH]; cbn [includes].
  - rewrite orb_false_r, prefix_iff. split.
    + intros (after & E). now exists EmptyString, after.
    + intros ([|b before] & after & E); [now exists after|discriminate].
  - rewrite orb_true_iff, prefix_iff, IH. split.
    + intros [(after & E)|(before & after & E)].
      * now exists EmptyString, after.
      * exists (String c before), after. cbn [String.append]. now rewrite E.
    + intros ([|b before] & after & E).
      * left. now exists after.
      * right. cbn [String.append] in E. injection E as _ E.
        now exists before, after.
Qed.

Lemma two_digits (m : Z) :
  (1 <= m <= 12)%Z ->
  padStart 2 "0" (stringOfInt m)
  = (if (m <? 10)%Z then "0" ++ stringOfInt m else stringOfInt m)%string.
Proof.
  intros Hm.
  assert (Hcases : (m = 1 \/ m = 2 \/ m = 3 \/ m = 4 \/ m = 5 \/ m = 6
                    \/ m = 7 \/ m = 8 \/ m = 9 \/ m = 10 \/ m = 11
                    \/ m = 12)%Z) by lia.
  repeat (destruct Hcases as [Hm1 | Hcases]; [subst m; reflexivity |]).
  subst m. reflexivity.
Qed.

Section FilterFacts.
Context {num : Type} `{JsNumber num}.
Variable toLowerCase : string -> string.
Variables monthFilter nameFilter : string.

Lemma formatMonthKey_monthKey (ms : num) :
  formatMonthKey ms
  = match timeClip ms with
    | Some time => monthKey (getUTCFullYear time) (getUTCMonth time + 1)
    | None => "NaN-NaN"%string
    end.
Proof.
  unfold formatMonthKey, monthKey.
  destruct (timeClip ms) as [time|]; [|reflexivity].
  cbv zeta. now rewrite two_digits by apply getUTCMonth_range.
Qed.

Lemma keep_kept t :
  byMonth monthFilter t && byName toLowerCase nameFilter t = true
  <-> kept toLowerCase monthFilter nameFilter t.
Proof.
  unfold byMonth, byName, kept.
  rewrite andb_true_iff, !orb_true_iff, !String.eqb_eq, includes_iff.
  rewrite formatMonthKey_monthKey.
  destruct (timeClip (Tournament.startsAt t)); split;
    intros [[Hm|Hm] Hn]; (split; [|exact Hn]); auto.
Qed.

(** C5.  The filter returns an order-preserving subsequence of its input,
    and keeps a tournament exactly when (the month key is absent or is
    the [YYYY-MM] key of the UTC year and month of its [startsAt]) and
    (the name substring is absent or, lower-cased, occurs in the
    lower-cased [fullName]). *)
Theorem filterTournaments_correct (tournaments : list (Tournament.t num)) :
  Subsequence (filterTournaments toLowerCase monthFilter nameFilter tournaments)
              tournaments
  /\ (forall t,
         In t (filterTournaments toLowerCase monthFilter nameFilter tournaments)
         <-> In t tournaments /\ kept toLowerCase monthFilter nameFilter t)
  /\ (exists keep : Tournament.t num -> bool,
         (forall t, keep t = true <-> kept toLowerCase monthFilter nameFilter t)
         /\ filterTournaments toLowerCase monthFilter nameFilter tournaments
            = filter keep tournaments).
Proof.
  split; [apply filter_Subsequence|]. split.
  - intros t. unfold filterTournaments. now rewrite filter_In, keep_kept.
  - exists (fun t => byMonth monthFilter t && byName toLowerCase nameFilter t).
    split; [apply keep_kept|reflexivity].
Qed.

Lemma rawStartsAt_rawTimestamp (item : RawTournament.t num) (nowArg value : num) :
  rawTimestamp item nowArg value -> rawStartsAt item nowArg = value.
Proof.
  unfold rawTimestamp, rawStartsAt, falsyNum, orNum.
  intros [[-> ->]|[(Hs & -> & ->)|(Hs & Hc & ->)]].
  - reflexivity.
  - destruct (RawTournament.startsAt item) as [s|]; [now rewrite Hs|reflexivity].
  - destruct (RawTournament.startsAt item) as [s|]; [rewrite Hs|];
      (destruct (RawTournament.createdAt item) as [c|];
       [now rewrite Hc|reflexivity]).
Qed.

Lemma rawTimestamp_exists (item : RawTournament.t num) (nowArg : num) :
  exists value, rawTimestamp item nowArg value.
Proof.
  unfold rawTimestamp, falsyNum.
  destruct (RawTournament.startsAt item) as [s|] eqn:S.
  - destruct (truthyNum s) eqn:Ts; [exists s; now left|].
    destruct (RawTournament.createdAt item) as [c|] eqn:C.
    + destruct (truthyNum c) eqn:Tc.
      * exists c. right. left. now repeat split.
      * exists nowArg. right. right. now repeat split.
    + exists nowArg. right. right. now repeat split.
  - destruct (RawTournament.createdAt item) as [c|] eqn:C.
    + destruct (truthyNum c) eqn:Tc.
      * exists c. right. left. now repeat split.
      * exists nowArg. right. right. now repeat split.
    + exists nowArg. right. right. now repeat split.
Qed.

(** C6, as it holds.  A tournament is constructed with the normalised
    form of its raw timestamp, which is the item's [startsAt], or its
    [createdAt] when [startsAt] is missing or [0], or the reading of the
    clock when both are.  Normalisation sends a finite raw timestamp below
    [10^10] to the value times [1000], any other finite one to itself, and
    one that is not finite to the reading of the clock. *)
Theorem normalizeMs_correct (nowArg nowNorm : num)
        (item : RawTournament.t num) :
  let built := Tournament.startsAt (mkTournament nowArg nowNorm item) in
  (exists value, rawTimestamp item nowArg value)
  /\ (forall value,
         rawTimestamp item nowArg value ->
         (isFinite value = true ->
          (value <? ofCount 10000000000)%js = true ->
          built = (value * ofCount 1000)%js)
         /\ (isFinite value = true ->
             (value <? ofCount 10000000000)%js = false ->
             built = value)
         /\ (isFinite value = false -> built = nowNorm)).
Proof.
  cbv zeta. split; [apply rawTimestamp_exists|].
  intros value Hraw. unfold mkTournament. cbn [Tournament.startsAt].
  rewrite (rawStartsAt_rawTimestamp Hraw). unfold normalizeMs.
  split; [|split].
  - now intros -> ->.
  - now intros -> ->.
  - now intros ->.
Qed.
End FilterFacts.

Lemma filterTournaments_witness :
  filterTournaments asciiToLowerCase "2024-03" "MONTHLY"
                    [FilterExamples.february; FilterExamples.march;
                     FilterExamples.marchBlitz]
  = [FilterExamples.march]
  /\ kept asciiToLowerCase "2024-03" "MONTHLY" FilterExamples.march
  /\ (byName asciiToLowerCase "MONTHLY" FilterExamples.february = true
      /\ ~ kept asciiToLowerCase "2024-03" "MONTHLY" FilterExamples.february)
  /\ (byMonth "2024-03" FilterExamples.marchBlitz = true
      /\ ~ kept asciiToLowerCase "2024-03" "MONTHLY"
                FilterExamples.marchBlitz).
Proof.
  assert (E : filterTournaments asciiToLowerCase "2024-03" "MONTHLY"
                                [FilterExamples.february; FilterExamples.march;
                                 FilterExamples.marchBlitz]
              = [FilterExamples.march])
    by (vm_compute; reflexivity).
  destruct (filterTournaments_correct
              asciiToLowerCase "2024-03" "MONTHLY"
              [FilterExamples.february; FilterExamples.march;
               FilterExamples.marchBlitz]) as (_ & Hmem & _).
  split; [exact E|]. split; [|split].
  - apply (proj1 (Hmem FilterExamples.march)).
    rewrite E. now left.
  - split; [vm_compute; reflexivity|]. intros Hk.
    assert (Hin : In FilterExamples.february [FilterExamples.march]).
    { rewrite <- E. apply (proj2 (Hmem FilterExamples.february)).
      split; [now left|exact Hk]. }
    destruct Hin as [Hin|[]]. discriminate Hin.
  - split; [vm_compute; reflexivity|]. intros Hk.
    assert (Hin : In FilterExamples.marchBlitz [FilterExamples.march]).
    { rewrite <- E. apply (proj2 (Hmem FilterExamples.marchBlitz)).
      split; [right; right; now left|exact Hk]. }
    destruct Hin as [Hin|[]]. discriminate Hin.
Defined.

Lemma normalizeMs_witness :
  Tournament.startsAt (mkTournament TimestampExamples.now TimestampExamples.now
                                    TimestampExamples.inSeconds)
  = 1709251200000%Q.
Proof.
  destruct (normalizeMs_correct TimestampExamples.now TimestampExamples.now
                                TimestampExamples.inSeconds) as [_ Hall].
  destruct (Hall 1709251200%Q) as (Hms & _ & _).
  - left. split; reflexivity.
  - rewrite Hms; reflexivity.
Defined.

(** C6 as worded fails: a raw [startsAt] of [0] is finite and below
    [10^10], and a tournament is built from it with the [createdAt] of
    the item, not with [0 * 1000]; an item without [startsAt] is built
    with its [createdAt], not with the current time. *)
Lemma normalizeMs_counterexample :
  Tournament.startsAt (mkTournament TimestampExamples.now TimestampExamples.now
                                    TimestampExamples.epochStart)
  = 1700000000000%Q
  /\ ~ (1700000000000 == 0 * 1000)%Q
  /\ Tournament.startsAt (mkTournament TimestampExamples.now
                                       TimestampExamples.now
                                       TimestampExamples.noStart)
     = 1700000000000%Q
  /\ ~ (1700000000000 == TimestampExamples.now)%Q.
Proof.
  split; [reflexivity|]. split; [discriminate|].
  split; [reflexivity|]. discriminate.
Qed.

(* ================================================================== *)
(** * Properties of the Player Aggregator *)

Section AggregatorResults.
Context {num : Type} `{JsNumber num}.
Variable results : JsObject.t (list (ResultRow.t num)).
Variable tallies : JsObject.t (JsObject.t Tally.t).
Local Open Scope js_scope.

Lemma get_aggregateOf_Returned (ts : list (Tournament.t num)) aggregate name :
  aggregateOf results tallies ts = Returned aggregate ->
  JsObject.get aggregate name
  = if JsObject.inherits name then None
    else JsObject.get (OwnOnly.aggregateOf results tallies ts) name.
Proof.
  intros Hr. apply aggregateOf_Returned in Hr. destruct Hr as [-> _].
  apply get_withoutInherited.
Qed.

Lemma aggregateOf_Permutation (ts ts' : list (Tournament.t num)) aggregate :
  Permutation ts ts' ->
  aggregateOf results tallies ts = Returned aggregate ->
  aggregateOf results tallies ts'
  = Returned (withoutInherited (OwnOnly.aggregateOf results tallies ts')).
Proof.
  intros Hp Hr. apply aggregateOf_Returned in Hr. destruct Hr as [_ Hall].
  apply aggregateOf_completes. intros t Ht. apply Hall.
  now apply (Permutation_in _ (Permutation_sym Hp)).
Qed.

(** The rows of the output and the entries they finalise. *)
Lemma row_of_output (ts : list (Tournament.t num)) out row :
  aggregatedStats results tallies ts = Returned out ->
  In row out ->
  JsObject.inherits (StatRow.name row) = false
  /\ playerRows results (StatRow.name row) ts <> []
  /\ row = finalize
             (fold_left sumStats
                        (map (playerUpdate tallies (StatRow.name row))
                             (playerRows results (StatRow.name row) ts))
                        (newEntry (StatRow.name row))).
Proof.
  intros Hr Hin.
  apply (@In_aggregatedStats_Returned _ _ _ _ _ _ row Hr) in Hin.
  destruct Hin as (e & Hin & Hk & ->).
  apply In_aggregateOf in Hin. destruct Hin as [Hne He].
  unfold StatRow.name. cbn [finalize StatRow.entry].
  split; [exact Hk|]. split; [exact Hne|]. now rewrite <- He.
Qed.




(** C10.  The [tournaments] counter of an output row is the number of
    result rows, across the filtered tournaments, whose identity resolves
    to the row's player, and its [points] are the sum, from [0] and in
    loop order, of the points of those rows: a player listed twice in one
    tournament is counted twice and scored twice. *)
Theorem tournaments_counted (ts : list (Tournament.t num))
        (out : list (StatRow.t num)) (row : StatRow.t num) :
  aggregatedStats results tallies ts = Returned out ->
  In row out ->
  StatRow.tournaments row
  = N.of_nat (List.length (rowsOfPlayer results (StatRow.name row) ts))
  /\ StatRow.points row
     = fold_left nadd
                 (map rowPoints (rowsOfPlayer results (StatRow.name row) ts))
                 zero.
Proof.
  intros Hr Hin. destruct (@row_of_output _ _ _ Hr Hin) as (_ & _ & He).
  remember (StatRow.name row) as name eqn:Hn. clear Hn.
  rewrite He. unfold StatRow.tournaments, StatRow.points.
  cbn [StatRow.entry finalize].
  rewrite <- map_snd_playerRows. split.
  - rewrite tournaments_fold_sumStats.
    + now rewrite !length_map.
    + apply Forall_forall. intros u Hu. apply in_map_iff in Hu.
      now destruct Hu as (r & <- & _).
  - rewrite points_fold_sumStats, !map_map. reflexivity.
Qed.

(** C3, as it holds.  When folding the tournaments returns, folding a
    permutation of them returns too, and gives every player the same
    wins, draws, losses and tournament count; it gives the same whole
    record, [points], [perfSum] and [perfWeight] included, when the
    addition of Numbers is associative and commutative, that is when no
    sum is rounded. *)
Theorem aggregate_order_independence
        (ts ts' : list (Tournament.t num)) (name : string)
        (aggregate : JsObject.t (Entry.t num)) :
  Permutation ts ts' ->
  aggregateOf results tallies ts = Returned aggregate ->
  exists aggregate',
    aggregateOf results tallies ts' = Returned aggregate'
    /\ option_map counters (JsObject.get aggregate name)
       = option_map counters (JsObject.get aggregate' name)
    /\ ((forall a b c : num, (a + b) + c = a + (b + c)) ->
        (forall a b : num, a + b = b + a) ->
        JsObject.get aggregate name = JsObject.get aggregate' name).
Proof.
  intros Hp Hr.
  exists (withoutInherited (OwnOnly.aggregateOf results tallies ts')).
  split; [now apply (@aggregateOf_Permutation _ _ _ Hp Hr)|].
  rewrite (@get_aggregateOf_Returned _ _ name Hr), get_withoutInherited.
  destruct (JsObject.inherits name); [now split|].
  now apply own_order_independence.
Qed.
End AggregatorResults.

(* ================================================================== *)
(** * Exact arithmetic *)

Section ExactFacts.
Local Open Scope Q_scope.

Lemma Exact_lt_iff (a b : Q) : nlt a b = true <-> a < b.
Proof. apply Z.ltb_lt. Qed.

Lemma Exact_lt_false_iff (a b : Q) : nlt a b = false <-> b <= a.
Proof.
  change (nlt a b) with (Exact.lt a b). unfold Exact.lt, Qle.
  rewrite Z.ltb_ge. reflexivity.
Qed.

Lemma Exact_truthy_iff (a : Q) : truthyNum a = true <-> ~ a == 0.
Proof.
  change (truthyNum a) with (Exact.truthy a). unfold Exact.truthy, Qeq.
  rewrite negb_true_iff, Z.eqb_neq. simpl. rewrite Z.mul_1_r. reflexivity.
Qed.

Lemma Exact_truthy_false_iff (a : Q) : truthyNum a = false <-> a == 0.
Proof.
  change (truthyNum a) with (Exact.truthy a). unfold Exact.truthy, Qeq.
  rewrite negb_false_iff, Z.eqb_eq. simpl. rewrite Z.mul_1_r. reflexivity.
Qed.

Lemma Exact_ofCount_pos (n : N) : (0 < n)%N -> 0 < ofCount n.
Proof.
  intros Hn. change (ofCount n) with (inject_Z (Z.of_N n)).
  change 0 with (inject_Z 0). rewrite <- Zlt_Qlt. lia.
Qed.



(** Rational addition is associative and commutative up to Leibniz
    equality, not only up to [==]. *)
Lemma Qplus_assoc_eq (a b c : Q) : (a + b) + c = a + (b + c).
Proof.
  destruct a as [an ad], b as [bn bd], c as [cn cd].
  unfold Qplus. simpl. f_equal.
  - rewrite !Pos2Z.inj_mul. ring.
  - now rewrite Pos.mul_assoc.
Qed.

Lemma Qplus_comm_eq (a b : Q) : a + b = b + a.
Proof.
  destruct a as [an ad], b as [bn bd].
  unfold Qplus. simpl. f_equal.
  - ring.
  - apply Pos.mul_comm.
Qed.

(** ** The weight of a row *)


Lemma rowWeight_nonzero (stats : Tally.t) (points : Q) :
  ~ rowWeight stats points == 0.
Proof.
  unfold rowWeight, orNum.
  destruct (0 <? Tally.games stats)%N eqn:G.
  - apply N.ltb_lt, Exact_ofCount_pos in G. intros E. rewrite E in G.
    now apply Qlt_irrefl in G.
  - destruct (truthyNum points) eqn:T.
    + now apply Exact_truthy_iff.
    + discriminate.
Qed.
End ExactFacts.

(* ================================================================== *)
(** * Properties of the weight rule *)

Section ExactClaims.
Local Open Scope Q_scope.

(** C1, as it holds.  The weight of a row is the tally's [games] when that
    is positive; otherwise the row's points when they are not zero, be
    they positive or negative; otherwise [1].  It is never zero, it is
    what [sumStats] adds to [perfWeight], and [perfSum] grows by the
    performance times the weight.  The tally is the player's own record
    in the tournament's tally object, or the zero literal. *)
Theorem weight_rule (games : JsObject.t Tally.t) (name : string)
        (player : ResultRow.t Q) :
  let stats := ownTally games name in
  let points := rowPoints player in
  let update := rowUpdate stats player in
  ((0 < Tally.games stats)%N ->
   Update.perfWeight update = inject_Z (Z.of_N (Tally.games stats)))
  /\ (Tally.games stats = 0%N -> ~ points == 0 ->
      Update.perfWeight update = points)
  /\ (Tally.games stats = 0%N -> points == 0 -> Update.perfWeight update = 1)
  /\ ~ Update.perfWeight update == 0
  /\ Update.perfSum update = rowPerformance player * Update.perfWeight update
  /\ (forall target,
         Entry.perfWeight (sumStats target update)
         = Entry.perfWeight target + Update.perfWeight update)
  /\ (JsObject.hasSlot games = false -> JsObject.inherits name = false ->
      tallyOf games name = Returned (Counts stats)).
Proof.
  cbv zeta. unfold rowUpdate. cbn [Update.perfWeight Update.perfSum].
  split; [|split; [|split; [|split; [|split; [|split]]]]].
  - intros Hg. unfold rowWeight. apply N.ltb_lt in Hg. now rewrite Hg.
  - intros Hg Hp. unfold rowWeight, orNum. rewrite Hg.
    apply Exact_truthy_iff in Hp. now rewrite Hp.
  - intros Hg Hp. unfold rowWeight, orNum. rewrite Hg.
    apply Exact_truthy_false_iff in Hp. now rewrite Hp.
  - apply rowWeight_nonzero.
  - reflexivity.
  - reflexivity.
  - intros Hs Hi. unfold tallyOf, ownTally, JsObject.lookup.
    destruct (JsObject.get games name); [reflexivity|].
    now rewrite Hs, Hi.
Qed.
End ExactClaims.

Lemma weight_rule_witness :
  let player := Examples.row "bob" (-1) 1500 in
  let update := rowUpdate (ownTally JsObject.empty "bob") player in
  Tally.games (ownTally JsObject.empty "bob") = 0%N
  /\ ~ (rowPoints player == 0)%Q
  /\ Update.perfWeight update = rowPoints player.
Proof.
  cbv zeta. split; [reflexivity|]. split; [discriminate|].
  apply (proj1 (proj2 (weight_rule JsObject.empty "bob"
                                   (Examples.row "bob" (-1) 1500)))).
  - reflexivity.
  - discriminate.
Defined.

(** C1 as worded fails: with no games and a score of [-1] the code takes
    the weight [-1], where the wording gives [1]. *)
Lemma weight_rule_counterexample :
  let player := Examples.row "bob" (-1)%Q 1500%Q in
  let stats := ownTally JsObject.empty "bob" in
  tallyOf JsObject.empty "bob" = Returned (Counts stats)
  /\ Update.perfWeight (rowUpdate stats player) = (-1)%Q
  /\ claimedWeight stats (rowPoints player) = 1%Q
  /\ ~ (Update.perfWeight (rowUpdate stats player)
        == claimedWeight stats (rowPoints player))%Q.
Proof.
  cbv zeta. split; [reflexivity|]. split; [reflexivity|].
  split; [reflexivity|]. vm_compute. discriminate.
Qed.

Section FinalizerClaims.
Local Open Scope Q_scope.
Variable results : JsObject.t (list (ResultRow.t Q)).
Variable tallies : JsObject.t (JsObject.t Tally.t).





End FinalizerClaims.






(* ================================================================== *)
(** * Properties of the final sort *)

Section BeforeFacts.
Context {A : Type}.





End BeforeFacts.

(** ** A stable sort by a comparator that agrees with a strict weak order *)

Section StableSort.
Context {num : Type} `{JsNumber num} {A : Type}.
Variable cmp : A -> A -> num.
Variable after : A -> A -> bool.
Variable U : list A.
Hypothesis agrees : forall x y,
    In x U -> In y U -> nlt (ofCount 0) (cmp x y) = after x y.
Hypothesis irreflexive : forall x, In x U -> after x x = false.
Hypothesis transitive : forall x y z,
    In x U -> In y U -> In z U ->
    after x y = true -> after y z = true -> after x z = true.
Hypothesis cotransitive : forall x y z,
    In x U -> In y U -> In z U ->
    after x z = true -> after x y = true \/ after y z = true.



Lemma insertSorted_stays x l :
  In x U -> incl l U -> incl (insertSorted cmp x l) U.
Proof.
  intros Hx Hl z Hz.
  apply (Permutation_in _ (insertSorted_Permutation cmp x l)) in Hz.
  destruct Hz as [<-|Hz]; [assumption|now apply Hl].
Qed.





End StableSort.

(** ** The enumeration order of an object *)

Section EnumerationOrder.
Context {V : Type}.
Implicit Types (o l : list (string * V)).









End EnumerationOrder.

(** ** The comparator of the rows *)


Section ExactComparator.
Local Open Scope Q_scope.




End ExactComparator.

(** ** The sorted output *)

Lemma names_of_entries {num : Type} `{JsNumber num}
      (o : JsObject.t (Entry.t num)) :
  (forall k e, In (k, e) o -> Entry.name e = k) ->
  map (@StatRow.name num) (map finalize (map snd (JsObject.entries o)))
  = JsObject.keys (JsObject.entries o).
Proof.
  intros Hname. unfold JsObject.keys. rewrite !map_map.
  apply map_ext_in. intros [k e] Hin.
  apply (Permutation_in _ (entries_Permutation o)) in Hin.
  unfold StatRow.name. cbn [finalize StatRow.entry snd fst].
  now apply Hname.
Qed.



(* ================================================================== *)
(** * The properties at the example inputs *)



Lemma tournaments_counted_witness :
  exists out row,
    aggregatedStats ExactExamples.listedTwice JsObject.empty
                    [Examples.tournament "T1" 1709251200000%Q]
    = Returned out
    /\ In row out
    /\ StatRow.name row = "alice"%string
    /\ StatRow.tournaments row = 2%N
    /\ (StatRow.points row == 20)%Q.
Proof.
  destruct (aggregatedStats ExactExamples.listedTwice JsObject.empty
                            [Examples.tournament "T1" 1709251200000%Q])
    as [[|row rest]| |] eqn:E; try (vm_compute in E; discriminate).
  destruct (@tournaments_counted _ _ _ _ _ _ row E (or_introl eq_refl))
    as [Hn Hp].
  exists (row :: rest), row. split; [reflexivity|]. split; [now left|].
  vm_compute in E. injection E as <- <-.
  split; [reflexivity|]. split; [exact Hn|]. rewrite Hp. reflexivity.
Defined.

Lemma aggregate_order_independence_witness :
  exists aggregate aggregate',
    Permutation ExactExamples.tournaments (rev ExactExamples.tournaments)
    /\ aggregateOf ExactExamples.results ExactExamples.tallies
                   ExactExamples.tournaments = Returned aggregate
    /\ aggregateOf ExactExamples.results ExactExamples.tallies
                   (rev ExactExamples.tournaments) = Returned aggregate'
    /\ JsObject.get aggregate "alice" = JsObject.get aggregate' "alice".
Proof.
  destruct (aggregateOf ExactExamples.results ExactExamples.tallies
                        ExactExamples.tournaments)
    as [aggregate| |] eqn:E; [|vm_compute in E; discriminate ..].
  destruct (@aggregate_order_independence
              _ _ ExactExamples.results ExactExamples.tallies
              ExactExamples.tournaments (rev ExactExamples.tournaments)
              "alice" aggregate (Permutation_rev _) E)
    as (aggregate' & E' & _ & Hrecord).
  exists aggregate, aggregate'.
  split; [apply Permutation_rev|]. split; [reflexivity|].
  split; [exact E'|].
  apply Hrecord; [exact Qplus_assoc_eq|exact Qplus_comm_eq].
Defined.

(** C3 as worded fails on doubles: scores [0.1], [0.2], [0.3] add up to
    [0.6000000000000001] in one order of the tournaments and to [0.6] in
    the reverse order. *)
Lemma aggregate_order_counterexample :
  exists aggregate aggregate',
    Permutation Binary64Examples.tournaments
                (rev Binary64Examples.tournaments)
    /\ aggregateOf Binary64Examples.results JsObject.empty
                   Binary64Examples.tournaments = Returned aggregate
    /\ aggregateOf Binary64Examples.results JsObject.empty
                   (rev Binary64Examples.tournaments) = Returned aggregate'
    /\ option_map (@Entry.points float) (JsObject.get aggregate "alice")
       = Some 0x1.3333333333334p-1%float
    /\ option_map (@Entry.points float) (JsObject.get aggregate' "alice")
       = Some 0x1.3333333333333p-1%float.
Proof.
  destruct (aggregateOf Binary64Examples.results JsObject.empty
                        Binary64Examples.tournaments)
    as [aggregate| |] eqn:E; [|vm_compute in E; discriminate ..].
  destruct (aggregateOf Binary64Examples.results JsObject.empty
                        (rev Binary64Examples.tournaments))
    as [aggregate'| |] eqn:E'; [|vm_compute in E'; discriminate ..].
  exists aggregate, aggregate'.
  split; [apply Permutation_rev|]. split; [reflexivity|].
  split; [reflexivity|].
  vm_compute in E. injection E as <-.
  vm_compute in E'. injection E' as <-.
  split; reflexivity.
Qed.





(* ================================================================== *)
(** * Further properties of the Game Tally Builder *)

Lemma NoDup_keys_fetchTournamentGames games :
  NoDup (JsObject.keys (fetchTournamentGames games)).
Proof.
  rewrite fetchTournamentGames_withoutInherited, keys_withoutInherited.
  apply NoDup_filter. unfold OwnOnly.fetchTournamentGames.
  apply NoDup_keys_fold_tallyGame. constructor.
Qed.

Lemma In_fetchTournamentGames games k s :
  In (k, s) (fetchTournamentGames games)
  <-> JsObject.get (fetchTournamentGames games) k = Some s.
Proof.
  split; [|apply get_In].
  apply In_get, NoDup_keys_fetchTournamentGames.
Qed.

Lemma get_fetchTournamentGames_Some games k s :
  JsObject.get (fetchTournamentGames games) k = Some s ->
  JsObject.inherits k = false
  /\ s = fold_left addTally (map (gameContribution k) games) Tally.zero.
Proof.
  rewrite get_fetchTournamentGames.
  destruct (JsObject.inherits k); [discriminate|]. intros Hg.
  split; [reflexivity|]. rewrite <- ownTally_own_fetch.
  unfold ownTally. now rewrite Hg.
Qed.

Lemma plays_fetchTournamentGames games p :
  JsObject.get (fetchTournamentGames games) p <> None
  <-> JsObject.inherits p = false
      /\ exists game, In game games /\ playsIn p game = true.
Proof.
  rewrite get_fetchTournamentGames.
  destruct (JsObject.inherits p).
  - split; [congruence|]. now intros [? _].
  - unfold OwnOnly.fetchTournamentGames. split.
    + intros Hnn. split; [reflexivity|].
      destruct (existsb (playsIn p) games) eqn:Ex.
      * apply existsb_exists in Ex. exact Ex.
      * exfalso. apply Hnn, get_None_keys.
        rewrite In_keys_fold_tallyGame. intros [[]|(g & Hg & Hp)].
        assert (Ht : existsb (playsIn p) games = true)
          by (apply existsb_exists; now exists g).
        congruence.
    + intros [_ Hex] Hn. apply get_None_keys in Hn. apply Hn.
      apply In_keys_fold_tallyGame. now right.
Qed.

Lemma contributions_app p games1 games2 :
  fold_left addTally (map (gameContribution p) (games1 ++ games2)) Tally.zero
  = addTally
      (fold_left addTally (map (gameContribution p) games1) Tally.zero)
      (fold_left addTally (map (gameContribution p) games2) Tally.zero).
Proof. rewrite map_app, fold_left_app. apply fold_addTally_add. Qed.

Lemma ownTally_fetch_contributions games p :
  ownTally (fetchTournamentGames games) p
  = if JsObject.inherits p then Tally.zero
    else fold_left addTally (map (gameContribution p) games) Tally.zero.
Proof.
  destruct (JsObject.inherits p) eqn:I.
  - unfold ownTally. now rewrite get_fetchTournamentGames, I.
  - rewrite ownTally_fetchTournamentGames by assumption.
    apply ownTally_own_fetch.
Qed.

Lemma tally_games_is_sum_aux (games : list Game.t) :
  Forall (fun e => Tally.games (snd e)
                   = (Tally.w (snd e) + Tally.d (snd e) + Tally.l (snd e))%N)
         (fetchTournamentGames games).
Proof.
  apply Forall_forall. intros [k s] Hin. cbn [snd].
  apply In_fetchTournamentGames, get_fetchTournamentGames_Some in Hin.
  destruct Hin as [_ ->]. apply contributions_balanced.
Qed.

(** X1.  In every record of the tally built from any game list, the
    [games] counter is the sum of the wins, draws and losses; this also
    holds for a player who met themselves. *)
Theorem tally_games_is_sum (games : list Game.t) :
  Forall (fun e => Tally.games (snd e)
                   = (Tally.w (snd e) + Tally.d (snd e) + Tally.l (snd e))%N)
         (fetchTournamentGames games).
Proof.
  apply Forall_forall. intros [k s] Hin. cbn [snd].
  apply In_fetchTournamentGames, get_fetchTournamentGames_Some in Hin.
  destruct Hin as [Hk ->].
  apply fold_addTally_balanced; [|reflexivity].
  apply Forall_forall. intros c Hc. apply in_map_iff in Hc.
  destruct Hc as (g & <- & _). apply gameContribution_balanced.
Qed.

(** X2.  The record of a player in the tally of two game lists put one
    after the other is the field-wise sum of the player's records in the
    tallies of the two lists, and the tally of a reordered game list
    holds the same records under the same names, in a possibly different
    property order. *)
Theorem tally_additive (games1 games2 games' : list Game.t) :
  (forall p,
      ownTally (fetchTournamentGames (games1 ++ games2)) p
      = addTally (ownTally (fetchTournamentGames games1) p)
                 (ownTally (fetchTournamentGames games2) p))
  /\ (Permutation games1 games' ->
      Permutation (fetchTournamentGames games1) (fetchTournamentGames games')).
Proof.
  split.
  - intros p. rewrite !ownTally_fetch_contributions.
    destruct (JsObject.inherits p); [reflexivity|].
    apply contributions_app.
  - intros Hp.
    assert (Hrec : forall games games0 k s,
               Permutation games games0 ->
               In (k, s) (fetchTournamentGames games) ->
               In (k, s) (fetchTournamentGames games0)).
    { intros games games0 k s Hperm Hin.
      apply In_fetchTournamentGames in Hin.
      assert (Hne : JsObject.get (fetchTournamentGames games) k <> None)
        by congruence.
      apply plays_fetchTournamentGames in Hne.
      destruct Hne as (Hk & game & Hg & Hplay).
      assert (Hne0 : JsObject.get (fetchTournamentGames games0) k <> None).
      { apply plays_fetchTournamentGames. split; [assumption|].
        exists game. split; [|assumption].
        now apply (Permutation_in _ Hperm). }
      destruct (JsObject.get (fetchTournamentGames games0) k) as [s0|] eqn:G0;
        [|congruence].
      apply In_fetchTournamentGames. rewrite G0. f_equal.
      apply get_fetchTournamentGames_Some in Hin.
      apply get_fetchTournamentGames_Some in G0.
      destruct Hin as [_ ->]. destruct G0 as [_ ->].
      apply fold_left_Permutation_comm; [apply addTally_comm_step|].
      now apply Permutation_map, Permutation_sym. }
    apply NoDup_Permutation.
    + apply (NoDup_map_inv fst), NoDup_keys_fetchTournamentGames.
    + apply (NoDup_map_inv fst), NoDup_keys_fetchTournamentGames.
    + intros [k s]. split; apply Hrec; [assumption|now apply Permutation_sym].
Qed.

Lemma tally_additive_witness :
  Permutation Examples.games (rev Examples.games)
  /\ Permutation (fetchTournamentGames Examples.games)
                 (fetchTournamentGames (rev Examples.games)).
Proof.
  split; [apply Permutation_rev|].
  apply (proj2 (tally_additive Examples.games [] (rev Examples.games))).
  apply Permutation_rev.
Defined.

(** X3.  A player has a record in the tally exactly when the player's
    name is not one that objects inherit from [Object.prototype] and the
    player is a side of some game whose two sides resolve; every record
    counts at least one game: the tally never holds an all-zero record. *)
Theorem tally_players (games : list Game.t) (p : string) :
  (JsObject.get (fetchTournamentGames games) p <> None
   <-> JsObject.inherits p = false
       /\ exists game, In game games /\ playsIn p game = true)
  /\ (forall s, JsObject.get (fetchTournamentGames games) p = Some s ->
                (1 <= Tally.games s)%N).
Proof.
  split; [apply plays_fetchTournamentGames|].
  intros s Hs.
  assert (Hne : JsObject.get (fetchTournamentGames games) p <> None)
    by congruence.
  apply plays_fetchTournamentGames in Hne.
  destruct Hne as (_ & game & Hg & Hp).
  apply get_fetchTournamentGames_Some in Hs. destruct Hs as [_ ->].
  rewrite games_fold_addTally.
  cbn [Tally.games Tally.zero]. rewrite N.add_0_l.
  apply N.le_trans with (Tally.games (gameContribution p game)).
  - unfold gameContribution, playsIn in *.
    destruct (gameSides game) as [[white black]|]; [|discriminate].
    unfold gameDelta. cbn [Tally.games].
    destruct (String.eqb p white), (String.eqb p black);
      try discriminate; cbn; lia.
  - apply sumN_In_le, in_map, in_map, Hg.
Qed.

(** X4.  Over all records of a tally the [games] counters sum to the sum
    of all wins, draws and losses; when no side of a game bears a name
    that objects inherit from [Object.prototype], they sum to twice the
    number of games whose two sides resolve. *)
Theorem tally_total_games (games : list Game.t) :
  let stats := fetchTournamentGames games in
  total Tally.games stats
  = (total Tally.w stats + total Tally.d stats + total Tally.l stats)%N
  /\ (plainSides games ->
      total Tally.games stats
      = (2 * N.of_nat (List.length (filter resolvable games)))%N).
Proof.
  cbv zeta. split.
  - rewrite fetchTournamentGames_withoutInherited, !total_withoutInherited.
    rewrite <- fetchTournamentGames_withoutInherited.
    unfold listTotal. apply sumN_map_balanced.
    apply Forall_forall. intros s Hs. apply in_map_iff in Hs.
    destruct Hs as (e & <- & Hin).
    pose proof (tally_games_is_sum_aux games) as Hall.
    rewrite Forall_forall in Hall. now apply Hall.
  - intros Hplain.
    rewrite fetchTournamentGames_withoutInherited, total_withoutInherited.
    rewrite <- fetchTournamentGames_withoutInherited.
    rewrite (fetchTournamentGames_plain Hplain).
    unfold OwnOnly.fetchTournamentGames.
    rewrite fold_tallyGame_total_games. cbn. lia.
Qed.

Lemma tally_total_games_witness :
  total Tally.games (fetchTournamentGames Examples.games) = 6%N.
Proof.
  rewrite (proj2 (tally_total_games Examples.games) plainSides_examples).
  reflexivity.
Defined.

(* ================================================================== *)
(** * Further properties of the Player Aggregator *)

Lemma get_relabel {V W : Type} (g : V -> W) (o : JsObject.t V) k :
  JsObject.get (map (relabel g) o) k = option_map g (JsObject.get o k).
Proof.
  induction o as [|[k' v] o IH]; simpl; [reflexivity|].
  destruct (String.eqb k k'); [reflexivity|apply IH].
Qed.

Lemma fold_left_ext_in {A B : Type} (f g : A -> B -> A) (l : list B) :
  (forall a b, In b l -> f a b = g a b) ->
  forall a, fold_left f l a = fold_left g l a.
Proof.
  induction l as [|b l IH]; intros Hfg a; simpl; [reflexivity|].
  rewrite Hfg by now left. apply IH. intros a' b' Hb'. apply Hfg. now right.
Qed.

Section MoreAggregatorFacts.
Context {num : Type} `{JsNumber num}.
Variable results : JsObject.t (list (ResultRow.t num)).
Variable tallies : JsObject.t (JsObject.t Tally.t).
Local Open Scope js_scope.




Lemma perfWeight_fold_sumStats us : forall e : Entry.t num,
  Entry.perfWeight (fold_left sumStats us e)
  = fold_left nadd (map (@Update.perfWeight num) us) (Entry.perfWeight e).
Proof.
  induction us as [|u us IH]; intros e; simpl; [reflexivity|].
  now rewrite IH.
Qed.

Lemma perfSum_fold_sumStats us : forall e : Entry.t num,
  Entry.perfSum (fold_left sumStats us e)
  = fold_left nadd (map (@Update.perfSum num) us) (Entry.perfSum e).
Proof.
  induction us as [|u us IH]; intros e; simpl; [reflexivity|].
  now rewrite IH.
Qed.

(** The entry behind an output row, as the fold over the player's rows. *)
Lemma row_entry ts out (row : StatRow.t num) :
  aggregatedStats results tallies ts = Returned out ->
  In row out ->
  row = finalize (StatRow.entry row)
  /\ StatRow.entry row
     = fold_left sumStats
                 (map (playerUpdate tallies (StatRow.name row))
                      (playerRows results (StatRow.name row) ts))
                 (newEntry (StatRow.name row)).
Proof.
  intros Hr Hin. destruct (@row_of_output _ _ _ _ _ _ _ Hr Hin) as (_ & _ & He).
  remember (StatRow.name row) as name eqn:Hn. clear Hn.
  rewrite He. cbn [finalize StatRow.entry]. split; reflexivity.
Qed.


(** X6.  The total weight of an output row is the sum, from [0] and in
    loop order, of the weights of the player's rows, and [perfSum] is the
    sum of the rows' performances times their weights. *)
Theorem row_weights (ts : list (Tournament.t num))
        (out : list (StatRow.t num)) (row : StatRow.t num) :
  aggregatedStats results tallies ts = Returned out ->
  In row out ->
  let weight r :=
    rowWeight (ownTally (ownGames tallies (fst r)) (StatRow.name row))
              (rowPoints (snd r)) in
  let rows := playerRows results (StatRow.name row) ts in
  StatRow.perfWeight row = fold_left nadd (map weight rows) zero
  /\ Entry.perfSum (StatRow.entry row)
     = fold_left nadd
                 (map (fun r => rowPerformance (snd r) * weight r) rows) zero.
Proof.
  intros Hr Hin. destruct (@row_entry _ _ _ Hr Hin) as [_ He].
  cbv zeta. unfold StatRow.perfWeight. split.
  - rewrite He at 1. rewrite perfWeight_fold_sumStats, !map_map. reflexivity.
  - rewrite He at 1. rewrite perfSum_fold_sumStats, !map_map. reflexivity.
Qed.



(** X8.  When the aggregation returns, the output has exactly one row
    per player: the names of the rows are pairwise distinct and are, up to
    order, the resolvable identities of the rows of the filtered
    tournaments, each taken once, except those that objects inherit from
    [Object.prototype], which get no row. *)
Theorem one_row_per_player (ts : list (Tournament.t num))
        (out : list (StatRow.t num)) :
  aggregatedStats results tallies ts = Returned out ->
  let names := filter (fun name => negb (JsObject.inherits name))
                      (firstSeen (resolvedNames results ts)) in
  NoDup (map (@StatRow.name num) out)
  /\ Permutation (map (@StatRow.name num) out) names
  /\ List.length out = List.length names.
Proof.
  intros Hr. cbv zeta.
  apply aggregatedStats_Returned in Hr. destruct Hr as [-> _].
  assert (Hp : Permutation
                 (map (@StatRow.name num)
                      (arraySort compareRows
                         (map finalize
                              (map snd
                                   (JsObject.entries
                                      (withoutInherited
                                         (OwnOnly.aggregateOf results tallies
                                                              ts)))))))
                 (filter (fun name => negb (JsObject.inherits name))
                         (firstSeen (resolvedNames results ts)))).
  { rewrite (arraySort_Permutation compareRows _), names_of_entries.
    - unfold JsObject.keys. rewrite (entries_Permutation _).
      fold (JsObject.keys
              (withoutInherited (OwnOnly.aggregateOf results tallies ts))).
      now rewrite keys_withoutInherited, keys_aggregateOf.
    - intros k e Hin. apply In_withoutInherited in Hin.
      destruct Hin as [Hin _]. now apply (name_In_aggregateOf _ _ _ _ _ Hin). }
  split; [|split].
  - apply (Permutation_NoDup (Permutation_sym Hp)).
    apply NoDup_filter, fold_addKey_NoDup. constructor.
  - exact Hp.
  - rewrite <- (length_map (@StatRow.name num)).
    now apply Permutation_length.
Qed.

(** ** Rows and entries that do not count *)

Lemma forEach_ext_in {A S : Type} (f g : S -> A -> Computed S) (l : list A) :
  (forall s x, In x l -> f s x = g s x) ->
  forall s, forEach f l s = forEach g l s.
Proof.
  induction l as [|x l IH]; intros Hfg s; cbn [forEach]; [reflexivity|].
  rewrite Hfg by now left.
  destruct (g s x) as [s'| |]; cbn [andThen]; try reflexivity.
  apply IH. intros s'' y Hy. apply Hfg. now right.
Qed.

Lemma foldPlayer_unresolved games aggregate (player : ResultRow.t num) :
  hasIdentity player = false ->
  foldPlayer games aggregate player = Returned aggregate.
Proof.
  unfold hasIdentity, foldPlayer, resolved. now intros ->.
Qed.

Lemma forEach_foldPlayer_filter games rows : forall aggregate,
  forEach (foldPlayer games) (filter hasIdentity rows) aggregate
  = forEach (foldPlayer games) rows aggregate.
Proof.
  induction rows as [|player rows IH]; intros aggregate; [reflexivity|].
  cbn [filter forEach].
  destruct (hasIdentity player) eqn:E; cbn [forEach].
  - destruct (foldPlayer games aggregate player); cbn [andThen];
      [apply IH|reflexivity|reflexivity].
  - rewrite (foldPlayer_unresolved _ _ _ E). cbn [andThen]. apply IH.
Qed.

Lemma lookup_relabel {V W : Type} (g : V -> W) (o : JsObject.t V) k :
  JsObject.lookup (map (relabel g) o) k
  = match JsObject.lookup o k with
    | JsObject.Own v => JsObject.Own (g v)
    | JsObject.Inherited => JsObject.Inherited
    | JsObject.Absent => JsObject.Absent
    | JsObject.Foreign => JsObject.Foreign
    end.
Proof.
  unfold JsObject.lookup, JsObject.hasSlot. rewrite !get_relabel.
  destruct (JsObject.get o k); [reflexivity|].
  destruct (JsObject.get o JsObject.slot); cbn [option_map];
    [reflexivity|now destruct (JsObject.inherits k)].
Qed.

Lemma resultsOf_dropUnresolved (t : Tournament.t num) :
  resultsOf (dropUnresolved results) t
  = andThen (resultsOf results t)
            (fun rows => Returned (filter hasIdentity rows)).
Proof.
  unfold resultsOf, dropUnresolved.
  change (map (fun e => (fst e, filter hasIdentity (snd e))) results)
    with (map (relabel (filter (@hasIdentity num))) results).
  rewrite lookup_relabel.
  destruct (JsObject.lookup results (Tournament.id t)); reflexivity.
Qed.

(** X9.  Rows whose identity does not resolve have no effect: removing
    them from every result list leaves the output unchanged. *)
Theorem unresolved_rows_ignored (ts : list (Tournament.t num)) :
  aggregatedStats (dropUnresolved results) tallies ts
  = aggregatedStats results tallies ts.
Proof.
  unfold aggregatedStats, aggregateOf. f_equal.
  apply forEach_ext_in. intros aggregate t _.
  unfold foldTournament. rewrite resultsOf_dropUnresolved.
  destruct (resultsOf results t) as [rows| |]; cbn [andThen];
    [apply forEach_foldPlayer_filter|reflexivity|reflexivity].
Qed.

(** X10.  The output depends on the two mappings only through the entries
    of the filtered tournaments: mappings that agree on the ids of the
    filtered tournaments, and on having an installed prototype or not,
    give the same output. *)
Theorem other_entries_ignored
        (results' : JsObject.t (list (ResultRow.t num)))
        (tallies' : JsObject.t (JsObject.t Tally.t))
        (ts : list (Tournament.t num)) :
  (forall t, In t ts ->
             JsObject.get results' (Tournament.id t)
             = JsObject.get results (Tournament.id t)) ->
  (forall t, In t ts ->
             JsObject.get tallies' (Tournament.id t)
             = JsObject.get tallies (Tournament.id t)) ->
  JsObject.hasSlot results' = JsObject.hasSlot results ->
  JsObject.hasSlot tallies' = JsObject.hasSlot tallies ->
  aggregatedStats results' tallies' ts = aggregatedStats results tallies ts.
Proof.
  intros Hr Hg Hrs Hgs. unfold aggregatedStats, aggregateOf. f_equal.
  apply forEach_ext_in. intros aggregate t Ht.
  unfold foldTournament, resultsOf, gamesOf, JsObject.lookup.
  now rewrite (Hr t Ht), (Hg t Ht), Hrs, Hgs.
Qed.

(** X11.  [getUserName] resolves to the first non-empty of [username],
    [name], [user.name] and [user.id], in this order, and fails to resolve
    exactly when all four are missing or empty. *)
Theorem getUserName_priority (entry : ResultRow.t num) :
  let candidates := [ ResultRow.username entry; ResultRow.name entry;
                      ResultRow.userName entry; ResultRow.userId entry ] in
  resolved (getUserName entry) = firstTruthy candidates
  /\ (resolved (getUserName entry) = None
      <-> forallb (fun c => negb (truthyStr c)) candidates = true).
Proof.
  cbv zeta. unfold getUserName, orStr, resolved, firstTruthy.
  destruct (ResultRow.username entry) as [[|c1 s1]|],
    (ResultRow.name entry) as [[|c2 s2]|],
    (ResultRow.userName entry) as [[|c3 s3]|],
    (ResultRow.userId entry) as [[|c4 s4]|];
    cbn; (split; [reflexivity|split; intros; (reflexivity || discriminate)]).
Qed.

Lemma hasSlot_fetchTournamentGames games :
  JsObject.hasSlot (fetchTournamentGames games) = false.
Proof.
  rewrite fetchTournamentGames_withoutInherited.
  apply hasSlot_withoutInherited.
Qed.

Lemma games_of_player games name s :
  JsObject.get (fetchTournamentGames games) name = Some s ->
  (1 <= Tally.games s)%N.
Proof.
  intros G.
  assert (Hp : JsObject.get (fetchTournamentGames games) name <> None)
    by congruence.
  apply plays_fetchTournamentGames in Hp.
  destruct Hp as (_ & game & Hg & Hp).
  apply get_fetchTournamentGames_Some in G. destruct G as [_ ->].
  rewrite games_fold_addTally.
  cbn [Tally.games Tally.zero]. rewrite N.add_0_l.
  apply N.le_trans with (Tally.games (gameContribution name game)).
  - unfold gameContribution, playsIn in *.
    destruct (gameSides game) as [[white black]|]; [|discriminate].
    unfold gameDelta. cbn [Tally.games].
    destruct (String.eqb name white), (String.eqb name black);
      try discriminate; cbn; lia.
  - apply sumN_In_le, in_map, in_map, Hg.
Qed.

(** X12.  With a tally built by [fetchTournamentGames], the lookup of a
    player who has an entry yields the entry, and a row of the player
    weighs the player's number of games, which is at least [1].  The
    lookup of a player without an entry yields the zero tally, and the
    row weighs its points, or [1] when they are zero, unless the name is
    one that objects inherit from [Object.prototype]: such a name has no
    entry, and its lookup yields the inherited member. *)
Theorem weight_with_built_tally (games : list Game.t) (name : string)
        (player : ResultRow.t num) :
  let stats := fetchTournamentGames games in
  (forall s,
      JsObject.get stats name = Some s ->
      tallyOf stats name = Returned (Counts s)
      /\ Update.perfWeight (rowUpdate s player) = ofCount (Tally.games s)
      /\ (1 <= Tally.games s)%N)
  /\ (JsObject.get stats name = None ->
      JsObject.inherits name = false ->
      tallyOf stats name = Returned (Counts Tally.zero)
      /\ Update.perfWeight (rowUpdate Tally.zero player)
         = orNum (rowPoints player) one)
  /\ (JsObject.inherits name = true ->
      JsObject.get stats name = None
      /\ tallyOf stats name = Returned Member).
Proof.
  cbv zeta. split; [|split].
  - intros s G. pose proof (games_of_player _ _ G) as Hs.
    split; [|split; [|exact Hs]].
    + unfold tallyOf, JsObject.lookup. now rewrite G.
    + unfold rowUpdate, rowWeight. cbn [Update.perfWeight].
      assert (L : (0 <? Tally.games s)%N = true) by (apply N.ltb_lt; lia).
      now rewrite L.
  - intros G I. split; [|reflexivity].
    unfold tallyOf, JsObject.lookup.
    now rewrite G, hasSlot_fetchTournamentGames, I.
  - intros I.
    assert (G : JsObject.get (fetchTournamentGames games) name = None)
      by now rewrite get_fetchTournamentGames, I.
    split; [exact G|].
    unfold tallyOf, JsObject.lookup.
    now rewrite G, hasSlot_fetchTournamentGames, I.
Qed.
End MoreAggregatorFacts.
(* ================================================================== *)
(** * The further properties at the example inputs *)


Lemma row_weights_witness :
  exists out row,
    aggregatedStats ExactExamples.results ExactExamples.tallies
                    ExactExamples.tournaments = Returned out
    /\ In row out
    /\ StatRow.name row = "alice"%string
    /\ (StatRow.perfWeight row == 8)%Q.
Proof.
  destruct (aggregatedStats ExactExamples.results ExactExamples.tallies
                            ExactExamples.tournaments)
    as [[|row rest]| |] eqn:E; try (vm_compute in E; discriminate).
  destruct (@row_weights _ _ _ _ _ _ row E (or_introl eq_refl)) as (Hw & _).
  exists (row :: rest), row. split; [reflexivity|]. split; [now left|].
  vm_compute in E. injection E as <- _.
  split; [reflexivity|]. rewrite Hw. reflexivity.
Defined.


Lemma one_row_per_player_witness :
  exists out,
    aggregatedStats ExactExamples.results ExactExamples.tallies
                    ExactExamples.tournaments = Returned out
    /\ List.length out = 2%nat
    /\ NoDup (map (@StatRow.name Q) out)
    /\ Permutation (map (@StatRow.name Q) out) ["alice"; "bob"]%string.
Proof.
  destruct (aggregatedStats ExactExamples.results ExactExamples.tallies
                            ExactExamples.tournaments)
    as [out| |] eqn:E; try (vm_compute in E; discriminate).
  destruct (@one_row_per_player _ _ _ _ _ out E) as (Hnd & Hp & Hlen).
  exists out. split; [reflexivity|]. split; [exact Hlen|].
  split; [exact Hnd|exact Hp].
Defined.

Lemma other_entries_ignored_witness :
  aggregatedStats MoreExamples.resultsWithOther ExactExamples.tallies
                  ExactExamples.tournaments
  = aggregatedStats ExactExamples.results ExactExamples.tallies
                    ExactExamples.tournaments.
Proof.
  apply (other_entries_ignored ExactExamples.results ExactExamples.tallies
                               MoreExamples.resultsWithOther
                               ExactExamples.tallies
                               ExactExamples.tournaments).
  - intros t [<-|[<-|[]]]; reflexivity.
  - reflexivity.
  - reflexivity.
  - reflexivity.
Defined.

(* ================================================================== *)
(** * Further properties of the Tournament Filter *)

Lemma filter_all {A : Type} (f : A -> bool) (l : list A) :
  (forall x, In x l -> f x = true) -> filter f l = l.
Proof.
  induction l as [|x l IH]; intros Hf; [reflexivity|].
  cbn [filter]. rewrite Hf by now left. f_equal. apply IH.
  intros y Hy. apply Hf. now right.
Qed.

Lemma filter_filter_andb {A : Type} (f g : A -> bool) (l : list A) :
  filter g (filter f l) = filter (fun x => f x && g x) l.
Proof.
  induction l as [|x l IH]; [reflexivity|].
  cbn [filter]. destruct (f x); cbn [filter andb]; [|apply IH].
  destruct (g x); now rewrite IH.
Qed.

Lemma asciiToLower_idempotent c :
  asciiToLower (asciiToLower c) = asciiToLower c.
Proof. destruct c as [[] [] [] [] [] [] [] []]; reflexivity. Qed.

Lemma asciiToLowerCase_idempotent s :
  asciiToLowerCase (asciiToLowerCase s) = asciiToLowerCase s.
Proof.
  induction s as [|c s IH]; [reflexivity|].
  cbn [asciiToLowerCase]. now rewrite asciiToLower_idempotent, IH.
Qed.

Lemma asciiToLowerCase_empty s :
  asciiToLowerCase s = EmptyString <-> s = EmptyString.
Proof. destruct s; split; (reflexivity || discriminate). Qed.

Section MoreFilterFacts.
Context {num : Type} `{JsNumber num}.
Variable toLowerCase : string -> string.

Lemma byMonth_empty (t : Tournament.t num) : byMonth EmptyString t = true.
Proof. reflexivity. Qed.

Lemma byName_empty (t : Tournament.t num) :
  byName toLowerCase EmptyString t = true.
Proof. reflexivity. Qed.

Lemma formatMonthKey_nonempty (ms : num) : formatMonthKey ms <> EmptyString.
Proof.
  unfold formatMonthKey. destruct (timeClip ms) as [t|]; [|discriminate].
  destruct (stringOfInt (getUTCFullYear t)); discriminate.
Qed.

(** X13.  Without filters every tournament is kept.  Filtering by the
    month key of a tournament's own [startsAt] keeps the tournament, and
    filtering by any other non-empty month key drops it. *)
Theorem filter_by_own_month (ts : list (Tournament.t num))
        (t : Tournament.t num) :
  filterTournaments toLowerCase EmptyString EmptyString ts = ts
  /\ filterTournaments toLowerCase (formatMonthKey (Tournament.startsAt t))
                       EmptyString [t] = [t]
  /\ (forall month,
         month <> EmptyString ->
         month <> formatMonthKey (Tournament.startsAt t) ->
         filterTournaments toLowerCase month EmptyString [t] = []).
Proof.
  split; [now apply filter_all|]. split.
  - unfold filterTournaments. cbn [filter].
    unfold byMonth. rewrite String.eqb_refl, orb_true_r. reflexivity.
  - intros month Hne Hdiff. unfold filterTournaments. cbn [filter].
    unfold byMonth.
    apply String.eqb_neq in Hne.
    assert (Hd : String.eqb (formatMonthKey (Tournament.startsAt t)) month = false)
      by (apply String.eqb_neq; congruence).
    now rewrite Hne, Hd.
Qed.

(** X14.  The two filters act independently: filtering by month and name
    at once is filtering by month and then by name, or by name and then by
    month, and filtering a second time with the same filters changes
    nothing. *)
Theorem filters_compose (month name : string) (ts : list (Tournament.t num)) :
  filterTournaments toLowerCase month name ts
  = filterTournaments toLowerCase EmptyString name
                      (filterTournaments toLowerCase month EmptyString ts)
  /\ filterTournaments toLowerCase month name ts
     = filterTournaments toLowerCase month EmptyString
                         (filterTournaments toLowerCase EmptyString name ts)
  /\ filterTournaments toLowerCase month name
                       (filterTournaments toLowerCase month name ts)
     = filterTournaments toLowerCase month name ts.
Proof.
  unfold filterTournaments. rewrite !filter_filter_andb.
  repeat split; apply filter_ext; intros t;
    rewrite ?byMonth_empty, ?byName_empty, ?andb_true_r, ?andb_true_l.
  - reflexivity.
  - apply andb_comm.
  - now destruct (byMonth month t), (byName toLowerCase name t).
Qed.

(** X15.  The name filter is case-insensitive: when lower-casing is
    idempotent and maps only the empty string to the empty string, a name
    filter and its lower-cased form keep the same tournaments, and so do a
    tournament and the tournament with its name lower-cased. *)
Theorem name_filter_case_insensitive (month name : string)
        (ts : list (Tournament.t num)) (t : Tournament.t num) :
  (forall s, toLowerCase (toLowerCase s) = toLowerCase s) ->
  (forall s, toLowerCase s = EmptyString <-> s = EmptyString) ->
  filterTournaments toLowerCase month (toLowerCase name) ts
  = filterTournaments toLowerCase month name ts
  /\ byName toLowerCase name
            (Tournament.mk (Tournament.id t) (toLowerCase (Tournament.fullName t))
                           (Tournament.startsAt t) (Tournament.minutes t)
                           (Tournament.nbPlayers t))
     = byName toLowerCase name t.
Proof.
  intros Hidem Hempty. split.
  - unfold filterTournaments. apply filter_ext. intros t'. f_equal.
    unfold byName. rewrite Hidem. f_equal.
    destruct (String.eqb name EmptyString) eqn:E.
    + apply String.eqb_eq in E. apply String.eqb_eq, Hempty, E.
    + apply String.eqb_neq in E. apply String.eqb_neq.
      intros E'. apply E, Hempty, E'.
  - unfold byName. cbn [Tournament.fullName]. now rewrite Hidem.
Qed.
End MoreFilterFacts.

Lemma filter_by_own_month_witness :
  let t : Tournament.t Q := Examples.tournament "T1" 1709251200000%Q in
  ("2024-04"%string <> formatMonthKey (Tournament.startsAt t))
  /\ filterTournaments asciiToLowerCase "2024-04" EmptyString [t] = [].
Proof.
  cbv zeta. split; [vm_compute; discriminate|].
  apply (proj2 (proj2 (filter_by_own_month
                         asciiToLowerCase []
                         (Examples.tournament "T1" 1709251200000%Q)))).
  - discriminate.
  - vm_compute. discriminate.
Defined.

Lemma name_filter_case_insensitive_witness :
  filterTournaments asciiToLowerCase EmptyString
                    (asciiToLowerCase "MONTHLY") ExactExamples.tournaments
  = filterTournaments asciiToLowerCase EmptyString "MONTHLY"
                      ExactExamples.tournaments.
Proof.
  apply (name_filter_case_insensitive
           asciiToLowerCase EmptyString "MONTHLY" ExactExamples.tournaments
           (Examples.tournament "T1" 1709251200000%Q)
           asciiToLowerCase_idempotent asciiToLowerCase_empty).
Defined.

(** ** The shape of a month key *)

Section MonthKeyFacts.
Context {num : Type} `{JsNumber num}.

(** X16.  The month key of an invalid date is ["NaN-NaN"]; the month key
    of any valid date is the decimal year, a hyphen and one of the twelve
    two-digit month fields ["01"] to ["12"]. *)
Theorem formatMonthKey_shape (ms : num) :
  (timeClip ms = None -> formatMonthKey ms = "NaN-NaN"%string)
  /\ (forall t, timeClip ms = Some t ->
                exists month,
                  In month monthFields
                  /\ formatMonthKey ms
                     = (stringOfInt (getUTCFullYear t) ++ "-" ++ month)%string).
Proof.
  unfold formatMonthKey. split.
  - now intros ->.
  - intros t ->.
    exists (padStart 2 "0" (stringOfInt (getUTCMonth t + 1))).
    split; [apply month_field, getUTCMonth_range|reflexivity].
Qed.
End MonthKeyFacts.

Lemma formatMonthKey_shape_witness :
  timeClip (1709251200000%float) = Some 1709251200000%Z
  /\ exists month,
      In month monthFields
      /\ formatMonthKey 1709251200000%float = ("2024-" ++ month)%string.
Proof.
  assert (Hclip : timeClip (1709251200000%float) = Some 1709251200000%Z)
    by (vm_compute; reflexivity).
  split; [exact Hclip|].
  destruct (proj2 (@formatMonthKey_shape float Binary64.number
                                         1709251200000%float)
                  1709251200000%Z Hclip)
    as (month & Hin & Hkey).
  exists month. split; [exact Hin|].
  rewrite Hkey. vm_compute. reflexivity.
Defined.

(* ================================================================== *)
(** * Properties of the loading functions *)

Lemma orString_nonempty a b : b <> EmptyString -> orString a b <> EmptyString.
Proof. destruct a; [trivial|discriminate]. Qed.

Section LoadingFacts.
Context {num : Type} `{JsNumber num}.
Variable toLowerCase : string -> string.
Variable config : Config.t num.
Variable network : Network.t num.

Lemma allFetched_nil i : allFetched config network i [].
Proof. intros [|k] id Hk; discriminate. Qed.

Lemma allFetched_cons i id ids :
  allFetched config network i (id :: ids)
  <-> ((exists rows, Network.results network i id = Fetched rows)
       /\ (Config.includeGames config = true ->
           exists games, Network.games network i id = Fetched games))
      /\ allFetched config network (S i) ids.
Proof.
  split.
  - intros Hall. split.
    + specialize (Hall 0%nat id eq_refl). now rewrite Nat.add_0_r in Hall.
    + intros k id' Hk. specialize (Hall (S k) id' Hk).
      now rewrite Nat.add_succ_r in Hall.
  - intros [Hhead Htail] [|k] id' Hk.
    + injection Hk as <-. now rewrite Nat.add_0_r.
    + rewrite Nat.add_succ_r. now apply Htail.
Qed.

(** The loop ends without an error exactly when every request succeeds. *)
Lemma statsLoop_None ids : forall i acc,
  snd (statsLoop config network i ids acc) = None
  <-> allFetched config network i ids.
Proof.
  induction ids as [|id ids IH]; intros i acc; cbn [statsLoop].
  - split; [intros _; apply allFetched_nil|reflexivity].
  - rewrite allFetched_cons.
    destruct (Network.results network i id) as [message|rows].
    + cbn [snd]. split; [discriminate|].
      intros [[(rows & Hr) _] _]. discriminate.
    + destruct (Config.includeGames config) eqn:G.
      * destruct (Network.games network i id) as [message|games].
        -- cbn [snd]. split; [discriminate|].
           intros [[_ Hg] _]. destruct (Hg eq_refl) as (games & Hgames).
           discriminate.
        -- rewrite IH. split.
           ++ intros Hrest. split; [|assumption].
              split; [now exists rows|intros _; now exists games].
           ++ now intros [_ Hrest].
      * rewrite IH. split.
        -- intros Hrest. split; [|assumption].
           split; [now exists rows|discriminate].
        -- now intros [_ Hrest].
Qed.

(** The requests sent are an initial part of the planned ones, and the
    whole plan when no request fails. *)
Lemma statsLoop_requests ids : forall i acc,
  exists rest,
    Loop.requests acc ++ plannedRequests config ids
    = Loop.requests (fst (statsLoop config network i ids acc)) ++ rest
    /\ (snd (statsLoop config network i ids acc) = None -> rest = []).
Proof.
  induction ids as [|id ids IH]; intros i acc;
    cbn [statsLoop plannedRequests flat_map].
  - exists []. split; [reflexivity|reflexivity].
  - destruct (Network.results network i id) as [message|rows].
    + cbn [fst snd Loop.requests].
      eexists. split; [|discriminate].
      rewrite <- app_assoc. cbn [app]. reflexivity.
    + destruct (Config.includeGames config) eqn:G.
      * destruct (Network.games network i id) as [message|games].
        -- cbn [fst snd Loop.requests].
           eexists. split; [|discriminate].
           rewrite <- !app_assoc. cbn [app]. reflexivity.
        -- match goal with
           | |- context [statsLoop config network (S i) ids ?a] =>
               destruct (IH (S i) a) as (rest & Hrest & Hnone)
           end.
           exists rest. split; [|assumption].
           rewrite <- Hrest. cbn [Loop.requests]. unfold plannedRequests.
           rewrite G, <- !app_assoc. reflexivity.
      * match goal with
        | |- context [statsLoop config network (S i) ids ?a] =>
            destruct (IH (S i) a) as (rest & Hrest & Hnone)
        end.
        exists rest. split; [|assumption].
        rewrite <- Hrest. cbn [Loop.requests]. unfold plannedRequests.
        rewrite G, <- !app_assoc. reflexivity.
Qed.

Lemma statsLoop_completed_failure ids : forall i acc message,
  snd (statsLoop config network i ids acc) = Some message ->
  (Loop.completed acc <= N.of_nat i)%N ->
  (Loop.completed (fst (statsLoop config network i ids acc))
   < N.of_nat (i + List.length ids))%N.
Proof.
  induction ids as [|id ids IH]; intros i acc message; cbn [statsLoop].
  - discriminate.
  - cbn [List.length].
    destruct (Network.results network i id) as [m|rows].
    + cbn [fst Loop.completed]. lia.
    + destruct (Config.includeGames config).
      * destruct (Network.games network i id) as [m|games].
        -- cbn [fst Loop.completed]. lia.
        -- intros Hs _. rewrite Nat.add_succ_r.
           apply (IH (S i) _ message Hs). cbn [Loop.completed]. lia.
      * intros Hs _. rewrite Nat.add_succ_r.
        apply (IH (S i) _ message Hs). cbn [Loop.completed]. lia.
Qed.

Lemma statsLoop_completed_success ids : forall i acc,
  snd (statsLoop config network i ids acc) = None ->
  ids <> [] ->
  Loop.completed (fst (statsLoop config network i ids acc))
  = N.of_nat (i + List.length ids).
Proof.
  induction ids as [|id ids IH]; intros i acc; cbn [statsLoop];
    [congruence|].
  cbn [List.length]. rewrite Nat.add_succ_r.
  assert (Hstep : forall a,
             Loop.completed a = (N.of_nat i + 1)%N ->
             snd (statsLoop config network (S i) ids a) = None ->
             Loop.completed (fst (statsLoop config network (S i) ids a))
             = N.of_nat (S (i + List.length ids))).
  { intros a Ha Hs. destruct ids as [|id' ids'].
    - cbn [statsLoop fst List.length]. rewrite Ha. lia.
    - rewrite (IH (S i) a Hs) by discriminate. reflexivity. }
  destruct (Network.results network i id) as [m|rows]; [discriminate|].
  destruct (Config.includeGames config).
  - destruct (Network.games network i id) as [m|games]; [discriminate|].
    intros Hs _. now apply Hstep.
  - intros Hs _. now apply Hstep.
Qed.

(** After a pass without error every id of the pass has the body of one
    of its requests as its entry, and the other entries are untouched. *)
Lemma statsLoop_results ids : forall i acc,
  snd (statsLoop config network i ids acc) = None ->
  forall id,
    (In id ids ->
     exists k rows,
       nth_error ids k = Some id
       /\ Network.results network (i + k) id = Fetched rows
       /\ JsObject.get (Loop.nextResults (fst (statsLoop config network i ids acc)))
                       id = Some rows)
    /\ (~ In id ids ->
        JsObject.get (Loop.nextResults (fst (statsLoop config network i ids acc))) id
        = JsObject.get (Loop.nextResults acc) id).
Proof.
  induction ids as [|id0 ids IH]; intros i acc; cbn [statsLoop].
  - intros _ id. split; [intros []|reflexivity].
  - destruct (Network.results network i id0) as [m|rows] eqn:R; [discriminate|].
    assert (Hstep : forall a,
               Loop.nextResults a = JsObject.set (Loop.nextResults acc) id0 rows ->
               snd (statsLoop config network (S i) ids a) = None ->
               forall id,
                 (In id (id0 :: ids) ->
                  exists k rows',
                    nth_error (id0 :: ids) k = Some id
                    /\ Network.results network (i + k) id = Fetched rows'
                    /\ JsObject.get
                         (Loop.nextResults (fst (statsLoop config network (S i) ids a)))
                         id = Some rows')
                 /\ (~ In id (id0 :: ids) ->
                     JsObject.get
                       (Loop.nextResults (fst (statsLoop config network (S i) ids a)))
                       id
                     = JsObject.get (Loop.nextResults acc) id)).
    { intros a Ha Hs id. destruct (IH (S i) a Hs id) as [Hin Hout]. split.
      - intros Hid. destruct (in_dec string_dec id ids) as [Hi|Hn].
        + destruct (Hin Hi) as (k & rows' & Hk & Hr & Hg).
          exists (S k), rows'. rewrite Nat.add_succ_r. now repeat split.
        + destruct Hid as [<-|Hi]; [|contradiction].
          exists 0%nat, rows. rewrite Nat.add_0_r.
          split; [reflexivity|]. split; [exact R|].
          rewrite (Hout Hn), Ha, get_set, String.eqb_refl. reflexivity.
      - intros Hn. rewrite Hout by (intros Hi; apply Hn; now right).
        rewrite Ha, get_set.
        destruct (String.eqb id id0) eqn:E; [|reflexivity].
        apply String.eqb_eq in E. exfalso. apply Hn. now left. }
    destruct (Config.includeGames config).
    + destruct (Network.games network i id0) as [m|games]; [discriminate|].
      intros Hs. now apply Hstep.
    + intros Hs. now apply Hstep.
Qed.

Lemma statsLoop_no_games ids : forall i acc,
  Config.includeGames config = false ->
  Loop.nextGames (fst (statsLoop config network i ids acc)) = Loop.nextGames acc.
Proof.
  induction ids as [|id0 ids IH]; intros i acc G; cbn [statsLoop];
    [reflexivity|].
  destruct (Network.results network i id0) as [m|rows]; [reflexivity|].
  rewrite G. now rewrite IH.
Qed.

Lemma statsLoop_games ids : forall i acc,
  snd (statsLoop config network i ids acc) = None ->
  Config.includeGames config = true ->
  forall id,
    (In id ids ->
     exists k games,
       nth_error ids k = Some id
       /\ Network.games network (i + k) id = Fetched games
       /\ JsObject.get (Loop.nextGames (fst (statsLoop config network i ids acc)))
                       id = Some (fetchTournamentGames games))
    /\ (~ In id ids ->
        JsObject.get (Loop.nextGames (fst (statsLoop config network i ids acc))) id
        = JsObject.get (Loop.nextGames acc) id).
Proof.
  induction ids as [|id0 ids IH]; intros i acc; cbn [statsLoop].
  - intros _ _ id. split; [intros []|reflexivity].
  - destruct (Network.results network i id0) as [m|rows]; [discriminate|].
    intros Hs G. rewrite G in Hs |- *.
    destruct (Network.games network i id0) as [m|games] eqn:Gm;
      [discriminate|].
    intros id. destruct (IH (S i) _ Hs G id) as [Hin Hout]. split.
    + intros Hid. destruct (in_dec string_dec id ids) as [Hi|Hn].
      * destruct (Hin Hi) as (k & games' & Hk & Hg & Hget).
        exists (S k), games'. rewrite Nat.add_succ_r. now repeat split.
      * destruct Hid as [<-|Hi]; [|contradiction].
        exists 0%nat, games. rewrite Nat.add_0_r.
        split; [reflexivity|]. split; [exact Gm|].
        rewrite (Hout Hn). cbn [Loop.nextGames].
        now rewrite get_set, String.eqb_refl.
    + intros Hn. rewrite Hout by (intros Hi; apply Hn; now right).
      cbn [Loop.nextGames]. rewrite get_set.
      destruct (String.eqb id id0) eqn:E; [|reflexivity].
      apply String.eqb_eq in E. exfalso. apply Hn. now left.
Qed.
End LoadingFacts.

Section LoadStatsClaims.
Context {num : Type} `{JsNumber num}.
Variable toLowerCase : string -> string.
Variable config : Config.t num.
Variable network : Network.t num.

Lemma loadStats_unfold st (base : list (Tournament.t num)) :
  base <> [] ->
  loadStats toLowerCase config network st (Some base)
  = match passOver config network base with
    | (acc, None) =>
        (AppState.mk (AppState.tournaments st)
                     (Loop.nextResults acc) (Loop.nextGames acc)
                     (AppState.loadingTournaments st) false
                     (Loop.completed acc, N.of_nat (List.length base))
                     EmptyString (AppState.autoLoad st),
         Loop.requests acc)
    | (acc, Some message) =>
        (AppState.mk (AppState.tournaments st)
                     (AppState.resultsByTournament st)
                     (AppState.gamesByTournament st)
                     (AppState.loadingTournaments st) false
                     (Loop.completed acc, N.of_nat (List.length base))
                     (orString message "Failed to load stats.")
                     (AppState.autoLoad st),
         Loop.requests acc)
    end.
Proof.
  intros Hne. unfold loadStats, passOver.
  destruct base as [|t base]; [congruence|].
  now rewrite length_map.
Qed.

(** X17.  [loadStats] is all or nothing.  Called with an empty list it
    changes nothing.  Otherwise it ends with [loadingStats] off and the
    total of the progress at the number of tournaments, and either every
    request succeeded, the error is empty and the progress is complete, or
    some request failed, the error is not empty, the two mappings of the
    state are the ones from before the call, and the progress is short of
    the total. *)
Theorem loadStats_all_or_nothing (st : AppState.t num)
        (base : list (Tournament.t num)) :
  let ids := map (@Tournament.id num) base in
  let st' := fst (loadStats toLowerCase config network st (Some base)) in
  (base = [] -> st' = st)
  /\ (base <> [] ->
      AppState.loadingStats st' = false
      /\ AppState.tournaments st' = AppState.tournaments st
      /\ snd (AppState.progress st') = N.of_nat (List.length base)
      /\ ((allFetched config network 0 ids
           /\ AppState.error st' = EmptyString
           /\ fst (AppState.progress st') = N.of_nat (List.length base))
          \/ (~ allFetched config network 0 ids
              /\ AppState.error st' <> EmptyString
              /\ AppState.resultsByTournament st'
                 = AppState.resultsByTournament st
              /\ AppState.gamesByTournament st' = AppState.gamesByTournament st
              /\ (fst (AppState.progress st')
                  < N.of_nat (List.length base))%N))).
Proof.
  cbv zeta. split; [now intros ->|].
  intros Hne. rewrite (loadStats_unfold st Hne).
  pose proof (@statsLoop_None
                num config network (map (@Tournament.id num) base) 0%nat
                (Loop.mk JsObject.empty JsObject.empty 0 []))
    as Hiff.
  pose proof (@statsLoop_completed_success
                num config network (map (@Tournament.id num) base) 0%nat
                (Loop.mk JsObject.empty JsObject.empty 0 []))
    as Hdone.
  pose proof (@statsLoop_completed_failure
                num config network (map (@Tournament.id num) base) 0%nat
                (Loop.mk JsObject.empty JsObject.empty 0 []))
    as Hshort.
  unfold passOver.
  destruct (statsLoop config network 0 (map (@Tournament.id num) base)
                      (Loop.mk JsObject.empty JsObject.empty 0 []))
    as [acc [message|]]; cbn [fst snd] in *;
    cbn [AppState.loadingStats AppState.tournaments AppState.progress
         AppState.error AppState.resultsByTournament
         AppState.gamesByTournament fst snd].
  - do 3 (split; [reflexivity|]). right.
    split; [intros Hall; apply Hiff in Hall; discriminate|].
    split; [apply orString_nonempty; discriminate|].
    do 2 (split; [reflexivity|]).
    specialize (Hshort message eq_refl). rewrite length_map in Hshort.
    apply Hshort. cbn. lia.
  - do 3 (split; [reflexivity|]). left.
    split; [now apply Hiff|]. split; [reflexivity|].
    rewrite Hdone, length_map; [reflexivity|reflexivity|].
    destruct base; [congruence|discriminate].
Qed.

(** X18.  After a [loadStats] in which every request succeeded, every
    tournament of the list has an entry in [resultsByTournament], the body
    of a results request for its id, and no other id has one; with game
    data included every tournament has the tally built from the body of a
    games request for its id, and without it [gamesByTournament] is
    empty. *)
Theorem loadStats_entries (st : AppState.t num)
        (base : list (Tournament.t num)) :
  let ids := map (@Tournament.id num) base in
  let st' := fst (loadStats toLowerCase config network st (Some base)) in
  base <> [] ->
  allFetched config network 0 ids ->
  (forall t, In t base ->
             exists k rows,
               nth_error ids k = Some (Tournament.id t)
               /\ Network.results network k (Tournament.id t) = Fetched rows
               /\ resultsOf (AppState.resultsByTournament st') t = Returned rows)
  /\ (forall id, ~ In id ids ->
                 JsObject.get (AppState.resultsByTournament st') id = None)
  /\ (Config.includeGames config = true ->
      forall t, In t base ->
                exists k games,
                  nth_error ids k = Some (Tournament.id t)
                  /\ Network.games network k (Tournament.id t) = Fetched games
                  /\ gamesOf (AppState.gamesByTournament st') t
                     = Returned (fetchTournamentGames games))
  /\ (Config.includeGames config = false ->
      AppState.gamesByTournament st' = JsObject.empty).
Proof.
  cbv zeta. intros Hne Hall. rewrite (loadStats_unfold st Hne).
  apply (@statsLoop_None num config network _ 0%nat
                         (Loop.mk JsObject.empty JsObject.empty 0 [])) in Hall.
  pose proof (@statsLoop_results num config network _ 0%nat _ Hall) as Hres.
  pose proof (@statsLoop_games num config network _ 0%nat _ Hall) as Hgames.
  pose proof (@statsLoop_no_games
                num config network (map (@Tournament.id num) base) 0%nat
                (Loop.mk JsObject.empty JsObject.empty 0 []))
    as Hnone.
  unfold passOver.
  destruct (statsLoop config network 0 (map (@Tournament.id num) base)
                      (Loop.mk JsObject.empty JsObject.empty 0 []))
    as [acc [message|]]; cbn [fst snd] in *; [discriminate|].
  cbn [AppState.resultsByTournament AppState.gamesByTournament].
  split; [|split; [|split]].
  - intros t Ht.
    destruct (proj1 (Hres (Tournament.id t)) (in_map _ _ _ Ht))
      as (k & rows & Hk & Hr & Hget).
    exists k, rows. repeat split; try assumption.
    unfold resultsOf, JsObject.lookup. now rewrite Hget.
  - intros id Hn. now rewrite (proj2 (Hres id) Hn).
  - intros G t Ht.
    destruct (proj1 (Hgames G (Tournament.id t)) (in_map _ _ _ Ht))
      as (k & games & Hk & Hg & Hget).
    exists k, games. repeat split; try assumption.
    unfold gamesOf, JsObject.lookup. now rewrite Hget.
  - intros G. now rewrite (Hnone G).
Qed.

Lemma In_app_last {A : Type} (x y : A) (l rest : list A) :
  In x l -> In x (l ++ rest).
Proof. intros Hin. apply in_or_app. now left. Qed.

(** X19.  [loadStats] sends its requests one tournament at a time, in the
    order of the list: the requests sent are an initial part of the
    sequence "results of the first id, games of the first id, results of
    the second id, ..." (results only when game data is excluded), they are
    the whole sequence when the pass ends without error, and no games
    request is ever sent when game data is excluded. *)
Theorem loadStats_requests (st : AppState.t num)
        (base : list (Tournament.t num)) :
  let ids := map (@Tournament.id num) base in
  let st' := fst (loadStats toLowerCase config network st (Some base)) in
  let sent := snd (loadStats toLowerCase config network st (Some base)) in
  (exists rest, plannedRequests config ids = sent ++ rest)
  /\ (base <> [] -> AppState.error st' = EmptyString ->
      sent = plannedRequests config ids)
  /\ (Config.includeGames config = false ->
      forall id, ~ In (GetGames id) sent).
Proof.
  cbv zeta.
  assert (Hprefix : exists rest,
             plannedRequests config (map (@Tournament.id num) base)
             = snd (loadStats toLowerCase config network st (Some base)) ++ rest
             /\ (base <> [] ->
                 AppState.error
                   (fst (loadStats toLowerCase config network st (Some base)))
                 = EmptyString -> rest = [])).
  { destruct base as [|t base'] eqn:Eb.
    - exists []. split; [reflexivity|congruence].
    - rewrite <- Eb. assert (Hne : base <> []) by (rewrite Eb; discriminate).
      rewrite (loadStats_unfold st Hne).
      destruct (@statsLoop_requests
                  num config network (map (@Tournament.id num) base) 0%nat
                  (Loop.mk JsObject.empty JsObject.empty 0 []))
        as (rest & Hrest & Hnil).
      unfold passOver.
      destruct (statsLoop config network 0 (map (@Tournament.id num) base)
                          (Loop.mk JsObject.empty JsObject.empty 0 []))
        as [acc [message|]]; cbn [fst snd Loop.requests app] in *;
        exists rest; (split; [exact Hrest|]).
      + intros _ He. cbn [AppState.error] in He.
        exfalso. revert He. apply orString_nonempty. discriminate.
      + intros _ _. now apply Hnil. }
  destruct Hprefix as (rest & Hrest & Hnil).
  split; [now exists rest|]. split.
  - intros Hne He. rewrite Hrest, (Hnil Hne He). now rewrite app_nil_r.
  - intros G id Hin.
    assert (Hp : In (GetGames id)
                    (plannedRequests config (map (@Tournament.id num) base)))
      by (rewrite Hrest; apply in_or_app; now left).
    unfold plannedRequests in Hp. rewrite G in Hp.
    apply in_flat_map in Hp. destruct Hp as (id' & _ & [Hp|[]]).
    discriminate.
Qed.
End LoadStatsClaims.

(** ** [loadTournaments] and [run] *)

Section LoadTournamentsFacts.
Context {num : Type} `{JsNumber num}.
Variable toLowerCase : string -> string.
Variable config : Config.t num.
Variable network : Network.t num.

Lemma length_mkTournaments items : forall i,
  List.length (mkTournaments network i items) = List.length items.
Proof.
  induction items as [|item items IH]; intros i; [reflexivity|].
  cbn [mkTournaments List.length]. now rewrite IH.
Qed.

(** X20.  A tournament built from a feed item keeps the item's id; its
    [fullName] is the item's [fullName] if not empty, else the item's
    [name] if not empty, else ["Untitled Tournament"], and is never empty;
    its [startsAt] is [normalizeMs] of the item's [startsAt], or of its
    [createdAt] when [startsAt] is missing or [0], or of the clock when
    both are. *)
Theorem mkTournament_defaults (nowArg nowNorm : num)
        (item : RawTournament.t num) :
  let t := mkTournament nowArg nowNorm item in
  Tournament.id t = RawTournament.id item
  /\ Tournament.fullName t <> EmptyString
  /\ Some (Tournament.fullName t)
     = firstTruthy [ RawTournament.fullName item; RawTournament.name item;
                     Some "Untitled Tournament"%string ]
  /\ (forall s, RawTournament.startsAt item = Some s -> truthyNum s = true ->
                Tournament.startsAt t = normalizeMs nowNorm s)
  /\ (falsyNum (RawTournament.startsAt item) ->
      forall c, RawTournament.createdAt item = Some c -> truthyNum c = true ->
                Tournament.startsAt t = normalizeMs nowNorm c)
  /\ (falsyNum (RawTournament.startsAt item) ->
      falsyNum (RawTournament.createdAt item) ->
      Tournament.startsAt t = normalizeMs nowNorm nowArg).
Proof.
  cbv zeta. unfold mkTournament.
  cbn [Tournament.id Tournament.fullName Tournament.startsAt].
  split; [reflexivity|].
  split; [|split].
  - unfold orStr.
    destruct (RawTournament.fullName item) as [[|c1 s1]|],
      (RawTournament.name item) as [[|c2 s2]|]; cbn; discriminate.
  - unfold orStr, firstTruthy.
    destruct (RawTournament.fullName item) as [[|c1 s1]|],
      (RawTournament.name item) as [[|c2 s2]|]; reflexivity.
  - unfold rawStartsAt, falsyNum, orNum. split; [|split].
    + intros s -> ->. reflexivity.
    + intros Hs c -> Hc.
      destruct (RawTournament.startsAt item) as [s|]; [rewrite Hs|];
        now rewrite Hc.
    + intros Hs Hc.
      destruct (RawTournament.startsAt item) as [s|]; [rewrite Hs|];
        (destruct (RawTournament.createdAt item) as [c|];
         [now rewrite Hc|reflexivity]).
Qed.

(** X21.  [loadTournaments] without a team id only sets the error and
    reports failure.  With a team id it empties both mappings and turns
    [loadingTournaments] off whatever the request does: when the feed
    arrives, the error is cleared and the state and the returned list hold
    the built tournaments, one per item and reordered only; when the
    request fails, the tournaments stay and the error is not empty. *)
Theorem loadTournaments_outcomes (st : AppState.t num) :
  let st' := fst (loadTournaments config network st) in
  let ok := fst (snd (loadTournaments config network st)) in
  let loaded := snd (snd (loadTournaments config network st)) in
  (Config.teamId config = EmptyString ->
   ok = false /\ loaded = []
   /\ AppState.error st' = "Team ID is required."%string
   /\ AppState.tournaments st' = AppState.tournaments st
   /\ AppState.resultsByTournament st' = AppState.resultsByTournament st
   /\ AppState.gamesByTournament st' = AppState.gamesByTournament st
   /\ AppState.loadingTournaments st' = AppState.loadingTournaments st)
  /\ (Config.teamId config <> EmptyString ->
      AppState.resultsByTournament st' = JsObject.empty
      /\ AppState.gamesByTournament st' = JsObject.empty
      /\ AppState.loadingTournaments st' = false
      /\ (forall items,
             Network.arena network = Fetched items ->
             ok = true /\ AppState.error st' = EmptyString
             /\ AppState.tournaments st' = loaded
             /\ Permutation loaded (mkTournaments network 0 items)
             /\ List.length loaded = List.length items)
      /\ (forall message,
             Network.arena network = Thrown message ->
             ok = false /\ loaded = []
             /\ AppState.tournaments st' = AppState.tournaments st
             /\ AppState.error st' <> EmptyString)).
Proof.
  cbv zeta. unfold loadTournaments.
  destruct (Config.teamId config) as [|c team].
  - split; [intros _; now repeat split|congruence].
  - split; [discriminate|]. intros _.
    destruct (Network.arena network) as [message|items];
      cbn [fst snd AppState.resultsByTournament AppState.gamesByTournament
           AppState.loadingTournaments AppState.error AppState.tournaments].
    + do 3 (split; [reflexivity|]). split; [discriminate|].
      intros m [= <-]. do 3 (split; [reflexivity|]).
      apply orString_nonempty. discriminate.
    + do 3 (split; [reflexivity|]). split; [|discriminate].
      intros items' [= <-]. do 3 (split; [reflexivity|]). split.
      * apply arraySort_Permutation.
      * rewrite (Permutation_length (arraySort_Permutation _ _)).
        apply length_mkTournaments.
Qed.

Lemma aggregateOf_no_results tallies (ts : list (Tournament.t num)) :
  forall aggregate,
    forEach (foldTournament JsObject.empty tallies) ts aggregate
    = if existsb (fun t => JsObject.inherits (Tournament.id t)) ts
      then ThrowsTypeError
      else Returned aggregate.
Proof.
  induction ts as [|t ts IH]; intros aggregate; [reflexivity|].
  cbn [forEach existsb]. unfold foldTournament at 1.
  unfold resultsOf, JsObject.lookup. cbn [JsObject.get JsObject.empty].
  change (JsObject.hasSlot (@JsObject.empty (list (ResultRow.t num))))
    with false.
  cbv iota.
  destruct (JsObject.inherits (Tournament.id t)); cbn [andThen orb forEach];
    [reflexivity|apply IH].
Qed.

Lemma aggregatedStats_no_results tallies (ts : list (Tournament.t num)) :
  aggregatedStats JsObject.empty tallies ts
  = if existsb (fun t => JsObject.inherits (Tournament.id t)) ts
    then ThrowsTypeError
    else Returned [].
Proof.
  unfold aggregatedStats, aggregateOf. rewrite aggregateOf_no_results.
  now destruct (existsb _ ts).
Qed.

(** The state and the requests of [run], by the cases of its body. *)
Lemma run_cases (st : AppState.t num) :
  let st' := fst (run toLowerCase config network st) in
  let sent := snd (run toLowerCase config network st) in
  AppState.autoLoad st' = false
  /\ ((Config.teamId config = EmptyString
       /\ AppState.error st' = "Team ID is required."%string
       /\ AppState.tournaments st' = AppState.tournaments st
       /\ AppState.resultsByTournament st' = AppState.resultsByTournament st
       /\ AppState.gamesByTournament st' = AppState.gamesByTournament st
       /\ sent = [])
      \/ (Config.teamId config <> EmptyString
          /\ AppState.error st' <> EmptyString
          /\ AppState.resultsByTournament st' = JsObject.empty
          /\ AppState.gamesByTournament st' = JsObject.empty)
      \/ (Config.teamId config <> EmptyString
          /\ AppState.error st' = EmptyString
          /\ exists items,
              Network.arena network = Fetched items
              /\ AppState.tournaments st'
                 = arraySort compareTournaments (mkTournaments network 0 items)
              /\ filteredTournaments toLowerCase config st' <> []
              /\ fst (loadStats toLowerCase config network
                                (fst (loadTournaments config network st))
                                (Some (filteredTournaments toLowerCase config st')))
                 = AppState.mk (AppState.tournaments st')
                               (AppState.resultsByTournament st')
                               (AppState.gamesByTournament st')
                               (AppState.loadingTournaments st')
                               (AppState.loadingStats st')
                               (AppState.progress st')
                               (AppState.error st')
                               (AppState.autoLoad st)
              /\ snd (loadStats toLowerCase config network
                                (fst (loadTournaments config network st))
                                (Some (filteredTournaments toLowerCase config st')))
                 = sent)).
Proof.
  cbv zeta. unfold run, loadTournaments.
  destruct (Config.teamId config) as [|c team] eqn:Team.
  - cbn. split; [reflexivity|]. left. now repeat split.
  - destruct (Network.arena network) as [message|items] eqn:Arena.
    + cbn. split; [reflexivity|]. right. left.
      split; [discriminate|]. split; [|now split].
      apply orString_nonempty. discriminate.
    + set (sorted := arraySort compareTournaments (mkTournaments network 0 items)).
      set (st1 := AppState.mk sorted JsObject.empty JsObject.empty false
                              (AppState.loadingStats st) (AppState.progress st)
                              EmptyString (AppState.autoLoad st)).
      cbv beta iota zeta.
      destruct (filterTournaments toLowerCase (Config.monthFilter config)
                                  (Config.nameFilter config) sorted)
        as [|t filtered] eqn:F.
      * cbn. split; [reflexivity|]. right. left.
        split; [discriminate|]. split; [discriminate|]. now split.
      * assert (Hne : t :: filtered <> []) by discriminate.
        pose proof (loadStats_unfold toLowerCase config network st1 Hne) as Hu.
        rewrite Hu. unfold passOver.
        destruct (statsLoop config network 0
                            (map (@Tournament.id num) (t :: filtered))
                            (Loop.mk JsObject.empty JsObject.empty 0 []))
          as [acc [message|]] eqn:L.
        -- cbn. split; [reflexivity|]. right. left.
           split; [discriminate|]. split; [|now split].
           apply orString_nonempty. discriminate.
        -- cbn [fst snd AppState.autoLoad AppState.error
                AppState.tournaments AppState.resultsByTournament
                AppState.gamesByTournament AppState.loadingTournaments
                AppState.loadingStats AppState.progress].
           split; [reflexivity|]. right. right.
           split; [discriminate|]. split; [reflexivity|].
           exists items. split; [reflexivity|]. split; [reflexivity|].
           unfold filteredTournaments. cbn [AppState.tournaments].
           change (AppState.tournaments st1) with sorted.
           rewrite F. split; [discriminate|].
           fold st1. rewrite Hu. unfold passOver. rewrite L.
           cbn [fst snd]. subst st1. cbn. now split.
Qed.

(** X22.  A [run] turns [autoLoad] off.  Without a team id it sends
    nothing and leaves the tournaments and both mappings as they were.
    With a team id, a run that ends with an error ends with both mappings
    empty, so the table shows no row, neither numbers from before the run
    nor numbers of the tournaments fetched before the failure: the
    aggregation returns the empty list, unless the id of a filtered
    tournament is a name that objects inherit from [Object.prototype],
    in which case it throws. *)
Theorem run_error_shows_nothing (st : AppState.t num) :
  let st' := fst (run toLowerCase config network st) in
  let sent := snd (run toLowerCase config network st) in
  AppState.autoLoad st' = false
  /\ (Config.teamId config = EmptyString ->
      sent = []
      /\ AppState.tournaments st' = AppState.tournaments st
      /\ AppState.resultsByTournament st' = AppState.resultsByTournament st
      /\ AppState.gamesByTournament st' = AppState.gamesByTournament st)
  /\ (Config.teamId config <> EmptyString ->
      AppState.error st' <> EmptyString ->
      AppState.resultsByTournament st' = JsObject.empty
      /\ AppState.gamesByTournament st' = JsObject.empty
      /\ displayedStats toLowerCase config st'
         = if existsb (fun t => JsObject.inherits (Tournament.id t))
                      (filteredTournaments toLowerCase config st')
           then ThrowsTypeError
           else Returned []).
Proof.
  cbv zeta. destruct (run_cases st) as [Hauto Hcases].
  split; [exact Hauto|]. split.
  - intros Team.
    destruct Hcases as [(_ & _ & Ht & Hr & Hg & Hs)|[(Hn & _)|(Hn & _)]];
      [now repeat split|contradiction|contradiction].
  - intros Team Herr.
    destruct Hcases as [(Ht & _)|[(_ & _ & Hr & Hg)|(_ & He & _)]];
      [contradiction| |contradiction].
    split; [exact Hr|]. split; [exact Hg|].
    unfold displayedStats. rewrite Hr. apply aggregatedStats_no_results.
Qed.

(** X23.  A [run] that ends without error has fetched the arena feed,
    stored the built tournaments, found at least one tournament passing
    the filters, sent exactly the planned requests for the filtered
    tournaments, all of which succeeded, and holds for each filtered
    tournament the body of a results request for its id. *)
Theorem run_success (st : AppState.t num) :
  let st' := fst (run toLowerCase config network st) in
  let sent := snd (run toLowerCase config network st) in
  let filtered := filteredTournaments toLowerCase config st' in
  let ids := map (@Tournament.id num) filtered in
  AppState.error st' = EmptyString ->
  (exists items,
      Network.arena network = Fetched items
      /\ AppState.tournaments st'
         = arraySort compareTournaments (mkTournaments network 0 items))
  /\ filtered <> []
  /\ allFetched config network 0 ids
  /\ sent = plannedRequests config ids
  /\ (forall t, In t filtered ->
                exists k rows,
                  nth_error ids k = Some (Tournament.id t)
                  /\ Network.results network k (Tournament.id t) = Fetched rows
                  /\ resultsOf (AppState.resultsByTournament st') t
                     = Returned rows).
Proof.
  cbv zeta. intros Herr. destruct (run_cases st) as [_ Hcases].
  destruct Hcases as [(_ & He & _)|[(_ & He & _)|(_ & _ & Hok)]];
    [rewrite Herr in He; discriminate|contradiction|].
  destruct Hok as (items & Harena & Htour & Hne & Hst & Hsent).
  set (filtered := filteredTournaments toLowerCase config
                                       (fst (run toLowerCase config network st)))
    in *.
  set (st1 := fst (loadTournaments config network st)) in *.
  assert (Hall : allFetched config network 0 (map (@Tournament.id num) filtered)).
  { apply (@statsLoop_None num config network _ 0%nat
                           (Loop.mk JsObject.empty JsObject.empty 0 [])).
    pose proof (loadStats_unfold toLowerCase config network st1 Hne) as Hu.
    rewrite Hu in Hst. unfold passOver in Hst.
    destruct (statsLoop config network 0 (map (@Tournament.id num) filtered)
                        (Loop.mk JsObject.empty JsObject.empty 0 []))
      as [acc [message|]]; [|reflexivity].
    cbn [fst] in Hst. exfalso.
    apply (f_equal (@AppState.error num)) in Hst. cbn [AppState.error] in Hst.
    rewrite Herr in Hst. revert Hst. apply orString_nonempty. discriminate. }
  split; [now exists items|]. split; [exact Hne|]. split; [exact Hall|].
  pose proof (loadStats_unfold toLowerCase config network st1 Hne) as Hu.
  pose proof (@statsLoop_results num config network
                                 (map (@Tournament.id num) filtered) 0%nat
                                 (Loop.mk JsObject.empty JsObject.empty 0 []))
    as Hres.
  destruct (@statsLoop_requests num config network
                                (map (@Tournament.id num) filtered) 0%nat
                                (Loop.mk JsObject.empty JsObject.empty 0 []))
    as (rest & Hrest & Hnil).
  apply (@statsLoop_None num config network _ 0%nat
                         (Loop.mk JsObject.empty JsObject.empty 0 [])) in Hall.
  rewrite Hu in Hst, Hsent. unfold passOver in Hst, Hsent.
  destruct (statsLoop config network 0 (map (@Tournament.id num) filtered)
                      (Loop.mk JsObject.empty JsObject.empty 0 []))
    as [acc [message|]]; [discriminate|].
  cbn [fst snd] in *. split.
  - rewrite <- Hsent. rewrite (Hnil eq_refl), app_nil_r in Hrest.
    symmetry. exact Hrest.
  - intros t Ht.
    destruct (proj1 (Hres eq_refl (Tournament.id t)) (in_map _ _ _ Ht))
      as (k & rows & Hk & Hr & Hget).
    exists k, rows. repeat split; try assumption.
    apply (f_equal (@AppState.resultsByTournament num)) in Hst.
    cbn [AppState.resultsByTournament] in Hst.
    unfold resultsOf, JsObject.lookup. now rewrite <- Hst, Hget.
Qed.
End LoadTournamentsFacts.

(** ** The order of the loaded tournaments, in exact arithmetic *)

Lemma compareTournaments_positive (x y : Tournament.t Q) :
  nlt (ofCount 0) (compareTournaments x y) = true ->
  (Tournament.startsAt x < Tournament.startsAt y)%Q.
Proof.
  unfold compareTournaments.
  change (@nsub Q _) with Qminus. change (@ofCount Q _ 0) with 0%Q.
  intros L. apply Exact_lt_iff in L. lra.
Qed.

Lemma compareTournaments_not_positive (x y : Tournament.t Q) :
  nlt (ofCount 0) (compareTournaments x y) = false ->
  (Tournament.startsAt y <= Tournament.startsAt x)%Q.
Proof.
  unfold compareTournaments.
  change (@nsub Q _) with Qminus. change (@ofCount Q _ 0) with 0%Q.
  intros L. apply Exact_lt_false_iff in L. lra.
Qed.

Lemma insertSorted_newest_first (x : Tournament.t Q) l :
  StronglySorted startsNoLater l ->
  StronglySorted startsNoLater (insertSorted compareTournaments x l).
Proof.
  induction l as [|y l IH]; intros Hs; cbn [insertSorted].
  - repeat constructor.
  - inversion Hs as [|? ? Hl Hy]; subst.
    destruct (nlt (ofCount 0) (compareTournaments x y)) eqn:L.
    + constructor; [now apply IH|].
      apply compareTournaments_positive in L.
      apply Forall_forall. intros z Hz.
      apply (Permutation_in _ (insertSorted_Permutation compareTournaments x l))
        in Hz.
      destruct Hz as [<-|Hz].
      * unfold startsNoLater. lra.
      * rewrite Forall_forall in Hy. now apply Hy.
    + apply compareTournaments_not_positive in L.
      constructor; [assumption|].
      constructor; [exact L|].
      rewrite Forall_forall in Hy |- *. intros z Hz.
      specialize (Hy z Hz). unfold startsNoLater in *. lra.
Qed.

Lemma arraySort_newest_first (l : list (Tournament.t Q)) :
  StronglySorted startsNoLater (arraySort compareTournaments l).
Proof.
  induction l as [|x l IH]; cbn [arraySort fold_right]; [constructor|].
  now apply insertSorted_newest_first.
Qed.

Lemma filter_insertSorted_sameStart s (x : Tournament.t Q) l :
  filter (sameStart s) (insertSorted compareTournaments x l)
  = filter (sameStart s) (x :: l).
Proof.
  induction l as [|y l IH]; [reflexivity|].
  cbn [insertSorted].
  destruct (nlt (ofCount 0) (compareTournaments x y)) eqn:L; [|reflexivity].
  apply compareTournaments_positive in L.
  cbn [filter] in *. rewrite IH.
  destruct (sameStart s x) eqn:Tx; [|reflexivity].
  destruct (sameStart s y) eqn:Ty; [|reflexivity].
  unfold sameStart in Tx, Ty.
  apply Qeq_bool_iff in Tx. apply Qeq_bool_iff in Ty. lra.
Qed.

Lemma filter_arraySort_sameStart s (l : list (Tournament.t Q)) :
  filter (sameStart s) (arraySort compareTournaments l) = filter (sameStart s) l.
Proof.
  induction l as [|x l IH]; [reflexivity|].
  cbn [arraySort fold_right]. rewrite filter_insertSorted_sameStart.
  cbn [filter]. unfold arraySort in IH. now rewrite IH.
Qed.

(** X24.  In exact arithmetic the list that [loadTournaments] returns is
    ordered newest first, and tournaments with the same [startsAt] keep
    the order of the feed. *)
Theorem loadTournaments_newest_first (config : Config.t Q)
        (network : Network.t Q) (st : AppState.t Q) :
  let loaded := snd (snd (loadTournaments config network st)) in
  StronglySorted startsNoLater loaded
  /\ (forall items s,
         Config.teamId config <> EmptyString ->
         Network.arena network = Fetched items ->
         filter (sameStart s) loaded
         = filter (sameStart s) (mkTournaments network 0 items)).
Proof.
  cbv zeta. unfold loadTournaments.
  destruct (Config.teamId config) as [|c team].
  - split; [constructor|]. intros items s Hteam. congruence.
  - destruct (Network.arena network) as [message|items]; cbn [fst snd].
    + split; [constructor|]. discriminate.
    + split; [apply arraySort_newest_first|].
      intros items' s _ [= <-]. apply filter_arraySort_sameStart.
Qed.

(** ** The loading functions on an example service *)

Lemma allFetched_example :
  allFetched LoadingExamples.config LoadingExamples.network 0
             (map (@Tournament.id Q) ExactExamples.tournaments).
Proof.
  intros k id Hk.
  destruct k as [|[|k]]; cbn in Hk.
  - injection Hk as <-. split; [eexists; reflexivity|].
    intros _. eexists. reflexivity.
  - injection Hk as <-. split; [eexists; reflexivity|].
    intros _. eexists. reflexivity.
  - destruct k; discriminate.
Qed.

Lemma loadStats_entries_witness :
  ExactExamples.tournaments <> []
  /\ JsObject.get
       (AppState.resultsByTournament
          (fst (loadStats asciiToLowerCase LoadingExamples.config
                          LoadingExamples.network LoadingExamples.initial
                          (Some ExactExamples.tournaments))))
       "T3"%string = None.
Proof.
  split; [discriminate|].
  refine (proj1 (proj2 (@loadStats_entries
                          Q _ asciiToLowerCase LoadingExamples.config
                          LoadingExamples.network LoadingExamples.initial
                          ExactExamples.tournaments _ allFetched_example))
                "T3"%string _).
  - discriminate.
  - cbn. intros [H|[H|[]]]; discriminate.
Defined.

Lemma run_error_shows_nothing_witness :
  AppState.error (fst (run asciiToLowerCase LoadingExamples.config
                           LoadingExamples.failing LoadingExamples.initial))
  = "429 Too Many Requests - "%string
  /\ displayedStats asciiToLowerCase LoadingExamples.config
                    (fst (run asciiToLowerCase LoadingExamples.config
                              LoadingExamples.failing LoadingExamples.initial))
     = Returned [].
Proof.
  split; [vm_compute; reflexivity|].
  destruct (@run_error_shows_nothing
              Q _ asciiToLowerCase LoadingExamples.config
              LoadingExamples.failing LoadingExamples.initial)
    as (_ & _ & Hshow).
  assert (Hteam : Config.teamId LoadingExamples.config <> EmptyString)
    by discriminate.
  assert (Herr : AppState.error
                   (fst (run asciiToLowerCase LoadingExamples.config
                             LoadingExamples.failing LoadingExamples.initial))
                 <> EmptyString)
    by (vm_compute; discriminate).
  destruct (Hshow Hteam Herr) as (_ & _ & ->).
  vm_compute. reflexivity.
Defined.

Lemma run_success_witness :
  snd (run asciiToLowerCase LoadingExamples.config LoadingExamples.network
           LoadingExamples.initial)
  = [GetResults "T2"; GetGames "T2"; GetResults "T1"; GetGames "T1"]%string.
Proof.
  assert (He : AppState.error
                 (fst (run asciiToLowerCase LoadingExamples.config
                           LoadingExamples.network LoadingExamples.initial))
               = EmptyString) by (vm_compute; reflexivity).
  destruct (@run_success Q _ asciiToLowerCase LoadingExamples.config
                         LoadingExamples.network LoadingExamples.initial He)
    as (_ & _ & _ & Hs & _).
  rewrite Hs. vm_compute. reflexivity.
Defined.

(** ** The search parameters and the links *)

Lemma replaceFirst_absent (c : ascii) (a b : string) :
  occurs c a = false ->
  replaceFirst c (a ++ String c b) = (a ++ b)%string.
Proof.
  induction a as [|x a IH]; cbn [occurs replaceFirst String.append].
  - intros _. now rewrite Ascii.eqb_refl.
  - intros Ho. apply orb_false_iff in Ho. destruct Ho as [Hx Ha].
    rewrite Hx. now rewrite IH.
Qed.

Lemma string_app_assoc (a b c : string) :
  ((a ++ b) ++ c = a ++ b ++ c)%string.
Proof.
  induction a as [|x a IH]; cbn [String.append]; [reflexivity|].
  now rewrite IH.
Qed.

Section LinkFacts.
Context {num : Type} `{JsNumber num}.
Variable numberToString : num -> string.
Variable toNumber : option string -> num.
Variable trim : string -> string.
Local Open Scope string_scope.

(** X25.  Reading the settings, as the component does at its creation,
    from the search parameters that [shareLink] builds gives back the team
    id and the name filter, the month and the status with their defaults
    for the empty string, and always [includeGames = true]: the parameters
    hold ["games"] as ["1"] or not at all, never as ["0"].  They meet the
    required parameters exactly when the team id and the month are not
    empty. *)
Theorem share_link_settings (config : Config.t num) (now : num) :
  let params := searchOf numberToString (shareParams config) in
  let config' := initialConfig toNumber params now in
  Config.teamId config' = Config.teamId config
  /\ Config.nameFilter config' = Config.nameFilter config
  /\ Config.monthFilter config'
     = orString (Config.monthFilter config) (toMonthInputValue now)
  /\ Config.statusFilter config'
     = orString (Config.statusFilter config) "finished"
  /\ SearchParams.get params "games"
     = (if Config.includeGames config then Some "1" else None)
  /\ Config.includeGames config' = true
  /\ hasRequiredParams params
     = negb (String.eqb (Config.teamId config) "")
       && negb (String.eqb (Config.monthFilter config) "").
Proof.
  destruct config as [team name month status maxT games].
  cbv zeta.
  destruct team as [|c1 team], name as [|c2 name], month as [|c3 month],
    status as [|c4 status], games; cbn; repeat split; reflexivity.
Qed.

(** X26.  Reading the settings from the search parameters that
    [setupLink] builds gives the trimmed team and name of the form, the
    month and the status with their defaults for the empty string, and the
    form's choice for the game data: the parameters always hold ["games"],
    as ["1"] or ["0"].  [max] is present exactly when the form's Number is
    truthy.  They meet the required parameters exactly when the trimmed
    team and the month are not empty. *)
Theorem setup_link_settings (setup : Setup.t num) (now : num) :
  let params := searchOf numberToString (setupParams trim setup) in
  let config' := initialConfig toNumber params now in
  Config.teamId config' = trim (Setup.setupTeam setup)
  /\ Config.nameFilter config' = trim (Setup.setupName setup)
  /\ Config.monthFilter config'
     = orString (Setup.setupMonth setup) (toMonthInputValue now)
  /\ Config.statusFilter config'
     = orString (Setup.setupStatus setup) "finished"
  /\ SearchParams.get params "games"
     = Some (if Setup.setupGames setup then "1" else "0")
  /\ Config.includeGames config' = Setup.setupGames setup
  /\ SearchParams.get params "max"
     = (if truthyNum (Setup.setupMax setup)
        then Some (numberToString (Setup.setupMax setup)) else None)
  /\ hasRequiredParams params
     = negb (String.eqb (trim (Setup.setupTeam setup)) "")
       && negb (String.eqb (Setup.setupMonth setup) "").
Proof.
  destruct setup as [team month name status maxT games].
  cbv zeta. unfold setupParams. cbn [Setup.setupTeam Setup.setupMonth
    Setup.setupName Setup.setupStatus Setup.setupMax Setup.setupGames].
  destruct (trim team) as [|c1 team'], (trim name) as [|c2 name'],
    month as [|c3 month], status as [|c4 status],
    (truthyNum maxT), games; cbn; repeat split; reflexivity.
Qed.

(** X27.  When the component starts with [autoLoad] on, the team id and
    the month filter are the non-empty values of the parameters ["team"]
    and ["month"], and the tournaments that pass the filters all have the
    month key given by the parameter. *)
Theorem auto_load_settings (params : SearchParams.t) (now : num) :
  let config := initialConfig toNumber params now in
  AppState.autoLoad (@initialState num params) = true ->
  Some (Config.teamId config) = SearchParams.get params "team"
  /\ Config.teamId config <> ""
  /\ Some (Config.monthFilter config) = SearchParams.get params "month"
  /\ Config.monthFilter config <> ""
  /\ (forall toLowerCase ts t,
         In t (filterTournaments toLowerCase (Config.monthFilter config)
                                 (Config.nameFilter config) ts) ->
         Some (formatMonthKey (Tournament.startsAt t))
         = SearchParams.get params "month").
Proof.
  cbv zeta. unfold initialState, hasRequiredParams, initialConfig.
  cbn [AppState.autoLoad Config.teamId Config.monthFilter Config.nameFilter].
  intros Hreq. apply andb_true_iff in Hreq. destruct Hreq as [Ht Hm].
  destruct (SearchParams.get params "team") as [[|c1 team]|];
    try discriminate.
  destruct (SearchParams.get params "month") as [[|c2 month]|];
    try discriminate.
  cbn [orDefault].
  split; [reflexivity|]. split; [discriminate|].
  split; [reflexivity|]. split; [discriminate|].
  intros toLowerCase ts t Hin. unfold filterTournaments in Hin.
  apply filter_In in Hin. destruct Hin as [_ Hin].
  apply andb_true_iff in Hin. destruct Hin as [Hin _].
  unfold byMonth in Hin. cbn [String.eqb] in Hin.
  apply orb_true_iff in Hin. destruct Hin as [Hin|Hin]; [discriminate|].
  apply String.eqb_eq in Hin. now rewrite Hin.
Qed.
End LinkFacts.

(** X28.  The link is the origin, the path and, when the query is not
    empty, ["?"] and the query, provided that ["$"] occurs neither in the
    origin nor in the path; when it does, its first occurrence there is
    removed and a ["$"] stays in front of the query. *)
Theorem link_shape (origin pathname query : string) :
  let suffix := if String.eqb query "" then EmptyString
                else ("?" ++ query)%string in
  (occurs "$" (origin ++ pathname) = false ->
   linkOf origin pathname query = (origin ++ pathname ++ suffix)%string)
  /\ (forall a b,
         (origin ++ pathname)%string = (a ++ String "$" b)%string ->
         occurs "$" a = false ->
         linkOf origin pathname query = (a ++ b ++ "$" ++ suffix)%string).
Proof.
  cbv zeta. unfold linkOf.
  assert (Hq : (if truthyStr (Some query) then ("?" ++ query)%string
                else EmptyString)
               = (if String.eqb query "" then EmptyString
                  else ("?" ++ query)%string))
    by (destruct query; reflexivity).
  rewrite Hq. clear Hq.
  set (suffix := if String.eqb query "" then EmptyString
                 else ("?" ++ query)%string).
  rewrite <- string_app_assoc.
  change ("$" ++ suffix)%string with (String "$" suffix).
  split.
  - intros Ho. rewrite (@replaceFirst_absent _ _ _ Ho).
    apply string_app_assoc.
  - intros a b Hab Ho. rewrite Hab, string_app_assoc.
    change (String "$" b ++ String "$" suffix)%string
      with (String "$" (b ++ String "$" suffix)).
    now rewrite (@replaceFirst_absent _ _ _ Ho).
Qed.

Lemma link_shape_witness :
  linkOf "https://example.org" "/stats$/" "team=gambit"
  = "https://example.org/stats/$?team=gambit"%string.
Proof.
  apply (proj2 (link_shape "https://example.org" "/stats$/" "team=gambit")
               "https://example.org/stats"%string "/"%string);
    reflexivity.
Defined.

(** X29.  The initial [maxTournaments] is a positive finite Number
    whatever the ["max"] parameter holds, in exact arithmetic and on
    doubles. *)
Theorem initialMax_positive :
  (forall (toNumber : option string -> Q) params,
      (0 < initialMax toNumber params)%Q)
  /\ (forall (toNumber : option string -> float) params,
         isFinite (initialMax toNumber params) = true
         /\ nlt (ofCount 0) (initialMax toNumber params) = true).
Proof.
  split.
  - intros toNumber params. unfold initialMax.
    destruct (isFinite (toNumber (SearchParams.get params "max"))
              && nlt (ofCount 0) (toNumber (SearchParams.get params "max")))
      eqn:E.
    + apply andb_true_iff in E. destruct E as [_ E].
      now apply Exact_lt_iff in E.
    + reflexivity.
  - intros toNumber params. unfold initialMax.
    destruct (isFinite (toNumber (SearchParams.get params "max"))
              && nlt (ofCount 0) (toNumber (SearchParams.get params "max")))
      eqn:E.
    + now apply andb_true_iff in E.
    + split; vm_compute; reflexivity.
Qed.

Lemma auto_load_settings_witness :
  Config.teamId (initialConfig (fun _ => 0%Q)
                               [("team", "gambit"); ("month", "2024-03")]%string
                               LoadingExamples.now)
  <> EmptyString.
Proof.
  refine (proj1 (proj2 (@auto_load_settings
                          Q _ (fun _ => 0%Q)
                          [("team", "gambit"); ("month", "2024-03")]%string
                          LoadingExamples.now _))).
  reflexivity.
Defined.
